(** * Verification of the PyLadies Pyro workshop notebooks

    The repository consists of two Jupyter notebooks:
    - the worked Bayesian linear regression ("Linear Bayesian Modelling
      with Pyro"), and
    - the empty template of the variational autoencoder ("Part 2 -
      Variational Autoencoder - Empty Template").

    The development has two layers.  [PyAst] and [Notebooks] hold the code
    cells of both notebooks as Python abstract syntax, statement by
    statement, so that properties of the program text (placeholders, cell
    order, calls, error handling) are decided by traversals.  [Sem] holds the
    behaviour of the functions and loops the notebooks define, written
    as state-passing functions over an abstract framework (Pyro/PyTorch),
    whose primitives are the fields of a record. *)

From Stdlib Require Import List String ZArith Bool Arith Lia.
Import ListNotations.
Open Scope string_scope.
Open Scope list_scope.
Set Warnings "-register-all".

(* ===================================================================== *)
(** ** Python abstract syntax                                             *)
(* ===================================================================== *)

Module PyAst.

(** Literals.  A float literal keeps its decimal text as written; the
    underscore digit separators of the source ([1_000]) are dropped. *)
Inductive constant : Type :=
| CNone
| CBool (b : bool)
| CInt (n : Z)
| CFloat (text : string)
| CStr (s : string).

Inductive binop : Type := Add | Sub | Mult | Div | Mod.
Inductive unaryop : Type := USub | Not.
Inductive cmpop : Type := Eq | NotEq | Lt | Gt.

Inductive expr : Type :=
| EName (id : string)
| EConstant (c : constant)
| EAttribute (value : expr) (attr : string)
| ECall (func : expr) (args : list expr) (keywords : list (string * expr))
| ESubscript (value : expr) (index : expr)
| ESlice (lower upper : option expr)
| EBinOp (left : expr) (op : binop) (right : expr)
| EUnaryOp (op : unaryop) (operand : expr)
| ECompare (left : expr) (op : cmpop) (right : expr)
| ETuple (elts : list expr)
| EList (elts : list expr)
| EDict (items : list (expr * expr))
| EListComp (elt : expr) (target : expr) (iter : expr)
| EJoinedStr (parts : list expr)
| EYield (value : option expr).

(** A formal parameter: name, annotation, default value. *)
Record param : Type := mkParam {
  p_name : string;
  p_annotation : option expr;
  p_default : option expr
}.

Inductive stmt : Type :=
| SExpr (value : expr)
| SAssign (target : expr) (value : expr)
| SAugAssign (target : expr) (op : binop) (value : expr)
| SReturn (value : option expr)
| SPass
| SImport (module : string) (asname : option string)
| SImportFrom (module : string) (name : string) (asname : option string)
| SShell (command : string)
| SFor (target : expr) (iter : expr) (body : list stmt)
| SIf (test : expr) (body : list stmt) (orelse : list stmt)
| SWith (context : expr) (body : list stmt)
| SFunctionDef (name : string) (params : list param) (body : list stmt)
| SClassDef (name : string) (bases : list expr) (body : list stmt)
| STry (body : list stmt) (handlers : list (option expr * list stmt))
       (finalbody : list stmt)
| SRaise (exc : option expr).

Inductive cell : Type :=
| Markdown (heading : string)
| Code (source : list stmt).

Definition notebook : Type := list cell.

(** *** Builders used to write the notebooks down *)

Definition none : expr := EConstant CNone.
Definition int (n : Z) : expr := EConstant (CInt n).
Definition flt (text : string) : expr := EConstant (CFloat text).
Definition str (s : string) : expr := EConstant (CStr s).

(** [dot ["a"; "b"; "c"]] is the expression [a.b.c]. *)
Fixpoint dot_from (e : expr) (path : list string) : expr :=
  match path with
  | [] => e
  | a :: rest => dot_from (EAttribute e a) rest
  end.

Definition dot (path : list string) : expr :=
  match path with
  | [] => EName ""
  | x :: rest => dot_from (EName x) rest
  end.

(** [call f args] has no keyword arguments, [callk f args kws] has. *)
Definition call (f : expr) (args : list expr) : expr := ECall f args [].
Definition callk (f : expr) (args : list expr) (kws : list (string * expr)) : expr :=
  ECall f args kws.
(** [meth e "m" args] is the method call [e.m(args)]. *)
Definition meth (e : expr) (m : string) (args : list expr) : expr :=
  ECall (EAttribute e m) args [].
Definition arg (name : string) : param := mkParam name None None.

(** *** Traversals *)

Definition opt_list {A} (o : option A) : list A :=
  match o with Some a => [a] | None => [] end.

(** All sub-expressions of an expression, itself first (pre-order). *)
Fixpoint sub_exprs (e : expr) : list expr :=
  e ::
  match e with
  | EName _ | EConstant _ => []
  | EAttribute v _ => sub_exprs v
  | ECall f args kws =>
      sub_exprs f ++ flat_map sub_exprs args
        ++ flat_map (fun kw => sub_exprs (snd kw)) kws
  | ESubscript v i => sub_exprs v ++ sub_exprs i
  | ESlice lo hi =>
      match lo with Some l => sub_exprs l | None => [] end
      ++ match hi with Some h => sub_exprs h | None => [] end
  | EBinOp l _ r => sub_exprs l ++ sub_exprs r
  | EUnaryOp _ x => sub_exprs x
  | ECompare l _ r => sub_exprs l ++ sub_exprs r
  | ETuple es | EList es | EJoinedStr es => flat_map sub_exprs es
  | EDict items =>
      flat_map (fun kv => sub_exprs (fst kv) ++ sub_exprs (snd kv)) items
  | EListComp elt target iter =>
      sub_exprs elt ++ sub_exprs target ++ sub_exprs iter
  | EYield v => match v with Some x => sub_exprs x | None => [] end
  end.

(** All sub-statements of a statement, itself first (pre-order). *)
Fixpoint sub_stmts (s : stmt) : list stmt :=
  s ::
  match s with
  | SFor _ _ body | SWith _ body | SFunctionDef _ _ body
  | SClassDef _ _ body => flat_map sub_stmts body
  | SIf _ body orelse => flat_map sub_stmts body ++ flat_map sub_stmts orelse
  | STry body handlers finalbody =>
      flat_map sub_stmts body
        ++ flat_map (fun h => flat_map sub_stmts (snd h)) handlers
        ++ flat_map sub_stmts finalbody
  | _ => []
  end.

(** The expressions a statement holds itself (not those of nested
    statements). *)
Definition own_exprs (s : stmt) : list expr :=
  match s with
  | SExpr v => [v]
  | SAssign t v => [t; v]
  | SAugAssign t _ v => [t; v]
  | SReturn v => opt_list v
  | SFor t i _ => [t; i]
  | SIf c _ _ => [c]
  | SWith c _ => [c]
  | SFunctionDef _ ps _ =>
      flat_map (fun p => opt_list (p_annotation p) ++ opt_list (p_default p)) ps
  | SClassDef _ bases _ => bases
  | STry _ handlers _ => flat_map (fun h => opt_list (fst h)) handlers
  | SRaise e => opt_list e
  | SPass | SImport _ _ | SImportFrom _ _ _ | SShell _ => []
  end.

Definition stmts_of (body : list stmt) : list stmt := flat_map sub_stmts body.

Definition exprs_of (body : list stmt) : list expr :=
  flat_map (fun s => flat_map sub_exprs (own_exprs s)) (stmts_of body).

Definition cell_source (c : cell) : list stmt :=
  match c with Code src => src | Markdown _ => [] end.

Definition notebook_source (nb : notebook) : list stmt :=
  flat_map cell_source nb.

(** The dotted path of a name expression: [a.b.c] gives [["a";"b";"c"]]. *)
Fixpoint dotted_path (e : expr) : option (list string) :=
  match e with
  | EName x => Some [x]
  | EAttribute v a =>
      match dotted_path v with
      | Some p => Some (p ++ [a])
      | None => None
      end
  | _ => None
  end.

Definition path_eqb (p q : list string) : bool :=
  if list_eq_dec string_dec p q then true else false.

(** Is [e] a call of the function named by the dotted [path]? *)
Definition is_call_of (path : list string) (e : expr) : bool :=
  match e with
  | ECall f _ _ =>
      match dotted_path f with
      | Some p => path_eqb p path
      | None => false
      end
  | _ => false
  end.

(** Is [e] a call of a method (or function) whose last name is [m]? *)
Definition is_call_named (m : string) (e : expr) : bool :=
  match e with
  | ECall (EAttribute _ a) _ _ => String.eqb a m
  | ECall (EName a) _ _ => String.eqb a m
  | _ => false
  end.

Definition calls_of (path : list string) (body : list stmt) : list expr :=
  filter (is_call_of path) (exprs_of body).

Definition calls_named (m : string) (body : list stmt) : list expr :=
  filter (is_call_named m) (exprs_of body).

End PyAst.

(* ===================================================================== *)
(** ** The two notebooks, cell by cell                                    *)
(* ===================================================================== *)

Module Notebooks.
Import PyAst.

(** *** Linear Bayesian Modelling with Pyro (the regression notebook) *)

Module Regression.

Definition install_cell : list stmt :=
  [ SShell "pip3 install -r requirements.txt" ].

Definition import_cell : list stmt :=
  [ SImport "pandas" (Some "pd");
    SImport "numpy" (Some "np");
    SImport "torch" None;
    SImportFrom "torch" "nn" None;
    SImport "pyro" None;
    SImportFrom "pyro.nn" "PyroSample" None;
    SImportFrom "pyro.nn" "PyroParam" None;
    SImportFrom "pyro.nn" "PyroModule" None;
    SImport "pyro.distributions" (Some "dist");
    SImportFrom "pyro" "poutine" None;
    SImportFrom "plotly.subplots" "make_subplots" None;
    SImport "plotly.graph_objects" (Some "go");
    SImport "plotly.express" (Some "px");
    SImportFrom "typing" "List" None;
    SImportFrom "tqdm" "tqdm" None ].

Definition load_cell : list stmt :=
  [ SAssign (EName "media")
      (call (dot ["pd"; "read_parquet"]) [str "./assets/media_prepped.parquet"]);
    SAssign (EName "sales")
      (call (dot ["pd"; "read_parquet"]) [str "./assets/sales_prepped.parquet"]);
    SAssign (EName "X")
      (callk (dot ["torch"; "tensor"]) [meth (EName "media") "to_numpy" []]
         [("dtype", dot ["torch"; "float32"])]);
    SAssign (EName "y")
      (callk (dot ["torch"; "tensor"]) [meth (EName "sales") "to_numpy" []]
         [("dtype", dot ["torch"; "float32"])]) ].

Definition RevenueModel_init : stmt :=
  SFunctionDef "__init__"
    [ arg "self";
      mkParam "media_channels" (Some (EName "int")) (Some (int 7));
      mkParam "sales_products" (Some (EName "int")) (Some (int 2));
      mkParam "bias_lower_bound"
        (Some (ESubscript (EName "List") (EName "float")))
        (Some (EBinOp (EList [flt "0."]) Mult (int 2)));
      mkParam "bias_upper_bound"
        (Some (ESubscript (EName "List") (EName "float")))
        (Some (EBinOp (EList [flt "10000."]) Mult (int 2))) ]
    [ SExpr (meth (call (EName "super") []) "__init__" []);
      SAssign (dot ["self"; "linear_layer"])
        (callk (ESubscript (EName "PyroModule") (dot ["nn"; "Linear"])) []
           [("in_features", EName "media_channels");
            ("out_features", EName "sales_products")]);
      SAssign (dot ["self"; "linear_layer"; "weight"])
        (call (EName "PyroSample")
           [meth
              (call (dot ["dist"; "FoldedDistribution"])
                 [call (dot ["dist"; "Normal"])
                    [EBinOp
                       (call (dot ["torch"; "ones"])
                          [EName "sales_products"; EName "media_channels"])
                       Mult (flt "0.5");
                     call (dot ["torch"; "ones"])
                       [EName "sales_products"; EName "media_channels"]]])
              "to_event" [int 2]]);
      SAssign (dot ["self"; "linear_layer"; "bias"])
        (call (EName "PyroSample")
           [meth
              (call (dot ["dist"; "Uniform"])
                 [call (dot ["torch"; "tensor"]) [EName "bias_lower_bound"];
                  call (dot ["torch"; "tensor"]) [EName "bias_upper_bound"]])
              "to_event" [int 1]]);
      SAssign (dot ["self"; "sales_products"]) (EName "sales_products");
      SAssign (dot ["self"; "media_channels"]) (EName "media_channels") ].

Definition RevenueModel_forward : stmt :=
  SFunctionDef "forward"
    [ arg "self"; arg "X"; mkParam "y" None (Some none) ]
    [ SAssign (EName "y_hat") (call (dot ["self"; "linear_layer"]) [EName "X"]);
      SAssign (EName "noise")
        (call (dot ["pyro"; "sample"])
           [str "noise";
            meth
              (meth
                 (call (dot ["dist"; "HalfNormal"])
                    [call (dot ["torch"; "tensor"])
                       [EList [flt "1000."; flt "1000."]]])
                 "expand" [EList [int 1; int 2]])
              "to_event" [int 1]]);
      SWith (call (dot ["pyro"; "plate"])
               [str "sample"; dot ["self"; "sales_products"]])
        [ SWith (call (dot ["pyro"; "plate"])
                   [str "data"; call (EName "len") [EName "X"]])
            [ SExpr
                (callk (dot ["pyro"; "sample"])
                   [str "obs";
                    call (dot ["dist"; "Normal"]) [EName "y_hat"; EName "noise"]]
                   [("obs", EName "y")]) ] ];
      SReturn (Some (EName "y_hat")) ].

Definition RevenueModel : stmt :=
  SClassDef "RevenueModel" [EName "PyroModule"]
    [ RevenueModel_init; RevenueModel_forward ].

Definition model_cell : list stmt := [ RevenueModel ].

Definition render_cell : list stmt :=
  [ SExpr
      (callk (dot ["pyro"; "render_model"]) [call (EName "RevenueModel") []]
         [("model_args", ETuple [EName "X"; EName "y"]);
          ("render_params", EConstant (CBool true));
          ("render_distributions", EConstant (CBool true))]) ].

Definition trace_cell : list stmt :=
  [ SAssign (EName "trace")
      (meth (call (dot ["poutine"; "trace"]) [call (EName "RevenueModel") []])
         "get_trace" [EName "X"; EName "y"]);
    SExpr (meth (EName "trace") "compute_log_prob" []);
    SExpr (call (EName "print") [meth (EName "trace") "format_shapes" []]) ].

Definition RevenueGuide : stmt :=
  SClassDef "RevenueGuide"
    [dot ["pyro"; "infer"; "autoguide"; "AutoDiagonalNormal"]]
    [ SPass ].

Definition guide_cell : list stmt := [ RevenueGuide ].

Definition training_loop : stmt :=
  SFor (EName "epoch")
    (callk (EName "tqdm") [call (EName "range") [EName "EPOCHS"]]
       [("total", EName "EPOCHS")])
    [ SAssign (EName "loss")
        (call (dot ["svi"; "step"]) [EName "X"; EName "y"]);
      SExpr
        (meth (EName "losses") "append"
           [EBinOp (EName "loss") Div (call (EName "len") [EName "X"])]) ].

Definition training_cell : list stmt :=
  [ SExpr (call (dot ["pyro"; "clear_param_store"]) []);
    SAssign (EName "model") (call (EName "RevenueModel") []);
    SAssign (EName "guide") (call (EName "RevenueGuide") [EName "model"]);
    SAssign (EName "optimizer")
      (call (dot ["pyro"; "optim"; "Adam"]) [EDict [(str "lr", flt "1e-3")]]);
    SAssign (EName "loss")
      (callk (dot ["pyro"; "infer"; "Trace_ELBO"]) []
         [("retain_graph", EConstant (CBool false))]);
    SAssign (EName "svi")
      (callk (dot ["pyro"; "infer"; "SVI"]) []
         [("model", EName "model"); ("guide", EName "guide");
          ("optim", EName "optimizer"); ("loss", EName "loss")]);
    SAssign (EName "EPOCHS") (int 1000);
    SAssign (EName "losses") (EList []);
    training_loop;
    SExpr (call (dot ["px"; "line"]) [EName "losses"]) ].

Definition inference_cell : list stmt :=
  [ SAssign (EName "predictive")
      (callk (dot ["pyro"; "infer"; "Predictive"]) []
         [("model", EName "model"); ("guide", EName "guide");
          ("num_samples", int 10000)]);
    SAssign (EName "samples") (call (EName "predictive") [EName "X"]);
    SAssign (EName "beta_hat")
      (meth
         (meth
            (meth
               (meth (ESubscript (EName "samples") (str "linear_layer.weight"))
                  "reshape" [EUnaryOp USub (int 1); int 2; int 7])
               "detach" [])
            "cpu" [])
         "numpy" []);
    SAssign (EName "beta_hat_prime")
      (call (dot ["np"; "moveaxis"])
         [EName "beta_hat"; int 0; EUnaryOp USub (int 1)]);
    SAssign (EName "fig")
      (callk (EName "make_subplots") [] [("rows", int 2); ("cols", int 7)]);
    SFor (ETuple [EName "row"; EName "product"])
      (callk (EName "enumerate") [EName "beta_hat_prime"] [("start", int 1)])
      [ SFor (ETuple [EName "column"; EName "coefficient_samples"])
          (callk (EName "enumerate") [EName "product"] [("start", int 1)])
          [ SExpr
              (callk (dot ["fig"; "add_trace"])
                 [callk (dot ["go"; "Histogram"]) []
                    [("x", EName "coefficient_samples");
                     ("name",
                      EJoinedStr
                        [ESubscript (dot ["sales"; "columns"])
                           (EBinOp (EName "row") Sub (int 1));
                         str " - ";
                         ESubscript (dot ["media"; "columns"])
                           (EBinOp (EName "column") Sub (int 1))])]]
                 [("row", EName "row"); ("col", EName "column")]) ] ];
    SExpr (meth (EName "fig") "show" []) ].

Definition cells : notebook :=
  [ Markdown "# Linear Bayesian Modelling with Pyro";
    Markdown "";
    Markdown "## Sections";
    Markdown "## 0. Setup";
    Code install_cell;
    Code import_cell;
    Code load_cell;
    Markdown "## 1. Defining a Model";
    Code model_cell;
    Code render_cell;
    Code trace_cell;
    Markdown "## 2. Defining a Guide";
    Code guide_cell;
    Markdown "## 3. Defining a Trainingloop";
    Code training_cell;
    Markdown "## 4. Inference";
    Code inference_cell ].

End Regression.

(** *** Part 2 - Variational Autoencoder - Empty Template *)

Module VaeTemplate.

Definition setup_cell : list stmt :=
  [ SShell "pip3 install -r requirements.txt";
    SImport "pyro" None;
    SImport "torch" None;
    SImportFrom "pyro" "distributions" (Some "dist");
    SImportFrom "pyro.nn" "PyroModule" None;
    SImportFrom "pyro.nn" "PyroSample" None;
    SImportFrom "pyro.nn" "PyroParam" None;
    SImportFrom "pyro.contrib.examples.util" "MNIST" None;
    SImport "pyro.poutine" (Some "poutine");
    SImport "torchvision.transforms" (Some "transforms");
    SImportFrom "torch" "nn" None;
    SImport "numpy" (Some "np");
    SImportFrom "tqdm" "tqdm" None;
    SImportFrom "PIL" "Image" None;
    SImportFrom "sklearn.manifold" "TSNE" None;
    SImport "plotly.express" (Some "px");
    SImportFrom "torchsummary" "summary" None;
    SImportFrom "itertools" "chain" None;
    SImport "plotly.express" (Some "px") ].

Definition setup_data_loaders : stmt :=
  SFunctionDef "setup_data_loaders"
    [ mkParam "batch_size" None (Some (int 128)) ]
    [ SAssign (EName "root") (str "./data");
      SAssign (EName "download") (EConstant (CBool true));
      SAssign (EName "trans") (call (dot ["transforms"; "ToTensor"]) []);
      SAssign (EName "train_set")
        (callk (EName "MNIST") []
           [("root", EName "root"); ("train", EConstant (CBool true));
            ("transform", EName "trans"); ("download", EName "download")]);
      SAssign (EName "test_set")
        (callk (EName "MNIST") []
           [("root", EName "root"); ("train", EConstant (CBool false));
            ("transform", EName "trans"); ("download", EName "download")]);
      SAssign (EName "train_loader")
        (callk (dot ["torch"; "utils"; "data"; "DataLoader"]) []
           [("dataset", EName "train_set"); ("batch_size", EName "batch_size");
            ("shuffle", EConstant (CBool true))]);
      SAssign (EName "test_loader")
        (callk (dot ["torch"; "utils"; "data"; "DataLoader"]) []
           [("dataset", EName "test_set"); ("batch_size", EName "batch_size");
            ("shuffle", EConstant (CBool false))]);
      SReturn (Some (ETuple [EName "train_loader"; EName "test_loader"])) ].

Definition loaders_cell : list stmt := [ setup_data_loaders ].

Definition super_init : stmt :=
  SExpr (meth (call (EName "super") []) "__init__" []).

Definition Encoder_init : stmt :=
  SFunctionDef "__init__" [ arg "self" ]
    [ super_init;
      SAssign (dot ["self"; "conv1"]) none;
      SAssign (dot ["self"; "conv2"]) none;
      SAssign (dot ["self"; "batchnorm"]) none;
      SAssign (dot ["self"; "fc_intermediate"]) none;
      SAssign (dot ["self"; "fc_mean"]) none;
      SAssign (dot ["self"; "fc_std"]) none;
      SAssign (dot ["self"; "softplus"]) none;
      SAssign (dot ["self"; "flatten"]) none ].

Definition Encoder_forward : stmt :=
  SFunctionDef "forward" [ arg "self"; arg "X" ]
    [ SAssign (EName "z_loc") none;
      SAssign (EName "z_scale") none;
      SReturn (Some (ETuple [EName "z_loc"; EName "z_scale"])) ].

Definition Encoder : stmt :=
  SClassDef "Encoder" [dot ["nn"; "Module"]] [ Encoder_init; Encoder_forward ].

Definition encoder_cell : list stmt := [ Encoder ].

Definition encoder_summary_cell : list stmt :=
  [ SExpr (call (EName "summary")
             [call (EName "Encoder") []; ETuple [int 1; int 28; int 28]]) ].

Definition Decoder_init : stmt :=
  SFunctionDef "__init__" [ arg "self" ]
    [ super_init;
      SAssign (dot ["self"; "fc_mean_std"]) none;
      SAssign (dot ["self"; "fc_intermediate"]) none;
      SAssign (dot ["self"; "deconv2"]) none;
      SAssign (dot ["self"; "deconv1"]) none;
      SAssign (dot ["self"; "fc_out"]) none;
      SAssign (dot ["self"; "softplus"]) none;
      SAssign (dot ["self"; "sigmoid"]) none;
      SAssign (dot ["self"; "flatten"]) none ].

Definition Decoder_forward : stmt :=
  SFunctionDef "forward" [ arg "self"; arg "z" ]
    [ SAssign (EName "loc_out") none;
      SReturn
        (Some (meth (EName "loc_out") "reshape"
                 [EUnaryOp USub (int 1); int 1; int 28; int 28])) ].

Definition Decoder : stmt :=
  SClassDef "Decoder" [dot ["nn"; "Module"]] [ Decoder_init; Decoder_forward ].

Definition decoder_cell : list stmt := [ Decoder ].

Definition decoder_summary_cell : list stmt :=
  [ SExpr (call (EName "summary")
             [call (EName "Decoder") []; ETuple [int 32]]) ].

Definition VAE_init : stmt :=
  SFunctionDef "__init__" [ arg "self" ]
    [ super_init;
      SAssign (dot ["self"; "encoder"]) none;
      SAssign (dot ["self"; "decoder"]) none;
      SAssign (dot ["self"; "z_dim"]) none ].

Definition VAE_model : stmt :=
  SFunctionDef "model" [ arg "self"; arg "X" ]
    [ SPass;
      SWith none
        [ SAssign (EName "z_loc") none;
          SAssign (EName "z_scale") none;
          SAssign (EName "z")
            (call (dot ["pyro"; "sample"]) [str "latent"; none]);
          SAssign (EName "loc_out") none;
          SExpr (callk (dot ["pyro"; "sample"]) [str "obs"; none]
                   [("obs", EName "X")]);
          SReturn (Some (EName "loc_out")) ] ].

Definition VAE_guide : stmt :=
  SFunctionDef "guide" [ arg "self"; arg "X" ]
    [ SPass;
      SWith none
        [ SAssign (ETuple [EName "z_loc"; EName "z_scale"]) none;
          SExpr (call (dot ["pyro"; "sample"]) [str "latent"; none]) ] ].

Definition VAE_reconstruct_img : stmt :=
  SFunctionDef "reconstruct_img" [ arg "self"; arg "X" ]
    [ SAssign (ETuple [EName "z_loc"; EName "z_scale"])
        (call (dot ["self"; "encoder"]) [EName "X"]);
      SAssign (EName "z")
        (meth (call (dot ["dist"; "Normal"]) [EName "z_loc"; EName "z_scale"])
           "sample" []);
      SAssign (EName "loc_img") (call (dot ["self"; "decoder"]) [EName "z"]);
      SReturn (Some (EName "loc_img")) ].

Definition VAE : stmt :=
  SClassDef "VAE" [dot ["nn"; "Module"]]
    [ VAE_init; VAE_model; VAE_guide; VAE_reconstruct_img ].

Definition vae_cell : list stmt := [ VAE ].

Definition svi_cell : list stmt :=
  [ SAssign (EName "vae") (call (EName "VAE") []);
    SAssign (EName "optimizer") none;
    SAssign (EName "svi")
      (callk (dot ["pyro"; "infer"; "SVI"]) []
         [("model", none); ("guide", none);
          ("optim", EName "optimizer"); ("loss", none)]) ].

Definition training_loop : stmt :=
  SFor (EName "epoch")
    (callk (EName "tqdm") [call (EName "range") [EName "EPOCHS"]]
       [("total", EName "EPOCHS")])
    [ SAssign (EName "epoch_loss") (int 0);
      SFor (ETuple [EName "batch"; EName "_"]) (EName "train_loader")
        [ SAugAssign (EName "epoch_loss") Add
            (call (dot ["svi"; "step"]) [EName "batch"]) ];
      SAssign (EName "normalizer_train")
        (call (EName "len") [dot ["train_loader"; "dataset"]]);
      SAssign (EName "total_epoch_loss_train")
        (EBinOp (EName "epoch_loss") Div (EName "normalizer_train"));
      SExpr (meth (EName "loss") "append" [EName "total_epoch_loss_train"]);
      SIf (ECompare (EBinOp (EName "epoch") Mod (int 10)) Eq (int 0))
        [ SExpr (call (EName "print") [EName "total_epoch_loss_train"]) ]
        [] ].

Definition training_cell : list stmt :=
  [ SAssign (EName "EPOCHS") none;
    SAssign (ETuple [EName "train_loader"; EName "test_loader"]) none;
    SExpr (call (dot ["pyro"; "clear_param_store"]) []);
    SAssign (EName "loss") (EList []);
    training_loop;
    SExpr (call (dot ["px"; "line"]) [EName "loss"]) ].

Definition evaluate : stmt :=
  SFunctionDef "evaluate" [ arg "svi"; arg "test_loader" ]
    [ SAssign (EName "test_loss") (flt "0.");
      SFor (ETuple [EName "x"; EName "_"]) (EName "test_loader")
        [ SAugAssign (EName "test_loss") Add
            (call (dot ["svi"; "evaluate_loss"]) [EName "x"]) ];
      SAssign (EName "normalizer_test")
        (call (EName "len") [dot ["test_loader"; "dataset"]]);
      SAssign (EName "total_epoch_loss_test")
        (EBinOp (EName "test_loss") Div (EName "normalizer_test"));
      SReturn (Some (EName "total_epoch_loss_test")) ].

Definition evaluate_cell : list stmt :=
  [ evaluate;
    SExpr (callk (EName "evaluate") []
             [("svi", EName "svi"); ("test_loader", EName "test_loader")]) ].

Definition to_numpy (e : expr) : expr :=
  meth (meth (meth e "detach" []) "cpu" []) "numpy" [].

Definition tsne_cell : list stmt :=
  [ SAssign (EName "latent_images")
      (EListComp
         (to_numpy
            (ESubscript (call (dot ["vae"; "encoder"]) [EName "img"]) (int 0)))
         (ETuple [EName "img"; EName "_"]) (EName "test_loader"));
    SAssign (EName "labels")
      (EListComp
         (meth (to_numpy (EName "label")) "astype" [EName "str"])
         (ETuple [EName "_"; EName "label"]) (EName "test_loader"));
    SAssign (EName "labels")
      (call (EName "list")
         [call (dot ["chain"; "from_iterable"]) [EName "labels"]]);
    SAssign (EName "latent_images")
      (callk (dot ["np"; "concatenate"]) [EName "latent_images"]
         [("axis", int 0)]);
    SAssign (EName "tsne")
      (callk (EName "TSNE") []
         [("n_components", int 2); ("n_jobs", EUnaryOp USub (int 1));
          ("random_state", int 0); ("verbose", int 10)]);
    SAssign (EName "latent_embedding")
      (meth (EName "tsne") "fit_transform" [EName "latent_images"]);
    SExpr
      (callk (dot ["px"; "scatter"]) []
         [("x", ESubscript (EName "latent_embedding")
                  (ETuple [ESlice None None; int 0]));
          ("y", ESubscript (EName "latent_embedding")
                  (ETuple [ESlice None None; int 1]));
          ("color", EName "labels")]) ].

Definition gen : stmt :=
  SFunctionDef "gen" [ arg "imgs" ]
    [ SFor (EName "img") (EName "imgs")
        [ SExpr (EYield (Some (EName "img"))) ] ].

Definition generate_cell : list stmt :=
  [ SAssign (EName "zeros") none;
    SAssign (EName "sample_loc") none;
    gen;
    SAssign (EName "imgs")
      (callk (EName "gen") [] [("imgs", EName "sample_loc")]) ].

Definition show_cell : list stmt :=
  [ SExpr
      (meth (call (dot ["Image"; "fromarray"]) [none]) "resize"
         [ETuple [int 100; int 100]]) ].

Definition cells : notebook :=
  [ Markdown "# Introduction to Variational Autoencoders with Pyro";
    Markdown "# Sections";
    Markdown "## 0. Setup";
    Code setup_cell;
    Code loaders_cell;
    Markdown "## 1. Defining the Encoder";
    Code encoder_cell;
    Code encoder_summary_cell;
    Markdown "## 2. Defining the Decoder";
    Code decoder_cell;
    Code decoder_summary_cell;
    Markdown "## 3. Defining the VAE (Model & Guide)";
    Code vae_cell;
    Markdown "## 4. Training the VAE";
    Code svi_cell;
    Code training_cell;
    Markdown "## 5. Generating Images with the Trained VAE";
    Markdown "### 5.1 Test Loss";
    Code evaluate_cell;
    Markdown "### 5.2 Test Images in T-SNE";
    Code tsne_cell;
    Markdown "### 5.3 New Images";
    Code generate_cell;
    Code show_cell ].

End VaeTemplate.

End Notebooks.

(* ===================================================================== *)
(** ** Analyses of the program text                                       *)
(* ===================================================================== *)

Module Analysis.
Import PyAst.

Definition is_none (e : expr) : bool :=
  match e with EConstant CNone => true | _ => false end.

(** A call that passes the literal [None] as a positional or keyword
    argument, as in [pyro.sample("latent", None)]. *)
Definition has_none_argument (e : expr) : bool :=
  match e with
  | ECall _ args kws =>
      existsb is_none args || existsb (fun kw => is_none (snd kw)) kws
  | _ => false
  end.

Definition placeholder_value (e : expr) : bool :=
  is_none e || has_none_argument e.

(** The expressions of a statement that are evaluated as values; the
    annotations and defaults of a [def] are part of its signature
    ([y=None] declares an optional argument, it does not leave a blank). *)
Definition value_exprs (s : stmt) : list expr :=
  match s with
  | SFunctionDef _ _ _ => []
  | _ => own_exprs s
  end.

Definition none_literals (body : list stmt) : list expr :=
  filter is_none
    (flat_map (fun s => flat_map sub_exprs (value_exprs s)) (stmts_of body)).

(** [pass] statements standing inside a function body.  A [pass] that is
    the body of a class is an empty subclass, not a blank. *)
Fixpoint pass_count (in_def : bool) (s : stmt) : nat :=
  match s with
  | SPass => if in_def then 1 else 0
  | SFunctionDef _ _ body => list_sum (map (pass_count true) body)
  | SClassDef _ _ body => list_sum (map (pass_count false) body)
  | SFor _ _ body | SWith _ body => list_sum (map (pass_count in_def) body)
  | SIf _ body orelse =>
      list_sum (map (pass_count in_def) body)
      + list_sum (map (pass_count in_def) orelse)
  | STry body handlers finalbody =>
      list_sum (map (pass_count in_def) body)
      + list_sum (map (fun h => list_sum (map (pass_count in_def) (snd h)))
                   handlers)
      + list_sum (map (pass_count in_def) finalbody)
  | _ => 0
  end.

(** Number of placeholders of a piece of code: [None] literals in value
    position plus [pass] statements in function bodies. *)
Definition placeholders (body : list stmt) : nat :=
  List.length (none_literals body) + list_sum (map (pass_count false) body).

(** All [pass] statements, wherever they stand. *)
Definition all_passes (body : list stmt) : nat :=
  List.length (filter (fun s => match s with SPass => true | _ => false end)
            (stmts_of body)).

(** Names bound to the literal [None] by an assignment of the body. *)
Definition none_bound (body : list stmt) : list string :=
  flat_map
    (fun s =>
       match s with
       | SAssign (EName x) (EConstant CNone) => [x]
       | SAssign (ETuple ts) (EConstant CNone) =>
           flat_map (fun t => match t with EName x => [x] | _ => [] end) ts
       | _ => []
       end)
    (stmts_of body).

Definition names_of (e : expr) : list string :=
  flat_map (fun x => match x with EName id => [id] | _ => [] end) (sub_exprs e).

Definition mem_string (x : string) (l : list string) : bool :=
  existsb (String.eqb x) l.

Definition is_super_init (e : expr) : bool :=
  match e with
  | ECall (EAttribute (ECall (EName "super") [] []) "__init__") [] [] => true
  | _ => false
  end.

(** A statement of an unfilled method: [pass], the constructor chaining
    [super().__init__()], a binding of a placeholder value, a call with a
    [None] argument, a [with None:] block of such statements, or a
    [return] of an expression computed from [None]-bound names only. *)
Fixpoint template_stmt (bound : list string) (s : stmt) : bool :=
  match s with
  | SPass => true
  | SAssign _ v => placeholder_value v
  | SExpr v => is_super_init v || has_none_argument v
  | SWith c body => is_none c && forallb (template_stmt bound) body
  | SReturn None => true
  | SReturn (Some e) => forallb (fun x => mem_string x bound) (names_of e)
  | _ => false
  end.

(** A method is unfilled when all its statements are template statements
    and it holds at least one placeholder. *)
Definition template_def (s : stmt) : bool :=
  match s with
  | SFunctionDef _ _ body =>
      forallb (template_stmt (none_bound body)) body
      && (0 <? placeholders [s])%nat
  | _ => false
  end.

Definition methods_of (c : stmt) : list stmt :=
  match c with
  | SClassDef _ _ body =>
      filter (fun s => match s with SFunctionDef _ _ _ => true | _ => false end)
        body
  | _ => []
  end.

Definition def_name (s : stmt) : string :=
  match s with
  | SFunctionDef n _ _ | SClassDef n _ _ => n
  | _ => ""
  end.

(** A class is an unfilled template when it has methods and each of them
    is unfilled. *)
Definition class_unfilled (c : stmt) : bool :=
  match methods_of c with
  | [] => false
  | ms => forallb template_def ms
  end.

Definition unfilled_methods (c : stmt) : list string :=
  map def_name (filter template_def (methods_of c)).

Definition filled_methods (c : stmt) : list string :=
  map def_name (filter (fun m => negb (template_def m)) (methods_of c)).

(** The class of that name defined at the top level of a notebook cell. *)
Definition find_class (name : string) (nb : notebook) : option stmt :=
  find (fun s => match s with
                 | SClassDef n _ _ => String.eqb n name
                 | _ => false
                 end)
    (notebook_source nb).

Definition find_def (name : string) (body : list stmt) : option stmt :=
  find (fun s => match s with
                 | SFunctionDef n _ _ => String.eqb n name
                 | _ => false
                 end)
    body.

Definition find_method (cls name : string) (nb : notebook) : option stmt :=
  match find_class cls nb with
  | Some (SClassDef _ _ body) => find_def name body
  | _ => None
  end.

(** The classes of a notebook with the dotted paths of their bases. *)
Definition class_table (nb : notebook) : list (string * list (option (list string))) :=
  flat_map
    (fun s => match s with
              | SClassDef n bases _ => [(n, map dotted_path bases)]
              | _ => []
              end)
    (stmts_of (notebook_source nb)).

(** *** Literal shapes *)

Definition literal_int (e : expr) : option Z :=
  match e with
  | EConstant (CInt n) => Some n
  | EUnaryOp USub (EConstant (CInt n)) => Some (- n)%Z
  | _ => None
  end.

Fixpoint literal_shape (es : list expr) : option (list Z) :=
  match es with
  | [] => Some []
  | e :: rest =>
      match literal_int e, literal_shape rest with
      | Some n, Some ns => Some (n :: ns)
      | _, _ => None
      end
  end.

(** [summary(C(), shape)] calls: the class summarised and the input shape
    it is summarised with. *)
Definition summary_shapes (body : list stmt) : list (string * option (list Z)) :=
  flat_map
    (fun e => match e with
              | ECall (EName "summary") [ECall (EName c) [] []; ETuple dims] [] =>
                  [(c, literal_shape dims)]
              | _ => []
              end)
    (exprs_of body).

(** The literal target shapes of the [reshape] calls of a piece of code. *)
Definition reshape_targets (body : list stmt) : list (option (list Z)) :=
  flat_map
    (fun e => match e with
              | ECall (EAttribute _ "reshape") dims [] => [literal_shape dims]
              | _ => []
              end)
    (exprs_of body).

(** The literal integer bound to a name by a top-level assignment. *)
Definition int_bindings (x : string) (body : list stmt) : list (option Z) :=
  flat_map
    (fun s => match s with
              | SAssign (EName n) v =>
                  if String.eqb n x then [literal_int v] else []
              | _ => []
              end)
    body.

(** *** What running a cell executes *)

(** Statements executed when a cell runs: the body of a [def] is not
    executed by the definition, the body of a class is. *)
Fixpoint executed_stmts (s : stmt) : list stmt :=
  s ::
  match s with
  | SFunctionDef _ _ _ => []
  | SFor _ _ body | SWith _ body | SClassDef _ _ body =>
      flat_map executed_stmts body
  | SIf _ body orelse =>
      flat_map executed_stmts body ++ flat_map executed_stmts orelse
  | STry body handlers finalbody =>
      flat_map executed_stmts body
        ++ flat_map (fun h => flat_map executed_stmts (snd h)) handlers
        ++ flat_map executed_stmts finalbody
  | _ => []
  end.

Definition executed_exprs (body : list stmt) : list expr :=
  flat_map (fun s => flat_map sub_exprs (value_exprs s))
    (flat_map executed_stmts body).

Definition executes_call (path : list string) (body : list stmt) : bool :=
  existsb (is_call_of path) (executed_exprs body).

(** Names that the top-level assignments of a cell have as targets. *)
Definition bound_names (body : list stmt) : list string :=
  flat_map
    (fun s => match s with
              | SAssign (EName x) _ => [x]
              | SAssign (ETuple ts) _ =>
                  flat_map (fun t => match t with EName x => [x] | _ => [] end) ts
              | _ => []
              end)
    body.

Definition defined_names (body : list stmt) : list string :=
  flat_map
    (fun s => match s with
              | SFunctionDef n _ _ | SClassDef n _ _ => [n]
              | _ => []
              end)
    body.

(** Indices (counting markdown cells too) of the cells satisfying [p]. *)
Fixpoint cells_from (i : nat) (p : list stmt -> bool) (nb : notebook) : list nat :=
  match nb with
  | [] => []
  | c :: rest =>
      match c with
      | Code src => if p src then i :: cells_from (S i) p rest
                    else cells_from (S i) p rest
      | Markdown _ => cells_from (S i) p rest
      end
  end.

Definition cells_where (p : list stmt -> bool) (nb : notebook) : list nat :=
  cells_from 0 p nb.

Definition cells_calling (path : list string) : notebook -> list nat :=
  cells_where (executes_call path).

Definition cells_defining (name : string) : notebook -> list nat :=
  cells_where (fun src => mem_string name (defined_names src)).

Definition cells_binding (name : string) : notebook -> list nat :=
  cells_where (fun src => mem_string name (bound_names src)).

(** Indices of the top-level statements of a cell satisfying [p]. *)
Fixpoint stmts_from (i : nat) (p : stmt -> bool) (body : list stmt) : list nat :=
  match body with
  | [] => []
  | s :: rest =>
      if p s then i :: stmts_from (S i) p rest else stmts_from (S i) p rest
  end.

Definition stmt_calls (path : list string) (s : stmt) : bool :=
  executes_call path [s].

Definition is_for (s : stmt) : bool :=
  match s with SFor _ _ _ => true | _ => false end.

(** The calls that display results: the loss curve, the scatter plot of
    the latent space, the posterior histograms, the generated images. *)
Definition result_plots : list (list string) :=
  [ ["px"; "line"]; ["px"; "scatter"]; ["go"; "Histogram"];
    ["fig"; "add_trace"]; ["fig"; "show"]; ["Image"; "fromarray"] ].

Definition shows_results (body : list stmt) : bool :=
  existsb (fun p => executes_call p body) result_plots.

(** The calls that obtain the data set: reading the parquet files, and
    the MNIST data set and its loaders. *)
Definition data_sources : list (list string) :=
  [ ["pd"; "read_parquet"]; ["MNIST"];
    ["torch"; "utils"; "data"; "DataLoader"]; ["setup_data_loaders"] ].

Definition loads_data (body : list stmt) : bool :=
  existsb (fun p => executes_call p body) data_sources.

Definition all_lt (xs ys : list nat) : bool :=
  forallb (fun x => forallb (fun y => (x <? y)%nat) ys) xs.

Definition all_le (xs ys : list nat) : bool :=
  forallb (fun x => forallb (fun y => (x <=? y)%nat) ys) xs.

(** The pipeline order of the specification, step by step: some cell
    loads the data set, and the data-loading cells come before the cells
    defining the model classes, which come before the training cells,
    and no cell showing results comes before a training cell. *)
Definition pipeline_in_order (models : list string) (nb : notebook) : bool :=
  let load := cells_where loads_data nb in
  let defs := flat_map (fun m => cells_defining m nb) models in
  let train := cells_calling ["svi"; "step"] nb in
  let plots := cells_where shows_results nb in
  negb (List.length load =? 0)%nat
  && all_lt load defs && all_lt defs train && all_le train plots.

(** *** File access and error handling *)

Definition string_literals (body : list stmt) : list string :=
  flat_map (fun e => match e with EConstant (CStr s) => [s] | _ => [] end)
    (exprs_of body).

Definition contains (sub s : string) : bool :=
  match String.index 0 sub s with Some _ => true | None => false end.

Definition called_name (e : expr) : list string :=
  match e with
  | ECall (EAttribute _ a) _ _ => [a]
  | ECall (EName a) _ _ => [a]
  | _ => []
  end.

(** The last names of all functions and methods called in the code. *)
Definition called_names (body : list stmt) : list string :=
  nodup string_dec (flat_map called_name (exprs_of body)).

(** Words that name reading or writing a file. *)
Definition file_words : list string :=
  [ "read"; "write"; "open"; "save"; "dump"; "pickle"; "parquet"; "csv";
    "json"; "to_file" ].

Definition file_calls (body : list stmt) : list string :=
  filter (fun n => existsb (fun w => contains w n) file_words)
    (called_names body).

Definition shell_commands (body : list stmt) : list string :=
  flat_map (fun s => match s with SShell c => [c] | _ => [] end)
    (stmts_of body).

Definition is_try (s : stmt) : bool :=
  match s with STry _ _ _ => true | _ => false end.

Definition is_raise (s : stmt) : bool :=
  match s with SRaise _ => true | _ => false end.

Definition is_exception_name (n : string) : bool :=
  contains "Exception" n || contains "Error" n || contains "Warning" n.

(** A class deriving from an exception class. *)
Definition is_exception_class (s : stmt) : bool :=
  match s with
  | SClassDef _ bases _ =>
      existsb (fun b => existsb is_exception_name (names_of b)
                        || match b with
                           | EAttribute _ a => is_exception_name a
                           | _ => false
                           end)
        bases
  | _ => false
  end.

(** The error-handling constructs of a piece of code: [try] statements,
    [raise] statements and exception classes. *)
Definition error_handling (body : list stmt) : list stmt :=
  filter (fun s => is_try s || is_raise s || is_exception_class s)
    (stmts_of body).

(** The values assigned to attributes of [self] in a method. *)
Definition self_attributes (m : stmt) : list (string * expr) :=
  flat_map
    (fun s => match s with
              | SAssign (EAttribute (EName "self") a) v => [(a, v)]
              | _ => []
              end)
    (stmts_of [m]).

Definition attributes_all_none (m : stmt) : bool :=
  match self_attributes m with
  | [] => false
  | attrs => forallb (fun av => is_none (snd av)) attrs
  end.

Definition starts_with_pass (m : stmt) : bool :=
  match m with
  | SFunctionDef _ _ (SPass :: _) => true
  | _ => false
  end.

(** A notebook is a fill-in-the-blank template when it holds a
    placeholder. *)
Definition is_template (nb : notebook) : bool :=
  (0 <? placeholders (notebook_source nb))%nat.

Definition default_of (p : string) (m : stmt) : list (option expr) :=
  match m with
  | SFunctionDef _ ps _ =>
      map p_default (filter (fun q => String.eqb (p_name q) p) ps)
  | _ => []
  end.

End Analysis.

(* ===================================================================== *)
(** ** Behaviour of the notebooks' functions and loops                    *)
(* ===================================================================== *)

Module Sem.

(** Python exceptions the modelled code can meet. *)
Inductive exn : Type :=
| TypeError
| AttributeError
| ZeroDivisionError
| RuntimeError
| ValueError
| FrameworkError (message : string).

Inductive result (A : Type) : Type :=
| Ok (a : A)
| Raise (e : exn).
Arguments Ok {A} a.
Arguments Raise {A} e.

Section WithScalar.

(** The floating-point numbers of the framework (losses, tensor
    entries) are kept abstract. *)
Context {scalar : Type}.

Record tensor : Type := mkTensor {
  t_shape : list nat;
  t_data : list scalar
}.

(** A [DataLoader]: its batches (data, labels) in iteration order and the
    size of the data set it wraps ([len(loader.dataset)]). *)
Record loader : Type := mkLoader {
  batches : list (tensor * tensor);
  dataset_len : nat
}.

(** The Python values a placeholder of the template can be filled with. *)
Inductive value : Type :=
| VNone
| VInt (n : Z)
| VTensor (t : tensor)
| VLoader (l : loader)
| VTuple (vs : list value).

(** Distributions as the notebooks build them. *)
Inductive distribution : Type :=
| Normal (loc scale : tensor)
| HalfNormal (scale : list scalar)
| Expand (d : distribution) (batch_shape : list nat)
| ToEvent (d : distribution) (event_dims : nat).

(** *** Shapes *)

Definition numel (shape : list nat) : nat := fold_right Nat.mul 1 shape.

(** Broadcasting of two shapes given from their last dimension on: equal
    sizes agree, a size 1 stretches, a missing dimension counts as 1. *)
Fixpoint broadcast_reversed (a b : list nat) : option (list nat) :=
  match a, b with
  | [], _ => Some b
  | _, [] => Some a
  | x :: a', y :: b' =>
      match broadcast_reversed a' b' with
      | None => None
      | Some r =>
          if (x =? y)%nat then Some (x :: r)
          else if (x =? 1)%nat then Some (y :: r)
          else if (y =? 1)%nat then Some (x :: r)
          else None
      end
  end.

Definition broadcast (a b : list nat) : option (list nat) :=
  option_map (@rev nat) (broadcast_reversed (rev a) (rev b)).

(** The batch shape of a distribution; [None] when its parameters do not
    fit, in which case the framework's constructors raise. *)
Fixpoint batch_shape (d : distribution) : option (list nat) :=
  match d with
  | Normal loc scale => broadcast (t_shape loc) (t_shape scale)
  | HalfNormal scale => Some [List.length scale]
  | Expand d' shape =>
      match batch_shape d' with
      | None => None
      | Some b =>
          match broadcast b shape with
          | Some s => if list_eq_dec Nat.eq_dec s shape then Some shape else None
          | None => None
          end
      end
  | ToEvent d' k =>
      match batch_shape d' with
      | None => None
      | Some b =>
          if (k <=? List.length b)%nat
          then Some (firstn (List.length b - k) b)
          else None
      end
  end.

(** Does a batch shape, read from its last dimension on, fit the sizes
    of the open plates, outermost first?  The plates take the batch
    dimensions from the right in the order they were opened; at the
    dimension of a plate the batch shape has the size of the plate, or
    size 1, or no dimension at all. *)
Fixpoint fits_reversed (b sizes : list nat) : bool :=
  match b, sizes with
  | [], _ | _, [] => true
  | x :: b', size :: sizes' =>
      ((x =? 1)%nat || (x =? size)%nat) && fits_reversed b' sizes'
  end.

Definition fits_plates (b : list nat) (plates : list (string * nat)) : bool :=
  fits_reversed (rev b) (rev (map snd plates)).

(** *** Iteration *)

(** The [d] consecutive blocks of [k] entries of [data], each an array of
    shape [shape]. *)
Fixpoint blocks (d k : nat) (shape : list nat) (data : list scalar)
  : list tensor :=
  match d with
  | O => []
  | S d' => mkTensor shape (firstn k data) :: blocks d' k shape (skipn k data)
  end.

(** [iter(v)]: a tuple gives its items, a tensor its sub-tensors along
    the first axis, a data loader its batches; [None], an integer and a
    scalar tensor are not iterable. *)
Definition iter_value (v : value) : result (list value) :=
  match v with
  | VTuple vs => Ok vs
  | VTensor t =>
      match t_shape t with
      | [] => Raise TypeError
      | d :: rest => Ok (map VTensor (blocks d (numel rest) rest (t_data t)))
      end
  | VLoader l =>
      Ok (map (fun b => VTuple [VTensor (fst b); VTensor (snd b)]) (batches l))
  | VNone | VInt _ => Raise TypeError
  end.

(** The calls into the framework that a run performs, in order. *)
Inductive event : Type :=
| EvClearParamStore
| EvStep (args : list tensor)
| EvEvaluateLoss (args : list tensor)
| EvLinear (X : tensor)
| EvSample (site : string) (d : distribution) (obs : option tensor)
    (plates : list (string * nat))
| EvPrint (x : scalar)
| EvPlot (kind : string) (data : list scalar).

(** The framework: the state it keeps (parameter store, optimiser state,
    random generator) and its primitives.  [svi_step] and
    [svi_evaluate_loss] are the methods of the [SVI] object, [linear]
    is the call of the [PyroModule[nn.Linear]] layer, [draw] draws a value
    at an unobserved sample site; [f_add], [f_div] and [f_of_Z] are float
    arithmetic. *)
Record framework : Type := mkFramework {
  world : Type;
  store : Type;
  param_store : world -> store;
  clear : world -> world;
  svi_step : world -> list tensor -> result scalar * world;
  svi_evaluate_loss : world -> list tensor -> result scalar * world;
  linear : world -> tensor -> result tensor * world;
  draw : world -> string -> distribution -> result tensor * world;
  f_add : scalar -> scalar -> scalar;
  f_div : scalar -> scalar -> scalar;
  f_of_Z : Z -> scalar
}.

Section WithFramework.

Variable fw : framework.

(** The state of a run: the framework's state, the stack of open plates
    (innermost first) and the log of framework calls. *)
Record state : Type := mkState {
  st_world : world fw;
  st_plates : list (string * nat);
  st_log : list event
}.

(** Computations: they change the state and return or raise. *)
Definition M (A : Type) : Type := state -> result A * state.

Definition ret {A} (a : A) : M A := fun s => (Ok a, s).

Definition raise {A} (e : exn) : M A := fun s => (Raise e, s).

Definition bind {A B} (c : M A) (k : A -> M B) : M B :=
  fun s =>
    match c s with
    | (Ok a, s') => k a s'
    | (Raise e, s') => (Raise e, s')
    end.

Notation "x <- c ;; k" := (bind c (fun x => k))
  (at level 61, c at next level, right associativity).
Notation "c ;; k" := (bind c (fun _ => k))
  (at level 61, right associativity).

Definition emit (e : event) : M unit :=
  fun s => (Ok tt, mkState (st_world s) (st_plates s) (st_log s ++ [e])).

(** A framework primitive, logged as [e] before it runs. *)
Definition prim {A} (e : event) (f : world fw -> result A * world fw) : M A :=
  fun s =>
    let (r, w) := f (st_world s) in
    (r, mkState w (st_plates s) (st_log s ++ [e])).

Definition lift_result {A} (r : result A) : M A :=
  match r with Ok a => ret a | Raise e => raise e end.

(** [for x in xs: acc = body(acc, x)]: a loop over a finite sequence that
    updates local variables. *)
Fixpoint for_fold {A B} (xs : list A) (acc : B) (body : B -> A -> M B) : M B :=
  match xs with
  | [] => ret acc
  | x :: rest => acc' <- body acc x ;; for_fold rest acc' body
  end.

(** *** Python and framework primitives *)

Definition clear_param_store : M unit :=
  prim EvClearParamStore (fun w => (Ok tt, clear fw w)).

Definition step (args : list tensor) : M scalar :=
  prim (EvStep args) (fun w => svi_step fw w args).

Definition evaluate_loss (args : list tensor) : M scalar :=
  prim (EvEvaluateLoss args) (fun w => svi_evaluate_loss fw w args).

Definition linear_layer (X : tensor) : M tensor :=
  prim (EvLinear X) (fun w => linear fw w X).

Definition print (x : scalar) : M unit := emit (EvPrint x).

Definition px_line (data : list scalar) : M unit := emit (EvPlot "px.line" data).

(** The [SVI] object as [evaluate] receives it: its two methods. *)
Record svi_object : Type := mkSvi {
  svi_step_method : list tensor -> M scalar;
  svi_evaluate_loss_method : list tensor -> M scalar
}.

Definition svi : svi_object := mkSvi step evaluate_loss.

(** [range(n)] for an integer [n]: [0, ..., n-1], empty when [n <= 0]. *)
Definition py_range (n : Z) : list Z := map Z.of_nat (seq 0 (Z.to_nat n)).

(** [range(v)] for a value: only integers are accepted. *)
Definition range_of (v : value) : M (list Z) :=
  match v with
  | VInt n => ret (py_range n)
  | _ => raise TypeError
  end.

(** [tqdm(it, total=n)] yields the items of [it] unchanged. *)
Definition tqdm {A} (it : list A) : list A := it.

(** [a, b = v]: unpacking into two targets.  Whatever can be iterated
    can be unpacked; it has to give exactly two items. *)
Definition unpack2 (v : value) : M (value * value) :=
  match iter_value v with
  | Raise e => raise e
  | Ok [a; b] => ret (a, b)
  | Ok _ => raise ValueError
  end.

(** Iterating over a value as over a data loader, and its [.dataset]. *)
Definition iterate (v : value) : M (list (tensor * tensor)) :=
  match v with
  | VLoader l => ret (batches l)
  | _ => raise TypeError
  end.

Definition len_dataset (v : value) : M nat :=
  match v with
  | VLoader l => ret (dataset_len l)
  | _ => raise AttributeError
  end.

(** [len(X)] of a tensor: the size of its first dimension. *)
Definition len (X : tensor) : M nat :=
  match t_shape X with
  | n :: _ => ret n
  | [] => raise TypeError
  end.

(** [x / n] for a float [x] and an integer [n]. *)
Definition truediv (x : scalar) (n : nat) : M scalar :=
  match n with
  | O => raise ZeroDivisionError
  | S _ => ret (f_div fw x (f_of_Z fw (Z.of_nat n)))
  end.

(** [dist.Normal(loc, scale)]: the two parameters are broadcast against
    each other, and shapes that do not broadcast raise. *)
Definition dist_Normal (loc scale : tensor) : M distribution :=
  match broadcast (t_shape loc) (t_shape scale) with
  | Some _ => ret (Normal loc scale)
  | None => raise RuntimeError
  end.

(** [pyro.sample(site, d, obs=obs)].  The open plates check the batch
    shape of [d] first: a dimension that belongs to a plate and has
    neither the size of the plate nor size 1 is a [ValueError].  (A [d]
    whose parameters do not fit cannot have been constructed; the site
    raises as the constructor does.)  Then an observed site returns the
    observation, an unobserved one draws from the framework; either way
    the site is recorded with the plates it stands in. *)
Definition pyro_sample (site : string) (d : distribution) (obs : option tensor)
  : M tensor :=
  fun s =>
    match batch_shape d with
    | None => (Raise RuntimeError, s)
    | Some b =>
        if fits_plates b (st_plates s) then
          let e := EvSample site d obs (st_plates s) in
          match obs with
          | Some v => (Ok v, mkState (st_world s) (st_plates s) (st_log s ++ [e]))
          | None =>
              let (r, w) := draw fw (st_world s) site d in
              (r, mkState w (st_plates s) (st_log s ++ [e]))
          end
        else (Raise ValueError, s)
    end.

(** [with pyro.plate(name, size): body]: a plate of size 0 cannot be
    made ([ZeroDivisionError], before the body starts); otherwise the
    plate is open during the body and closed when the body ends,
    normally or not. *)
Definition with_plate {A} (name : string) (size : nat) (body : M A) : M A :=
  fun s =>
    match size with
    | O => (Raise ZeroDivisionError, s)
    | S _ =>
        let (r, s') :=
          body (mkState (st_world s) ((name, size) :: st_plates s) (st_log s)) in
        (r, mkState (st_world s') (st_plates s) (st_log s'))
    end.

(** *** torch.Tensor.reshape *)

(** The product of the given dimensions and the number of [-1] entries;
    [None] for an entry below [-1]. *)
Fixpoint known_size (target : list Z) : option (nat * nat) :=
  match target with
  | [] => Some (1, 0)
  | d :: rest =>
      match known_size rest with
      | None => None
      | Some (p, k) =>
          if (d =? -1)%Z then Some (p, S k)
          else if (d <? 0)%Z then None
          else Some (Z.to_nat d * p, k)
      end
  end.

Definition fill_dim (inferred : nat) (d : Z) : nat :=
  if (d =? -1)%Z then inferred else Z.to_nat d.

(** The shape [reshape] gives a tensor of [n] elements: at most one
    entry may be [-1], and it is inferred from the others. *)
Definition infer_size (target : list Z) (n : nat) : result (list nat) :=
  match known_size target with
  | Some (p, 0) =>
      if (p =? n)%nat then Ok (map Z.to_nat target) else Raise RuntimeError
  | Some (p, 1) =>
      if (p =? 0)%nat then Raise RuntimeError
      else if (n mod p =? 0)%nat then Ok (map (fill_dim (n / p)) target)
      else Raise RuntimeError
  | _ => Raise RuntimeError
  end.

Definition reshape (t : tensor) (target : list Z) : result tensor :=
  match infer_size target (numel (t_shape t)) with
  | Ok sh => Ok (mkTensor sh (t_data t))
  | Raise e => Raise e
  end.

(** [v.reshape(...)]: only tensors have the method. *)
Definition call_reshape (v : value) (target : list Z) : M value :=
  match v with
  | VTensor t =>
      match reshape t target with
      | Ok t' => ret (VTensor t')
      | Raise e => raise e
      end
  | _ => raise AttributeError
  end.

(** *** The regression notebook *)

Definition EPOCHS : Z := 1000.

(** The training cell, from [pyro.clear_param_store()] to
    [px.line(losses)].  The model, guide, optimiser, loss and [SVI]
    objects it constructs are the framework's; [step] is [svi.step]. *)
Definition training_cell (X y : tensor) : M (list scalar) :=
  clear_param_store ;;
  losses <- for_fold (tqdm (py_range EPOCHS)) []
              (fun losses epoch =>
                 loss <- step [X; y] ;;
                 n <- len X ;;
                 q <- truediv loss n ;;
                 ret (losses ++ [q])) ;;
  px_line losses ;;
  ret losses.

(** [RevenueModel.forward(self, X, y=None)]; [sales_products] is the
    attribute set by [__init__] (2 by default). *)
Definition noise_prior : distribution :=
  ToEvent (Expand (HalfNormal [f_of_Z fw 1000; f_of_Z fw 1000]) [1; 2]) 1.

Definition RevenueModel_forward (sales_products : nat)
    (X : tensor) (y : option tensor) : M tensor :=
  y_hat <- linear_layer X ;;
  noise <- pyro_sample "noise" noise_prior None ;;
  with_plate "sample" sales_products
    (n <- len X ;;
     with_plate "data" n
       (likelihood <- dist_Normal y_hat noise ;;
        pyro_sample "obs" likelihood y)) ;;
  ret y_hat.


(** *** The autoencoder template *)

(** [Encoder.forward(self, X)] as written. *)
Definition Encoder_forward (X : tensor) : M (value * value) :=
  let z_loc := VNone in
  let z_scale := VNone in
  ret (z_loc, z_scale).

Definition Decoder_target : list Z := [-1; 1; 28; 28]%Z.

(** [Decoder.forward(self, z)].  [loc_out_fill] stands for the right-hand
    side of [loc_out = ...], which the template leaves to the
    participant. *)
Definition Decoder_forward_with (loc_out_fill : tensor -> M value) (z : tensor)
  : M value :=
  loc_out <- loc_out_fill z ;;
  call_reshape loc_out Decoder_target.

(** The template as written: [loc_out = None]. *)
Definition Decoder_forward : tensor -> M value :=
  Decoder_forward_with (fun _ => ret VNone).

(** The training cell.  [EPOCHS_fill] and [loaders_fill] stand for the
    right-hand sides of [EPOCHS = ...] and
    [train_loader, test_loader = ...]. *)
Definition vae_training_cell_with (EPOCHS_fill loaders_fill : value)
  : M (list scalar) :=
  let EPOCHS := EPOCHS_fill in
  loaders <- unpack2 loaders_fill ;;
  let train_loader := fst loaders in
  clear_param_store ;;
  epochs <- range_of EPOCHS ;;
  loss <- for_fold (tqdm epochs) []
            (fun loss epoch =>
               let epoch_loss := f_of_Z fw 0 in
               train_batches <- iterate train_loader ;;
               epoch_loss <- for_fold train_batches epoch_loss
                               (fun epoch_loss b =>
                                  l <- step [fst b] ;;
                                  ret (f_add fw epoch_loss l)) ;;
               normalizer_train <- len_dataset train_loader ;;
               total_epoch_loss_train <- truediv epoch_loss normalizer_train ;;
               let loss := loss ++ [total_epoch_loss_train] in
               (if (epoch mod 10 =? 0)%Z then print total_epoch_loss_train
                else ret tt) ;;
               ret loss) ;;
  px_line loss ;;
  ret loss.

(** The template as written: [EPOCHS = None] and
    [train_loader, test_loader = None]. *)
Definition vae_training_cell : M (list scalar) :=
  vae_training_cell_with VNone VNone.

(** [evaluate(svi, test_loader)]. *)
Definition evaluate (svi : svi_object) (test_loader : loader) : M scalar :=
  let test_loss := f_of_Z fw 0 in
  test_loss <- for_fold (batches test_loader) test_loss
                 (fun test_loss b =>
                    l <- svi_evaluate_loss_method svi [fst b] ;;
                    ret (f_add fw test_loss l)) ;;
  let normalizer_test := dataset_len test_loader in
  total_epoch_loss_test <- truediv test_loss normalizer_test ;;
  ret total_epoch_loss_test.

(** The losses [svi.evaluate_loss] returns on the batches in order,
    starting from the framework state [w]; the sequence stops at the
    first call that raises. *)
Fixpoint evaluation_losses (w : world fw) (xs : list (tensor * tensor))
  : list scalar :=
  match xs with
  | [] => []
  | b :: rest =>
      match svi_evaluate_loss fw w [fst b] with
      | (Ok l, w') => l :: evaluation_losses w' rest
      | (Raise _, _) => []
      end
  end.

(** *** Reading the log *)

Definition is_step (e : event) : bool :=
  match e with EvStep _ => true | _ => false end.

Definition is_evaluate_loss (e : event) : bool :=
  match e with EvEvaluateLoss _ => true | _ => false end.

Definition steps (log : list event) : list event := filter is_step log.

(** The sample sites of a log that are not conditioned on an
    observation. *)
Definition unobserved_sites (log : list event) : list string :=
  flat_map (fun e => match e with
                     | EvSample site _ None _ => [site]
                     | _ => []
                     end) log.


(** *** Contracts of the framework *)

(** The optimiser step returns a loss (it does not raise). *)
Definition step_succeeds : Prop :=
  forall w args, exists l w', svi_step fw w args = (Ok l, w').

(** The loss evaluation returns a loss. *)
Definition evaluate_loss_succeeds : Prop :=
  forall w args, exists l w', svi_evaluate_loss fw w args = (Ok l, w').

(** The loss evaluation takes no step in parameter space: whatever else
    it changes (the random generator), the parameter store is the same
    after it. *)
Definition evaluate_loss_keeps_params : Prop :=
  forall w args,
    param_store fw (snd (svi_evaluate_loss fw w args)) = param_store fw w.

(** Drawing at an unobserved site returns a value. *)
Definition draw_succeeds : Prop :=
  forall w site d, exists t w', draw fw w site d = (Ok t, w').

End WithFramework.
End WithScalar.

Arguments tensor : clear implicits.
Arguments loader : clear implicits.
Arguments value : clear implicits.
Arguments distribution : clear implicits.
Arguments event : clear implicits.
Arguments framework : clear implicits.

End Sem.

(* ===================================================================== *)
(** ** Two small frameworks to run the definitions on                     *)
(* ===================================================================== *)

Module Toy.
Import Sem.

(** Losses are integers; the framework state counts the optimiser steps
    taken, and that count is the parameter store. *)
Definition counting : framework Z :=
  mkFramework nat nat (fun w => w) (fun _ => 0)
    (fun w _ => (Ok (Z.of_nat w), S w))
    (fun w _ => (Ok 7%Z, w))
    (fun w X => (Ok X, w))
    (fun w _ _ => (Ok (mkTensor [1; 2] [3%Z; 4%Z]), w))
    Z.add Z.div (fun z => z).

(** The same framework with a loss evaluation that fails. *)
Definition failing : framework Z :=
  mkFramework nat nat (fun w => w) (fun _ => 0)
    (fun w _ => (Ok (Z.of_nat w), S w))
    (fun w _ => (Raise (FrameworkError "nan loss"), w))
    (fun w X => (Ok X, w))
    (fun w _ _ => (Ok (mkTensor [1; 2] [3%Z; 4%Z]), w))
    Z.add Z.div (fun z => z).


Definition start (fw : framework Z) (w : world fw) : state fw :=
  mkState fw w [] [].

Definition image_batch (n : nat) : tensor Z :=
  mkTensor [n; 1; 28; 28] (repeat 0%Z (n * 784)).

Definition flat_batch (n : nat) : tensor Z :=
  mkTensor [n; 784] (repeat 0%Z (n * 784)).

Definition latent_batch (n : nat) : tensor Z :=
  mkTensor [n; 32] (repeat 0%Z (n * 32)).

Definition labels (n : nat) : tensor Z := mkTensor [n] (repeat 0%Z n).

Definition two_batches : loader Z :=
  mkLoader [(image_batch 2, labels 2); (image_batch 1, labels 1)] 3.

Definition media : tensor Z := mkTensor [3; 7] (repeat 1%Z 21).
Definition sales : tensor Z := mkTensor [3; 2] (repeat 1%Z 6).


End Toy.

(* ===================================================================== *)
(** ** The workshop as a whole                                            *)
(* ===================================================================== *)

Module Workshop.
Import PyAst Notebooks Analysis.

(** Both notebooks, the regression first. *)
Definition notebooks : list notebook := [ Regression.cells; VaeTemplate.cells ].

Definition all_cells : notebook := Regression.cells ++ VaeTemplate.cells.

Definition all_source : list stmt := notebook_source all_cells.

(** Is the class of that name, wherever it is defined, an unfilled
    template? *)
Definition unfilled_class (name : string) : bool :=
  match find_class name all_cells with
  | Some c => class_unfilled c
  | None => false
  end.

Definition method_is_template (nb : notebook) (cm : string * string) : option bool :=
  option_map template_def (find_method (fst cm) (snd cm) nb).

Definition method_placeholders (nb : notebook) (cm : string * string) : option nat :=
  option_map (fun m => placeholders [m]) (find_method (fst cm) (snd cm) nb).

Definition binds (x : string) (s : stmt) : bool := mem_string x (bound_names [s]).

End Workshop.

(* ===================================================================== *)
(** ** Arrays and the figure of the inference cell                        *)
(* ===================================================================== *)

Module Figures.
Import Sem.

(** What the inference cell can end with besides a framework exception:
    a missing key of the samples dictionary, an index out of the range
    of a column index, a subplot position outside the grid. *)
Inductive failure : Type :=
| Exn (e : exn)
| KeyError (key : string)
| IndexError
| OutOfGrid (row col : Z).

Inductive outcome (A : Type) : Type :=
| Done (a : A)
| Failed (f : failure).
Arguments Done {A} a.
Arguments Failed {A} f.

Definition and_then {A B} (o : outcome A) (k : A -> outcome B) : outcome B :=
  match o with
  | Done a => k a
  | Failed f => Failed f
  end.

(** [for x in xs: fig = body(fig, x)], stopping at the first failure. *)
Fixpoint each {A B} (xs : list A) (acc : B) (body : B -> A -> outcome B)
  : outcome B :=
  match xs with
  | [] => Done acc
  | x :: rest => and_then (body acc x) (fun acc' => each rest acc' body)
  end.

(** [d[key]] for a dictionary with string keys. *)
Fixpoint dict_get {V} (d : list (string * V)) (key : string) : outcome V :=
  match d with
  | [] => Failed (KeyError key)
  | (k, v) :: rest => if String.eqb k key then Done v else dict_get rest key
  end.

(** [l[i]]: Python indexing, negative indices counting from the end. *)
Definition index_get {A} (l : list A) (i : Z) : outcome A :=
  let n := Z.of_nat (List.length l) in
  let j := (if i <? 0 then i + n else i)%Z in
  if ((0 <=? j) && (j <? n))%Z then
    match nth_error l (Z.to_nat j) with
    | Some a => Done a
    | None => Failed IndexError
    end
  else Failed IndexError.

(** [enumerate(xs, start=start)]. *)
Fixpoint enumerate {A} (start : Z) (xs : list A) : list (Z * A) :=
  match xs with
  | [] => []
  | x :: rest => (start, x) :: enumerate (start + 1) rest
  end.

Section WithScalar.

Context {scalar : Type}.

(** [t.reshape(target)] on the entries of a tensor or array. *)
Definition array_reshape (t : tensor scalar) (target : list Z)
  : outcome (tensor scalar) :=
  match reshape t target with
  | Ok t' => Done t'
  | Raise e => Failed (Exn e)
  end.

(** The entries of a [d] by [m] row-major matrix read column by column. *)
Definition transpose (d m : nat) (data : list scalar) : list scalar :=
  flat_map
    (fun j => flat_map (fun k => PyAst.opt_list (nth_error data (k * m + j)))
                (seq 0 d))
    (seq 0 m).

(** [np.moveaxis(a, 0, -1)]: the first axis becomes the last, the others
    keep their order. *)
Definition moveaxis_first_to_last (a : tensor scalar) : outcome (tensor scalar) :=
  match t_shape a with
  | [] => Failed (Exn (FrameworkError "AxisError"))
  | d :: rest =>
      Done (mkTensor (rest ++ [d]) (transpose d (numel rest) (t_data a)))
  end.

(** Iterating over an array: its sub-arrays along the first axis. *)
Definition iterate_array (a : tensor scalar) : outcome (list (tensor scalar)) :=
  match t_shape a with
  | [] => Failed (Exn TypeError)
  | d :: rest => Done (blocks d (numel rest) rest (t_data a))
  end.

(** A histogram trace placed in a subplot. *)
Record trace : Type := mkTrace {
  tr_row : Z;
  tr_col : Z;
  tr_name : string;
  tr_x : tensor scalar
}.

(** The figure made by [make_subplots(rows=, cols=)] and the traces added
    to it, in order. *)
Record figure : Type := mkFigure {
  fig_rows : Z;
  fig_cols : Z;
  fig_traces : list trace
}.

Definition make_subplots (rows cols : Z) : figure := mkFigure rows cols [].

(** [fig.add_trace(go.Histogram(x=x, name=name), row=row, col=col)]: the
    position has to lie in the grid. *)
Definition add_trace (fig : figure) (x : tensor scalar) (name : string)
    (row col : Z) : outcome figure :=
  if ((1 <=? row) && (row <=? fig_rows fig)
      && (1 <=? col) && (col <=? fig_cols fig))%Z
  then Done (mkFigure (fig_rows fig) (fig_cols fig)
               (fig_traces fig ++ [mkTrace row col name x]))
  else Failed (OutOfGrid row col).

(** The inference cell from [beta_hat = ...] to [fig.show()], given the
    dictionary [samples] that [predictive(X)] returned and the column
    indexes of the two data frames; the result is the figure shown.
    [detach().cpu().numpy()] keeps shape and entries. *)
Definition inference_figure (samples : list (string * tensor scalar))
    (sales_columns media_columns : list string) : outcome figure :=
  and_then (dict_get samples "linear_layer.weight") (fun weight =>
  and_then (array_reshape weight [-1; 2; 7]%Z) (fun beta_hat =>
  and_then (moveaxis_first_to_last beta_hat) (fun beta_hat_prime =>
  let fig := make_subplots 2 7 in
  and_then (iterate_array beta_hat_prime) (fun products =>
  each (enumerate 1 products) fig (fun fig rp =>
    let row := fst rp in
    let product := snd rp in
    and_then (iterate_array product) (fun columns =>
    each (enumerate 1 columns) fig (fun fig cc =>
      let column := fst cc in
      let coefficient_samples := snd cc in
      and_then (index_get sales_columns (row - 1)) (fun product_name =>
      and_then (index_get media_columns (column - 1)) (fun channel_name =>
      add_trace fig coefficient_samples
        (product_name ++ " - " ++ channel_name)%string row column))))))))).

(** The samples of the coefficient of product [r] and channel [c] (both
    counted from 0) among the entries of the sampled weights: sample [k]
    holds the 2 by 7 weight matrix at the 14 entries from [k * 14]. *)
Definition every_14th (data : list scalar) (n j : nat) : list scalar :=
  flat_map (fun k => PyAst.opt_list (nth_error data (k * 14 + j))) (seq 0 n).

Definition coefficient (data : list scalar) (n r c : nat) : list scalar :=
  every_14th data n (r * 7 + c).

(** The histogram of that coefficient, at its place in the grid. *)
Definition coefficient_trace (data : list scalar) (n : nat)
    (sales_columns media_columns : list string) (r c : nat) : trace :=
  mkTrace (Z.of_nat (S r)) (Z.of_nat (S c))
    (nth r sales_columns "" ++ " - " ++ nth c media_columns "")%string
    (mkTensor [n] (coefficient data n r c)).

End WithScalar.

Arguments trace : clear implicits.
Arguments figure : clear implicits.

End Figures.

(* ===================================================================== *)
(** ** The generator of the last cells                                    *)
(* ===================================================================== *)

Module Generators.
Import Sem.

Section WithScalar.

Context {scalar : Type}.

(** A generator object of [gen]: created with its argument and not yet
    started, suspended at the [yield] with the items still to come, or
    finished. *)
Inductive generator : Type :=
| Created (imgs : value scalar)
| Suspended (rest : list (value scalar))
| Finished.

(** What [next(g)] gives. *)
Inductive resumed : Type :=
| Yielded (img : value scalar)
| StopIteration
| Raised (e : exn).

(** [gen(imgs)]: calling a generator function runs none of its body. *)
Definition gen (imgs : value scalar) : generator := Created imgs.

(** [next(g)]: the body runs to the next [yield]; the [for] statement
    asks for the iterator of [imgs] when the body starts; a generator
    that returned or raised is finished. *)
Definition next (g : generator) : resumed * generator :=
  match g with
  | Created imgs =>
      match iter_value imgs with
      | Raise e => (Raised e, Finished)
      | Ok [] => (StopIteration, Finished)
      | Ok (img :: rest) => (Yielded img, Suspended rest)
      end
  | Suspended [] => (StopIteration, Finished)
  | Suspended (img :: rest) => (Yielded img, Suspended rest)
  | Finished => (StopIteration, Finished)
  end.

(** [k] calls of [next] in a row: what each gave, and the generator
    after them. *)
Fixpoint nexts (k : nat) (g : generator) : list resumed * generator :=
  match k with
  | O => ([], g)
  | S k' =>
      let (r, g') := next g in
      let (rs, g'') := nexts k' g' in
      (r :: rs, g'')
  end.

End WithScalar.

Arguments generator : clear implicits.
Arguments resumed : clear implicits.

End Generators.

(* ===================================================================== *)
(** ** The methods of the autoencoder, blanks filled                      *)
(* ===================================================================== *)

Module VaeModel.
Import Sem.

Section WithFramework.

Context {scalar : Type} (fw : framework scalar).

(** A call into the framework that is no sample site and is not logged
    (a forward pass of a network, the registration of a module). *)
Definition lift {A} (f : world fw -> result A * world fw) : M fw A :=
  fun s =>
    let (r, w) := f (st_world fw s) in
    (r, mkState fw w (st_plates fw s) (st_log fw s)).

(** [with ctx: body] where [ctx] is a plate or, as the template has it,
    [None], which is no context manager (the notebook's kernel is Python
    3.8, where this is an [AttributeError]). *)
Definition with_context {A} (ctx : option (string * nat)) (body : M fw A)
  : M fw A :=
  match ctx with
  | None => raise fw AttributeError
  | Some (name, size) => with_plate fw name size body
  end.

(** What the participant writes into the blanks of [VAE.model] and
    [VAE.guide]: the statement replacing [pass], the context manager
    replacing [None] in [with None:], and the right-hand sides and
    arguments replacing the other [None]s. *)
Record blanks : Type := mkBlanks {
  register_decoder : world fw -> result unit * world fw;
  model_plate : tensor scalar -> option (string * nat);
  z_loc_of : tensor scalar -> result (tensor scalar);
  z_scale_of : tensor scalar -> result (tensor scalar);
  latent_prior : tensor scalar -> tensor scalar -> result (distribution scalar);
  decode : world fw -> tensor scalar -> result (tensor scalar) * world fw;
  likelihood : tensor scalar -> result (distribution scalar);
  register_encoder : world fw -> result unit * world fw;
  guide_plate : tensor scalar -> option (string * nat);
  encode : world fw -> tensor scalar
           -> result (tensor scalar * tensor scalar) * world fw;
  latent_posterior : tensor scalar -> tensor scalar
                     -> result (distribution scalar)
}.

(** [VAE.model(self, X)]. *)
Definition VAE_model_with (b : blanks) (X : tensor scalar) : M fw (tensor scalar) :=
  bind fw (lift (register_decoder b)) (fun _ =>
  with_context (model_plate b X)
    (bind fw (lift_result fw (z_loc_of b X)) (fun z_loc =>
     bind fw (lift_result fw (z_scale_of b X)) (fun z_scale =>
     bind fw (lift_result fw (latent_prior b z_loc z_scale)) (fun prior =>
     bind fw (pyro_sample fw "latent" prior None) (fun z =>
     bind fw (lift (fun w => decode b w z)) (fun loc_out =>
     bind fw (lift_result fw (likelihood b loc_out)) (fun lik =>
     bind fw (pyro_sample fw "obs" lik (Some X)) (fun _ =>
     ret fw loc_out))))))))).

(** [VAE.guide(self, X)]; it returns nothing. *)
Definition VAE_guide_with (b : blanks) (X : tensor scalar) : M fw unit :=
  bind fw (lift (register_encoder b)) (fun _ =>
  with_context (guide_plate b X)
    (bind fw (lift (fun w => encode b w X)) (fun zz =>
     bind fw (lift_result fw (latent_posterior b (fst zz) (snd zz)))
       (fun posterior =>
     bind fw (pyro_sample fw "latent" posterior None) (fun _ =>
     ret fw tt))))).

(** Calling an attribute that may still be [None]. *)
Definition call_attribute {A B} (f : option (A -> M fw B)) (a : A) : M fw B :=
  match f with
  | None => raise fw TypeError
  | Some g => g a
  end.

(** [VAE.reconstruct_img(self, X)], given the attributes [self.encoder]
    and [self.decoder] and the framework's [Normal(loc, scale).sample()]. *)
Definition reconstruct_img
    (encoder decoder : option (tensor scalar -> M fw (value scalar)))
    (normal_sample : world fw -> value scalar -> value scalar
                     -> result (tensor scalar) * world fw)
    (X : tensor scalar) : M fw (value scalar) :=
  bind fw (call_attribute encoder X) (fun encoded =>
  bind fw (unpack2 fw encoded) (fun zz =>
  let z_loc := fst zz in
  let z_scale := snd zz in
  bind fw (lift (fun w => normal_sample w z_loc z_scale)) (fun z =>
  bind fw (call_attribute decoder z) (fun loc_img =>
  ret fw loc_img)))).

(** The sample sites of a log, in order. *)
Definition sites (log : list (event scalar)) : list string :=
  flat_map (fun e => match e with
                     | EvSample site _ _ _ => [site]
                     | _ => []
                     end) log.

(** The observations the sites of a log are conditioned on. *)
Definition observations (log : list (event scalar))
  : list (string * tensor scalar) :=
  flat_map (fun e => match e with
                     | EvSample site _ (Some v) _ => [(site, v)]
                     | _ => []
                     end) log.

End WithFramework.

Arguments blanks {scalar} fw.

End VaeModel.

(* ===================================================================== *)
(** ** Shapes of draws                                                  *)
(* ===================================================================== *)

Module Shapes.
Import Sem.

Section WithScalar.

Context {scalar : Type}.



End WithScalar.

End Shapes.

(* ===================================================================== *)
(** ** Names: bound before they are read                                  *)
(* ===================================================================== *)

Module Scopes.
Import PyAst Analysis.

(** The built-in names the notebooks use. *)
Definition builtins : list string :=
  [ "print"; "len"; "range"; "super"; "enumerate"; "list"; "str"; "int";
    "float" ].

(** The names a target binds: a name, or the names of a tuple. *)
Fixpoint target_names (t : expr) : list string :=
  match t with
  | EName x => [x]
  | ETuple ts | EList ts => flat_map target_names ts
  | _ => []
  end.

(** The names an expression reads.  The target of a comprehension is
    local to it. *)
Fixpoint reads (e : expr) : list string :=
  match e with
  | EName x => [x]
  | EConstant _ => []
  | EAttribute v _ => reads v
  | ECall f args kws =>
      reads f ++ flat_map reads args ++ flat_map (fun kw => reads (snd kw)) kws
  | ESubscript v i => reads v ++ reads i
  | ESlice lo hi =>
      match lo with Some l => reads l | None => [] end
      ++ match hi with Some h => reads h | None => [] end
  | EBinOp l _ r => reads l ++ reads r
  | EUnaryOp _ x => reads x
  | ECompare l _ r => reads l ++ reads r
  | ETuple es | EList es | EJoinedStr es => flat_map reads es
  | EDict items => flat_map (fun kv => reads (fst kv) ++ reads (snd kv)) items
  | EListComp elt target iter =>
      reads iter
      ++ filter (fun x => negb (mem_string x (target_names target))) (reads elt)
  | EYield v => match v with Some x => reads x | None => [] end
  end.

(** The names a target reads: assigning to [a.b] or [a[i]] reads [a]. *)
Definition target_reads (t : expr) : list string :=
  match t with
  | EName _ | ETuple _ | EList _ => []
  | _ => reads t
  end.

(** The package a plain [import a.b.c] binds: [a]. *)
Definition top_package (m : string) : string :=
  match String.index 0 "." m with
  | Some i => String.substring 0 i m
  | None => m
  end.

(** The names a function body assigns, which Python makes local to the
    function throughout the body. *)
Definition assigned (body : list stmt) : list string :=
  flat_map
    (fun s => match s with
              | SAssign t _ | SAugAssign t _ _ | SFor t _ _ => target_names t
              | SFunctionDef n _ _ | SClassDef n _ _ => [n]
              | _ => []
              end)
    (stmts_of body).

(** The names bound so far in the running scope, and the reads found
    unbound. *)
Definition scope : Type := (list string * list string)%type.

Definition bind_names (xs : list string) (st : scope) : scope :=
  (fst st ++ xs, snd st).

(** Reading [xs] where [outer] are the names visible from the enclosing
    scope and [shadow] the names local to the function: a read is bound
    if the name is bound so far in the scope, or is not local and is
    visible from outside. *)
Definition read_names (outer shadow : list string) (xs : list string)
    (st : scope) : scope :=
  (fst st,
   snd st
   ++ filter (fun x => negb (mem_string x (fst st)
                            || (negb (mem_string x shadow)
                                && mem_string x outer)))
        xs).

(** One statement, in execution order.  The body of a function is
    checked where the function is defined, against the names bound by
    then; the names a class body binds stay in the class. *)
Fixpoint check (outer shadow : list string) (s : stmt) (st : scope) : scope :=
  let block :=
    fix block (o sh : list string) (l : list stmt) (st : scope) : scope :=
      match l with
      | [] => st
      | x :: rest => block o sh rest (check o sh x st)
      end in
  match s with
  | SExpr v => read_names outer shadow (reads v) st
  | SAssign t v =>
      bind_names (target_names t)
        (read_names outer shadow (reads v ++ target_reads t) st)
  | SAugAssign t _ v =>
      bind_names (target_names t)
        (read_names outer shadow (reads v ++ reads t) st)
  | SReturn v =>
      read_names outer shadow (match v with Some e => reads e | None => [] end) st
  | SPass | SShell _ => st
  | SImport m asname =>
      bind_names [match asname with Some a => a | None => top_package m end] st
  | SImportFrom _ name asname =>
      bind_names [match asname with Some a => a | None => name end] st
  | SFor t i body =>
      block outer shadow body
        (bind_names (target_names t) (read_names outer shadow (reads i) st))
  | SIf c body orelse =>
      block outer shadow orelse
        (block outer shadow body (read_names outer shadow (reads c) st))
  | SWith c body =>
      block outer shadow body (read_names outer shadow (reads c) st)
  | SFunctionDef n ps body =>
      let st1 :=
        read_names outer shadow
          (flat_map (fun p => match p_annotation p with
                              | Some a => reads a | None => [] end
                              ++ match p_default p with
                                 | Some d => reads d | None => [] end) ps)
          st in
      let visible :=
        fst st1
        ++ filter (fun x => negb (mem_string x shadow)) outer ++ [n] in
      let inner :=
        block visible (map p_name ps ++ assigned body) body
          (map p_name ps, snd st1) in
      bind_names [n] (fst st1, snd inner)
  | SClassDef n bases body =>
      let st1 := read_names outer shadow (flat_map reads bases) st in
      let inner := block outer shadow body st1 in
      bind_names [n] (fst st1, snd inner)
  | STry body handlers finalbody =>
      block outer shadow finalbody
        ((fix each (hs : list (option expr * list stmt)) (st : scope) : scope :=
            match hs with
            | [] => st
            | h :: rest =>
                each rest
                  (block outer shadow (snd h)
                     (read_names outer shadow
                        (match fst h with Some e => reads e | None => [] end)
                        st))
            end) handlers (block outer shadow body st))
  | SRaise e =>
      read_names outer shadow (match e with Some x => reads x | None => [] end) st
  end.

(** The reads of a notebook, run top to bottom in a fresh kernel, that
    find their name unbound. *)
Definition unbound_names (nb : notebook) : list string :=
  snd (fold_left (fun st s => check [] [] s st) (notebook_source nb)
         (builtins, [])).

(** The names a notebook binds at its top level. *)
Definition top_level_names (nb : notebook) : list string :=
  fst (fold_left (fun st s => check [] [] s st) (notebook_source nb)
         ([], [])).

(** A notebook without its cell number [i]. *)
Fixpoint without_cell (i : nat) (nb : notebook) : notebook :=
  match nb, i with
  | [], _ => []
  | _ :: rest, O => rest
  | c :: rest, S j => c :: without_cell j rest
  end.

End Scopes.

(* ===================================================================== *)
(** ** The inputs of the t-SNE plot                                       *)
(* ===================================================================== *)

Module Tsne.
Import Sem.

Section WithFramework.

Context {scalar : Type} (fw : framework scalar).

(** The number of rows of an array, the size of its first dimension. *)
Definition rows (a : tensor scalar) : nat := hd 0 (t_shape a).

(** [v[0]]: the first item of a tuple, the first row of a tensor. *)
Definition first_item (v : value scalar) : M fw (value scalar) :=
  match v with
  | VTuple (a :: _) => ret fw a
  | VTuple [] => raise fw (FrameworkError "IndexError")
  | VTensor t =>
      match t_shape t with
      | S d :: rest =>
          ret fw (VTensor (mkTensor rest (firstn (numel rest) (t_data t))))
      | _ => raise fw (FrameworkError "IndexError")
      end
  | VNone | VInt _ | VLoader _ => raise fw TypeError
  end.

(** [v.detach().cpu().numpy()]: the same entries as an array; only
    tensors have the methods. *)
Definition to_numpy (v : value scalar) : M fw (tensor scalar) :=
  match v with
  | VTensor t => ret fw t
  | _ => raise fw AttributeError
  end.

(** [np.concatenate(arrays, axis=0)]: at least one array, none of them a
    scalar, all of the same shape after the first dimension. *)
Definition concatenate (arrays : list (tensor scalar)) : M fw (tensor scalar) :=
  match arrays with
  | [] => raise fw ValueError
  | a :: rest =>
      match t_shape a with
      | [] => raise fw ValueError
      | _ :: shape =>
          if forallb
               (fun b => match t_shape b with
                         | [] => false
                         | _ :: shape_b =>
                             if list_eq_dec Nat.eq_dec shape_b shape
                             then true else false
                         end) rest
          then ret fw (mkTensor (list_sum (map rows arrays) :: shape)
                         (flat_map (@t_data scalar) arrays))
          else raise fw ValueError
      end
  end.

(** [list(chain.from_iterable(arrays))]: the items of the arrays, one
    array after the other. *)
Fixpoint chain (arrays : list (tensor scalar)) : M fw (list (tensor scalar)) :=
  match arrays with
  | [] => ret fw []
  | a :: rest =>
      match t_shape a with
      | [] => raise fw TypeError
      | d :: shape =>
          bind fw (chain rest) (fun items =>
          ret fw (blocks d (numel shape) shape (t_data a) ++ items))
      end
  end.

(** The t-SNE cell up to the call of [TSNE]: the two passes over the
    test loader, the flattening of the labels and the concatenation of
    the latent images.  [encoder] is the attribute [vae.encoder];
    [astype(str)] keeps the shape of the labels. *)
Definition tsne_inputs
    (encoder : option (tensor scalar -> M fw (value scalar)))
    (test_loader : value scalar)
  : M fw (tensor scalar * list (tensor scalar)) :=
  bind fw (iterate fw test_loader) (fun first_pass =>
  bind fw (for_fold fw first_pass []
             (fun latent_images b =>
                bind fw (VaeModel.call_attribute fw encoder (fst b)) (fun encoded =>
                bind fw (first_item encoded) (fun z_loc =>
                bind fw (to_numpy z_loc) (fun a =>
                ret fw (latent_images ++ [a]))))))
    (fun latent_images =>
  bind fw (iterate fw test_loader) (fun second_pass =>
  bind fw (for_fold fw second_pass []
             (fun labels b =>
                bind fw (to_numpy (VTensor (snd b))) (fun a =>
                ret fw (labels ++ [a]))))
    (fun labels =>
  bind fw (chain labels) (fun labels =>
  bind fw (concatenate latent_images) (fun latent_images =>
  ret fw (latent_images, labels))))))).

(** A batch as a data loader yields it: one label per image. *)
Definition labelled (b : tensor scalar * tensor scalar) : Prop :=
  t_shape (snd b) = [rows (fst b)].

(** An encoder that answers, for a batch of images, a pair whose first
    item holds one row of [d] latent features per image. *)
Definition encodes_rows (f : tensor scalar -> M fw (value scalar)) (d : nat)
  : Prop :=
  forall img s, exists z_loc z_scale s',
    f img s = (Ok (VTuple [VTensor z_loc; z_scale]), s')
    /\ t_shape z_loc = [rows img; d].

End WithFramework.

End Tsne.

(* ===================================================================== *)
(** ** What the training loop prints                                      *)
(* ===================================================================== *)

Module Printing.
Import Sem.

Section WithScalar.

Context {scalar : Type}.

(** The values printed, in order. *)
Definition printed (log : list (event scalar)) : list scalar :=
  flat_map (fun e => match e with EvPrint x => [x] | _ => [] end) log.

(** The losses of the epochs whose number is divisible by 10. *)
Definition every_tenth (epochs : list Z) (loss : list scalar) : list scalar :=
  map snd (filter (fun el => (fst el mod 10 =? 0)%Z) (combine epochs loss)).

End WithScalar.

End Printing.

(* ===================================================================== *)
(** ** Arguments and hard-coded sizes                                     *)
(* ===================================================================== *)

Module Wiring.
Import PyAst Analysis.

Definition constant_eqb (a b : constant) : bool :=
  match a, b with
  | CNone, CNone => true
  | CBool x, CBool y => Bool.eqb x y
  | CInt x, CInt y => Z.eqb x y
  | CFloat x, CFloat y | CStr x, CStr y => String.eqb x y
  | _, _ => false
  end.

Definition binop_eqb (a b : binop) : bool :=
  match a, b with
  | Add, Add | Sub, Sub | Mult, Mult | Div, Div | Mod, Mod => true
  | _, _ => false
  end.

Definition unaryop_eqb (a b : unaryop) : bool :=
  match a, b with
  | USub, USub | Not, Not => true
  | _, _ => false
  end.

Definition cmpop_eqb (a b : cmpop) : bool :=
  match a, b with
  | Eq, Eq | NotEq, NotEq | Lt, Lt | Gt, Gt => true
  | _, _ => false
  end.

(** Equality of expressions. *)
Fixpoint expr_eqb (a b : expr) : bool :=
  let list_eqb :=
    fix list_eqb (xs ys : list expr) : bool :=
      match xs, ys with
      | [], [] => true
      | x :: xs', y :: ys' => expr_eqb x y && list_eqb xs' ys'
      | _, _ => false
      end in
  let option_eqb (x y : option expr) : bool :=
    match x, y with
    | None, None => true
    | Some x', Some y' => expr_eqb x' y'
    | _, _ => false
    end in
  match a, b with
  | EName x, EName y => String.eqb x y
  | EConstant c, EConstant c' => constant_eqb c c'
  | EAttribute v x, EAttribute v' y => expr_eqb v v' && String.eqb x y
  | ECall f args kws, ECall f' args' kws' =>
      expr_eqb f f' && list_eqb args args'
      && (fix kws_eqb (xs ys : list (string * expr)) : bool :=
            match xs, ys with
            | [], [] => true
            | (k, x) :: xs', (k', y) :: ys' =>
                String.eqb k k' && expr_eqb x y && kws_eqb xs' ys'
            | _, _ => false
            end) kws kws'
  | ESubscript v i, ESubscript v' i' => expr_eqb v v' && expr_eqb i i'
  | ESlice lo hi, ESlice lo' hi' =>
      match lo, lo' with
      | None, None => true
      | Some x, Some y => expr_eqb x y
      | _, _ => false
      end
      && match hi, hi' with
         | None, None => true
         | Some x, Some y => expr_eqb x y
         | _, _ => false
         end
  | EBinOp l o r, EBinOp l' o' r' =>
      expr_eqb l l' && binop_eqb o o' && expr_eqb r r'
  | EUnaryOp o x, EUnaryOp o' x' => unaryop_eqb o o' && expr_eqb x x'
  | ECompare l o r, ECompare l' o' r' =>
      expr_eqb l l' && cmpop_eqb o o' && expr_eqb r r'
  | ETuple xs, ETuple ys | EList xs, EList ys
  | EJoinedStr xs, EJoinedStr ys => list_eqb xs ys
  | EDict xs, EDict ys =>
      (fix items_eqb (xs ys : list (expr * expr)) : bool :=
         match xs, ys with
         | [], [] => true
         | (k, x) :: xs', (k', y) :: ys' =>
             expr_eqb k k' && expr_eqb x y && items_eqb xs' ys'
         | _, _ => false
         end) xs ys
  | EListComp e t i, EListComp e' t' i' =>
      expr_eqb e e' && expr_eqb t t' && expr_eqb i i'
  | EYield x, EYield y =>
      match x, y with
      | None, None => true
      | Some x', Some y' => expr_eqb x' y'
      | _, _ => false
      end
  | _, _ => false
  end.

Definition keywords_of (e : expr) : list (string * expr) :=
  match e with ECall _ _ kws => kws | _ => [] end.

Definition callee_of (e : expr) : option (list string) :=
  match e with ECall f _ _ => dotted_path f | _ => None end.

(** The value passed for keyword [k] in a call. *)
Definition keyword (k : string) (e : expr) : option expr :=
  option_map snd (find (fun kw => String.eqb (fst kw) k) (keywords_of e)).

(** The keywords for which two calls pass different values. *)
Definition differing_keywords (a b : expr) : list string :=
  filter
    (fun k => match keyword k a, keyword k b with
              | Some x, Some y => negb (expr_eqb x y)
              | None, None => false
              | _, _ => true
              end)
    (nodup string_dec (map fst (keywords_of a) ++ map fst (keywords_of b))).

Definition body_of (s : stmt) : list stmt :=
  match s with SFunctionDef _ _ body => body | _ => [] end.

(** The value a function body assigns to the name [x]. *)
Definition assigned_value (x : string) (body : list stmt) : option expr :=
  match find (fun s => match s with
                       | SAssign (EName n) _ => String.eqb n x
                       | _ => false
                       end) body with
  | Some (SAssign _ v) => Some v
  | _ => None
  end.

(** What a function body returns. *)
Definition returned (body : list stmt) : list expr :=
  flat_map (fun s => match s with SReturn (Some e) => [e] | _ => [] end) body.

(** The differences between the calls assigned to two names. *)
Definition differences (x y : string) (body : list stmt)
  : option (option (list string) * option (list string) * list string) :=
  match assigned_value x body, assigned_value y body with
  | Some a, Some b => Some (callee_of a, callee_of b, differing_keywords a b)
  | _, _ => None
  end.

Definition keyword_of (x k : string) (body : list stmt) : option expr :=
  match assigned_value x body with
  | Some a => keyword k a
  | None => None
  end.

(** The integer default of a parameter. *)
Definition default_int (p : string) (m : stmt) : list (option Z) :=
  map (fun d => match d with Some e => literal_int e | None => None end)
    (default_of p m).

(** The length of a list literal, possibly repeated: [[x, y]], [[x] * k]. *)
Definition literal_length (e : expr) : option Z :=
  match e with
  | EList xs => Some (Z.of_nat (List.length xs))
  | EBinOp (EList xs) Mult (EConstant (CInt k)) =>
      Some (Z.of_nat (List.length xs) * k)%Z
  | _ => None
  end.

Definition default_length (p : string) (m : stmt) : list (option Z) :=
  map (fun d => match d with Some e => literal_length e | None => None end)
    (default_of p m).

(** The lengths of the list literals passed to [torch.tensor] and the
    literal shapes passed to [expand] in a piece of code. *)
Definition tensor_literal_lengths (body : list stmt) : list (option Z) :=
  flat_map (fun e => match e with
                     | ECall f [EList xs] [] =>
                         match dotted_path f with
                         | Some ["torch"; "tensor"] =>
                             [Some (Z.of_nat (List.length xs))]
                         | _ => []
                         end
                     | _ => []
                     end) (exprs_of body).

Definition expand_shapes (body : list stmt) : list (option (list Z)) :=
  flat_map (fun e => match e with
                     | ECall (EAttribute _ "expand") [EList dims] [] =>
                         [literal_shape dims]
                     | _ => []
                     end) (exprs_of body).

(** The grids of the [make_subplots] calls: rows and columns. *)
Definition subplot_grids (body : list stmt) : list (option Z * option Z) :=
  flat_map (fun e => if is_call_of ["make_subplots"] e
                     then [(match keyword "rows" e with
                            | Some r => literal_int r | None => None end,
                            match keyword "cols" e with
                            | Some c => literal_int c | None => None end)]
                     else []) (exprs_of body).

(** The arguments of the calls of the function named by [path]. *)
Definition arguments_of (path : list string) (body : list stmt)
  : list (list expr * list (string * expr)) :=
  flat_map (fun e => match e with
                     | ECall _ args kws =>
                         if is_call_of path e then [(args, kws)] else []
                     | _ => []
                     end) (exprs_of body).

End Wiring.

(* ===================================================================== *)
(** ** The losses the training loops record                               *)
(* ===================================================================== *)

Module Losses.
Import Sem.

Section WithFramework.

Context {scalar : Type} (fw : framework scalar).

(** The losses [n] calls of [svi.step] on the same arguments return, one
    after the other from the framework state [w], and the state after
    them; the sequence stops at a call that raises. *)
Fixpoint step_losses (w : world fw) (args : list (tensor scalar)) (n : nat)
  : list scalar * world fw :=
  match n with
  | O => ([], w)
  | S n' =>
      match svi_step fw w args with
      | (Ok l, w') =>
          let (ls, w'') := step_losses w' args n' in (l :: ls, w'')
      | (Raise _, w') => ([], w')
      end
  end.

(** The losses [svi.step] returns on the batches of one epoch, added up
    from [acc] in the order of the loader, and the state after them. *)
Fixpoint epoch_sum (w : world fw) (bs : list (tensor scalar * tensor scalar))
    (acc : scalar) : scalar * world fw :=
  match bs with
  | [] => (acc, w)
  | b :: rest =>
      match svi_step fw w [fst b] with
      | (Ok l, w') => epoch_sum w' rest (f_add fw acc l)
      | (Raise _, w') => (acc, w')
      end
  end.

(** The sum of each of [n] epochs over the batches of [train], divided
    by the size of its data set. *)
Fixpoint epoch_losses (w : world fw) (train : loader scalar) (n : nat)
  : list scalar :=
  match n with
  | O => []
  | S n' =>
      let (total, w') := epoch_sum w (batches train) (f_of_Z fw 0) in
      f_div fw total (f_of_Z fw (Z.of_nat (dataset_len train)))
      :: epoch_losses w' train n'
  end.

End WithFramework.

End Losses.

(* ===================================================================== *)
(** ** More data to run the definitions on                                *)
(* ===================================================================== *)

Module Samples.
Import Sem.

(** Two sampled 2 by 7 weight matrices, as [Predictive] returns them. *)
Definition weights : tensor Z := mkTensor [2; 1; 2; 7] (map Z.of_nat (seq 0 28)).

Definition samples : list (string * tensor Z) :=
  [ ("noise", mkTensor [2; 1; 2] [1; 2; 3; 4]%Z);
    ("linear_layer.weight", weights) ].

Definition products : list string := ["shoes"; "shirts"].

Definition channels : list string :=
  ["tv"; "radio"; "print"; "search"; "social"; "mail"; "cinema"].

(** Three weights too many for whole matrices. *)
Definition ragged : tensor Z := mkTensor [31] (map Z.of_nat (seq 0 31)).

(** Three generated images. *)
Definition images : tensor Z := mkTensor [3; 28; 28] (repeat 0%Z (3 * 784)).

Definition empty_set : loader Z := mkLoader [] 0.

(** Blanks of the autoencoder filled in: one plate over the images, a
    standard normal prior over the latent space, encoder and decoder
    networks that answer constant tensors of the right shapes. *)
Definition filled (fw : framework Z) : VaeModel.blanks fw :=
  VaeModel.mkBlanks fw
    (fun w => (Ok tt, w))
    (fun X => Some ("data", hd 0 (t_shape X)))
    (fun X => Ok (mkTensor [hd 0 (t_shape X); 32] []))
    (fun X => Ok (mkTensor [hd 0 (t_shape X); 32] []))
    (fun loc scale => Ok (ToEvent (Normal loc scale) 1))
    (fun w z => (Ok (mkTensor [hd 0 (t_shape z); 1; 28; 28] []), w))
    (fun loc_out => Ok (ToEvent (Normal loc_out loc_out) 3))
    (fun w => (Ok tt, w))
    (fun X => Some ("data", hd 0 (t_shape X)))
    (fun w X => (Ok (mkTensor [hd 0 (t_shape X); 32] [],
                     mkTensor [hd 0 (t_shape X); 32] []), w))
    (fun loc scale => Ok (ToEvent (Normal loc scale) 1)).

(** An encoder that answers a pair of latent tensors. *)
Definition encoder (fw : framework Z) (X : tensor Z) : M fw (value Z) :=
  ret fw (VTuple [VTensor (mkTensor [hd 0 (t_shape X); 32] []);
                  VTensor (mkTensor [hd 0 (t_shape X); 32] [])]).

(** [Normal(loc, scale).sample()] answering the location. *)
Definition normal_sample (fw : framework Z) (w : world fw)
    (loc scale : value Z) : result (tensor Z) * world fw :=
  match loc with
  | VTensor t => (Ok t, w)
  | _ => (Raise ValueError, w)
  end.

(** A decoder body that answers 784 entries per latent row. *)
Definition decoder_body (fw : framework Z) (z : tensor Z) : M fw (value Z) :=
  ret fw (VTensor (mkTensor [hd 0 (t_shape z); 784] [])).

(** An encoder answering 32 latent features per image. *)
Definition latent_encoder (fw : framework Z) (X : tensor Z) : M fw (value Z) :=
  ret fw (VTuple [VTensor (mkTensor [Tsne.rows X; 32] []); VNone]).

End Samples.

(* ===================================================================== *)
(** ** Properties of the program text                                     *)
(* ===================================================================== *)

Import PyAst Notebooks Analysis Workshop.

(** The transcription is faithful to the layout of the notebooks: nine
    code cells in the regression notebook and thirteen in the template. *)
Lemma code_cell_counts :
  List.length (cells_where (fun _ => true) Regression.cells) = 9
  /\ List.length (cells_where (fun _ => true) VaeTemplate.cells) = 13.
Proof. split; reflexivity. Qed.

(** C1, as stated, fails: it is not the case that each of the classes
    Encoder, Decoder, VAE and RevenueModel is an unfilled template;
    RevenueModel is written out in full. *)
Lemma not_all_four_classes_unfilled :
  ~ (forall name,
        In name ["Encoder"; "Decoder"; "VAE"; "RevenueModel"] ->
        unfilled_class name = true).
Proof.
  intros H.
  assert (E : unfilled_class "RevenueModel" = true).
  { apply H. simpl. tauto. }
  vm_compute in E. discriminate E.
Qed.

(** C1, amended: Encoder and Decoder are unfilled templates, every method
    of theirs binding placeholders only; of the methods of VAE,
    [__init__], [model] and [guide] are unfilled while [reconstruct_img]
    is provided complete and holds no placeholder; RevenueModel is
    written out in full: neither of its methods is a template and the class holds
    no placeholder. *)
Theorem template_classes :
  unfilled_class "Encoder" = true
  /\ unfilled_class "Decoder" = true
  /\ (exists vae,
         find_class "VAE" VaeTemplate.cells = Some vae
         /\ unfilled_methods vae = ["__init__"; "model"; "guide"]
         /\ filled_methods vae = ["reconstruct_img"]
         /\ method_placeholders VaeTemplate.cells ("VAE", "reconstruct_img")
            = Some 0)
  /\ (exists rm,
         find_class "RevenueModel" Regression.cells = Some rm
         /\ unfilled_methods rm = []
         /\ filled_methods rm = ["__init__"; "forward"]
         /\ placeholders [rm] = 0).
Proof.
  split; [reflexivity|]. split; [reflexivity|]. split.
  - exists VaeTemplate.VAE. repeat split; reflexivity.
  - exists Regression.RevenueModel. repeat split; reflexivity.
Qed.

(** C2: exactly one of the two notebooks, the autoencoder one, is a
    fill-in-the-blank template: its encoder, decoder, model and guide
    bodies are placeholders, the attributes set in the constructors are
    all [None], and [model] and [guide] start with [pass].  The
    regression notebook holds no placeholder in its model, guide,
    training and inference cells nor anywhere else; its one [pass] is
    the whole body of RevenueGuide, a subclass of the framework's
    AutoDiagonalNormal. *)
Theorem exactly_one_notebook_is_a_template :
  map is_template notebooks = [false; true]
  /\ map (method_is_template VaeTemplate.cells)
       [ ("Encoder", "__init__"); ("Encoder", "forward");
         ("Decoder", "__init__"); ("Decoder", "forward");
         ("VAE", "model"); ("VAE", "guide") ]
     = repeat (Some true) 6
  /\ map attributes_all_none
       [ VaeTemplate.Encoder_init; VaeTemplate.Decoder_init;
         VaeTemplate.VAE_init ]
     = [true; true; true]
  /\ map starts_with_pass [ VaeTemplate.VAE_model; VaeTemplate.VAE_guide ]
     = [true; true]
  /\ placeholders (notebook_source Regression.cells) = 0
  /\ map placeholders
       [ Regression.model_cell; Regression.guide_cell;
         Regression.training_cell; Regression.inference_cell ]
     = [0; 0; 0; 0]
  /\ all_passes (notebook_source Regression.cells) = 1
  /\ Regression.guide_cell
     = [ SClassDef "RevenueGuide"
           [dot ["pyro"; "infer"; "autoguide"; "AutoDiagonalNormal"]]
           [SPass] ].
Proof. repeat split; reflexivity. Qed.

(** C5: the regression notebook reads exactly two parquet files,
    [./assets/media_prepped.parquet] and [./assets/sales_prepped.parquet],
    both in its data-loading cell; the template reads none; no other call
    of either notebook names the reading or writing of a file, and the
    two paths are the only parquet paths in the code. *)
Theorem two_parquet_reads :
  calls_named "read_parquet" (notebook_source Regression.cells)
  = [ call (dot ["pd"; "read_parquet"]) [str "./assets/media_prepped.parquet"];
      call (dot ["pd"; "read_parquet"]) [str "./assets/sales_prepped.parquet"] ]
  /\ cells_calling ["pd"; "read_parquet"] Regression.cells = [6]
  /\ calls_named "read_parquet" (notebook_source VaeTemplate.cells) = []
  /\ file_calls (notebook_source Regression.cells) = ["read_parquet"]
  /\ file_calls (notebook_source VaeTemplate.cells) = []
  /\ filter (contains ".parquet") (string_literals all_source)
     = ["./assets/media_prepped.parquet"; "./assets/sales_prepped.parquet"].
Proof. repeat split; reflexivity. Qed.

(** C7, as stated, fails on the template: its cells are not in the
    order "load the data set, define the model, train, show results",
    because no cell before the model definitions loads anything. *)
Lemma template_pipeline_not_in_order :
  pipeline_in_order ["Encoder"; "Decoder"; "VAE"] VaeTemplate.cells = false.
Proof. reflexivity. Qed.

(** C7, amended: the regression notebook loads the data, defines model
    and guide, trains and then shows results, in this order.  The
    template first only defines the helper [setup_data_loaders], which no
    cell calls.  At cell level the loaders are the targets of one
    statement only, [train_loader, test_loader = None], which stands in
    the training cell, after the definitions of Encoder, Decoder and VAE
    and before the loop; as written it binds nothing: run, the cell
    raises [TypeError] there and leaves everything as it was, so that no
    epoch runs and no curve is drawn.  In both notebooks no cell before
    the training cell shows results, the loss curve is drawn in the
    training cell after the loop, and the other displays stand in later
    cells. *)
Theorem cell_order :
  pipeline_in_order ["RevenueModel"; "RevenueGuide"] Regression.cells = true
  /\ (cells_where loads_data Regression.cells,
      cells_defining "RevenueModel" Regression.cells,
      cells_defining "RevenueGuide" Regression.cells,
      cells_calling ["svi"; "step"] Regression.cells,
      cells_where shows_results Regression.cells)
     = ([6], [8], [12], [14], [14; 16])
  /\ (stmts_from 0 is_for Regression.training_cell,
      stmts_from 0 (stmt_calls ["px"; "line"]) Regression.training_cell)
     = ([8], [9])
  /\ cells_calling ["go"; "Histogram"] Regression.cells = [16]
  /\ (cells_where loads_data VaeTemplate.cells,
      cells_defining "setup_data_loaders" VaeTemplate.cells,
      calls_of ["setup_data_loaders"] (notebook_source VaeTemplate.cells),
      cells_binding "train_loader" VaeTemplate.cells)
     = ([], [4], [], [15])
  /\ (cells_defining "Encoder" VaeTemplate.cells,
      cells_defining "Decoder" VaeTemplate.cells,
      cells_defining "VAE" VaeTemplate.cells,
      cells_calling ["svi"; "step"] VaeTemplate.cells,
      cells_where shows_results VaeTemplate.cells)
     = ([6], [9], [12], [15], [15; 20; 23])
  /\ cells_binding "test_loader" VaeTemplate.cells = [15]
  /\ (stmts_from 0 (binds "train_loader") VaeTemplate.training_cell,
      stmts_from 0 is_for VaeTemplate.training_cell,
      stmts_from 0 (stmt_calls ["px"; "line"]) VaeTemplate.training_cell)
     = ([1], [4], [5])
  /\ nth_error VaeTemplate.training_cell 1
     = Some (SAssign (ETuple [EName "train_loader"; EName "test_loader"]) none)
  /\ (forall (scalar : Type) (fw : Sem.framework scalar) (s : Sem.state fw),
        Sem.vae_training_cell fw s = (Sem.Raise Sem.TypeError, s))
  /\ (cells_calling ["px"; "line"] VaeTemplate.cells,
      cells_calling ["px"; "scatter"] VaeTemplate.cells,
      cells_calling ["Image"; "fromarray"] VaeTemplate.cells)
     = ([15], [20], [23]).
Proof. repeat split; reflexivity. Qed.

(* ===================================================================== *)
(** ** Reasoning about runs                                               *)
(* ===================================================================== *)

Import Sem.

Section Runs.

Context {scalar : Type} (fw : framework scalar).

Lemma bind_ok {A B} (c : M fw A) (k : A -> M fw B) s a s' :
  c s = (Ok a, s') -> bind fw c k s = k a s'.
Proof. intros E. unfold bind. rewrite E. reflexivity. Qed.

Lemma bind_raise {A B} (c : M fw A) (k : A -> M fw B) s e s' :
  c s = (Raise e, s') -> bind fw c k s = (Raise e, s').
Proof. intros E. unfold bind. rewrite E. reflexivity. Qed.

Lemma for_fold_cons {A B} (x : A) (xs : list A) (acc : B) body s :
  for_fold fw (x :: xs) acc body s
  = match body acc x s with
    | (Ok acc', s') => for_fold fw xs acc' body s'
    | (Raise e, s') => (Raise e, s')
    end.
Proof. reflexivity. Qed.

(** The loop rule: a body that always returns and re-establishes the
    invariant makes the loop return after one pass per item. *)
Lemma for_fold_returns {A B} (P : nat -> B -> state fw -> Prop)
    (body : B -> A -> M fw B) (xs : list A) :
  (forall i acc x s, P i acc s ->
     exists acc' s', body acc x s = (Ok acc', s') /\ P (S i) acc' s') ->
  forall i acc s, P i acc s ->
    exists acc' s',
      for_fold fw xs acc body s = (Ok acc', s')
      /\ P (i + List.length xs) acc' s'.
Proof.
  intros Hbody. induction xs as [|x xs IH]; intros i acc s HP.
  - exists acc, s. simpl. rewrite Nat.add_0_r. split; [reflexivity | exact HP].
  - destruct (Hbody i acc x s HP) as (acc1 & s1 & E1 & HP1).
    destruct (IH (S i) acc1 s1 HP1) as (acc2 & s2 & E2 & HP2).
    exists acc2, s2. rewrite for_fold_cons, E1. split; [exact E2|].
    simpl List.length. rewrite Nat.add_succ_r. exact HP2.
Qed.

(** A loop raises only what its body raises. *)
Lemma for_fold_raises {A B} (Q : exn -> Prop)
    (body : B -> A -> M fw B) (xs : list A) :
  (forall acc x s e s', body acc x s = (Raise e, s') -> Q e) ->
  forall acc s e s', for_fold fw xs acc body s = (Raise e, s') -> Q e.
Proof.
  intros Hbody. induction xs as [|x xs IH]; intros acc s e s' E.
  - discriminate E.
  - rewrite for_fold_cons in E.
    destruct (body acc x s) as [[acc1|e1] s1] eqn:E1.
    + exact (IH _ _ _ _ E).
    + inversion E; subst. exact (Hbody _ _ _ _ _ E1).
Qed.

(** A property of the state kept by the body is kept by the loop,
    however it ends. *)
Lemma for_fold_keeps {A B} (I : state fw -> Prop)
    (body : B -> A -> M fw B) (xs : list A) :
  (forall acc x s, I s -> I (snd (body acc x s))) ->
  forall acc s, I s -> I (snd (for_fold fw xs acc body s)).
Proof.
  intros Hbody. induction xs as [|x xs IH]; intros acc s HI.
  - exact HI.
  - rewrite for_fold_cons. specialize (Hbody acc x s HI).
    destruct (body acc x s) as [[acc1|e1] s1]; simpl in Hbody.
    + apply IH. exact Hbody.
    + exact Hbody.
Qed.

Lemma steps_app (l1 l2 : list (event scalar)) :
  steps (l1 ++ l2) = steps l1 ++ steps l2.
Proof. unfold steps. apply filter_app. Qed.

Lemma steps_of_steps (bs : list (tensor scalar * tensor scalar)) :
  steps (map (fun b => EvStep [fst b]) bs) = map (fun b => EvStep [fst b]) bs.
Proof.
  induction bs as [|b bs IH]; [reflexivity|].
  unfold steps in *. simpl. f_equal. exact IH.
Qed.

Lemma py_range_length (n : Z) : List.length (py_range n) = Z.to_nat n.
Proof. unfold py_range. rewrite length_map, length_seq. reflexivity. Qed.

Lemma repeat_snoc {A} (x : A) (n : nat) : repeat x n ++ [x] = repeat x (S n).
Proof.
  induction n as [|n IH]; [reflexivity|].
  simpl. rewrite IH. reflexivity.
Qed.

Lemma concat_repeat_snoc {A} (l : list A) (n : nat) :
  List.concat (repeat l n) ++ l = List.concat (repeat l (S n)).
Proof.
  induction n as [|n IH]; simpl.
  - rewrite app_nil_r. reflexivity.
  - rewrite <- app_assoc, IH. reflexivity.
Qed.

(** One pass of the regression loop: a step on [(X, y)], then the loss
    per row is appended. *)
Lemma regression_epoch (X y : tensor scalar) (m : nat) (rest : list nat)
    (Hstep : step_succeeds fw) (HX : t_shape X = S m :: rest)
    (losses : list scalar) (s : state fw) :
  exists q s',
    bind fw (step fw [X; y])
      (fun loss =>
         bind fw (len fw X)
           (fun n => bind fw (truediv fw loss n)
                       (fun q => ret fw (losses ++ [q])))) s
    = (Ok (losses ++ [q]), s')
    /\ st_log fw s' = st_log fw s ++ [EvStep [X; y]]
    /\ st_plates fw s' = st_plates fw s.
Proof.
  destruct (Hstep (st_world fw s) [X; y]) as (l & w' & E).
  eexists _, _.
  unfold bind, step, prim, len, truediv, ret. rewrite E, HX. simpl.
  repeat split; reflexivity.
Qed.

(** The inner loop of the template: one step per batch, in order. *)
Lemma batches_loop (Hstep : step_succeeds fw)
    (bs : list (tensor scalar * tensor scalar)) (acc : scalar) (s : state fw) :
  exists acc' s',
    for_fold fw bs acc
      (fun epoch_loss b =>
         bind fw (step fw [fst b])
           (fun l => ret fw (f_add fw epoch_loss l))) s
    = (Ok acc', s')
    /\ st_log fw s' = st_log fw s ++ map (fun b => EvStep [fst b]) bs.
Proof.
  revert acc s. induction bs as [|b bs IH]; intros acc s.
  - exists acc, s. simpl. rewrite app_nil_r. split; reflexivity.
  - destruct (Hstep (st_world fw s) [fst b]) as (l & w' & E).
    rewrite for_fold_cons. unfold bind at 1, step, prim, ret. rewrite E.
    destruct (IH (f_add fw acc l)
                (mkState fw w' (st_plates fw s) (st_log fw s ++ [EvStep [fst b]])))
      as (acc' & s' & E' & L').
    exists acc', s'. split; [exact E'|].
    rewrite L'. simpl. rewrite <- app_assoc. reflexivity.
Qed.

End Runs.

(* ===================================================================== *)
(** ** The training loops                                                 *)
(* ===================================================================== *)

Section TrainingLoops.

Context {scalar : Type} (fw : framework scalar).

(** The regression training cell returns after [EPOCHS] passes, having
    cleared the parameter store, taken one step on [(X, y)] per pass and
    drawn the loss curve. *)
Lemma regression_training_runs
    (Hstep : step_succeeds fw)
    (X y : tensor scalar) (m : nat) (rest : list nat)
    (HX : t_shape X = S m :: rest) (s : state fw) :
  exists losses s',
    training_cell fw X y s = (Ok losses, s')
    /\ List.length losses = Z.to_nat EPOCHS
    /\ st_log fw s'
       = st_log fw s
         ++ EvClearParamStore :: repeat (EvStep [X; y]) (Z.to_nat EPOCHS)
         ++ [EvPlot "px.line" losses].
Proof.
  set (s0 := mkState fw (clear fw (st_world fw s)) (st_plates fw s)
               (st_log fw s ++ [EvClearParamStore])).
  destruct (for_fold_returns fw
              (fun i (acc : list scalar) st =>
                 List.length acc = i
                 /\ st_log fw st = st_log fw s0 ++ repeat (EvStep [X; y]) i)
              (fun losses (_ : Z) =>
                 bind fw (step fw [X; y])
                   (fun loss =>
                      bind fw (len fw X)
                        (fun n => bind fw (truediv fw loss n)
                                    (fun q => ret fw (losses ++ [q])))))
              (tqdm (py_range EPOCHS)))
    with (i := 0) (acc := @nil scalar) (s := s0)
    as (losses & s1 & E1 & Hlen & Hlog).
  - intros i acc x st [Hl Hg].
    destruct (regression_epoch fw X y m rest Hstep HX acc st)
      as (q & st' & E & L & _).
    exists (acc ++ [q]), st'. split; [exact E|]. split.
    + rewrite length_app, Hl. simpl. lia.
    + rewrite L, Hg, <- app_assoc, repeat_snoc. reflexivity.
  - split; [reflexivity|]. simpl. rewrite app_nil_r. reflexivity.
  - unfold tqdm in *. rewrite py_range_length in Hlen, Hlog. simpl in Hlen.
    exists losses, (mkState fw (st_world fw s1) (st_plates fw s1)
                      (st_log fw s1 ++ [EvPlot "px.line" losses])).
    split; [|split].
    + unfold training_cell.
      rewrite (bind_ok fw _ _ s tt s0) by reflexivity.
      unfold tqdm. rewrite (bind_ok fw _ _ s0 losses s1 E1).
      reflexivity.
    + exact Hlen.
    + simpl. rewrite Hlog. unfold s0. simpl.
      rewrite <- !app_assoc. reflexivity.
Qed.

(** One epoch of the template's loop, once the loaders are bound. *)
Lemma vae_epoch (Hstep : step_succeeds fw)
    (train : loader scalar) (k : nat) (Hd : dataset_len train = S k)
    (loss : list scalar) (epoch : Z) (s : state fw) :
  exists total s',
    bind fw (iterate fw (VLoader train))
      (fun train_batches =>
         bind fw (for_fold fw train_batches (f_of_Z fw 0)
                    (fun epoch_loss b =>
                       bind fw (step fw [fst b])
                         (fun l => ret fw (f_add fw epoch_loss l))))
           (fun epoch_loss =>
              bind fw (len_dataset fw (VLoader train))
                (fun normalizer_train =>
                   bind fw (truediv fw epoch_loss normalizer_train)
                     (fun total_epoch_loss_train =>
                        bind fw (if (epoch mod 10 =? 0)%Z
                                 then print fw total_epoch_loss_train
                                 else ret fw tt)
                          (fun _ => ret fw (loss ++ [total_epoch_loss_train])))))) s
    = (Ok (loss ++ [total]), s')
    /\ steps (st_log fw s')
       = steps (st_log fw s) ++ map (fun b => EvStep [fst b]) (batches train).
Proof.
  destruct (batches_loop fw Hstep (batches train) (f_of_Z fw 0) s)
    as (el & s1 & E1 & L1).
  exists (f_div fw el (f_of_Z fw (Z.of_nat (S k)))).
  unfold iterate. rewrite (bind_ok fw _ _ s (batches train) s) by reflexivity.
  rewrite (bind_ok fw _ _ s el s1 E1).
  unfold len_dataset.
  rewrite (bind_ok fw _ _ s1 (dataset_len train) s1) by reflexivity.
  rewrite Hd.
  rewrite (bind_ok fw _ _ s1 (f_div fw el (f_of_Z fw (Z.of_nat (S k)))) s1)
    by reflexivity.
  destruct (epoch mod 10 =? 0)%Z.
  - eexists. split; [reflexivity|]. simpl.
    rewrite steps_app, L1, steps_app, steps_of_steps. simpl.
    rewrite app_nil_r. reflexivity.
  - eexists. split; [reflexivity|].
    rewrite L1, steps_app, steps_of_steps. reflexivity.
Qed.

(** With [EPOCHS] bound to the number [n] and the loaders bound, the
    template's training cell returns after [n] epochs, each taking one
    step per batch of the training loader. *)
Lemma vae_training_runs (Hstep : step_succeeds fw)
    (n : nat) (train test : loader scalar) (Hd : 0 < dataset_len train)
    (s : state fw) :
  exists loss s',
    vae_training_cell_with fw (VInt (Z.of_nat n))
      (VTuple [VLoader train; VLoader test]) s
    = (Ok loss, s')
    /\ List.length loss = n
    /\ steps (st_log fw s')
       = steps (st_log fw s)
         ++ List.concat (repeat (map (fun b => EvStep [fst b]) (batches train)) n).
Proof.
  destruct (dataset_len train) as [|k] eqn:Hk; [lia|].
  set (s0 := mkState fw (clear fw (st_world fw s)) (st_plates fw s)
               (st_log fw s ++ [EvClearParamStore])).
  set (body := fun (loss : list scalar) (epoch : Z) =>
    bind fw (iterate fw (VLoader train))
      (fun train_batches =>
         bind fw (for_fold fw train_batches (f_of_Z fw 0)
                    (fun epoch_loss b =>
                       bind fw (step fw [fst b])
                         (fun l => ret fw (f_add fw epoch_loss l))))
           (fun epoch_loss =>
              bind fw (len_dataset fw (VLoader train))
                (fun normalizer_train =>
                   bind fw (truediv fw epoch_loss normalizer_train)
                     (fun total_epoch_loss_train =>
                        bind fw (if (epoch mod 10 =? 0)%Z
                                 then print fw total_epoch_loss_train
                                 else ret fw tt)
                          (fun _ => ret fw (loss ++ [total_epoch_loss_train]))))))).
  destruct (for_fold_returns fw
              (fun i (acc : list scalar) st =>
                 List.length acc = i
                 /\ steps (st_log fw st)
                    = steps (st_log fw s0)
                      ++ List.concat
                           (repeat (map (fun b => EvStep [fst b]) (batches train)) i))
              body (tqdm (py_range (Z.of_nat n))))
    with (i := 0) (acc := @nil scalar) (s := s0)
    as (loss & s1 & E1 & Hlen & Hlog).
  - intros i acc x st [Hl Hg].
    destruct (vae_epoch Hstep train k Hk acc x st) as (total & st' & E & L).
    exists (acc ++ [total]), st'. split; [exact E|]. split.
    + rewrite length_app, Hl. simpl. lia.
    + rewrite L, Hg, <- app_assoc, concat_repeat_snoc. reflexivity.
  - split; [reflexivity|]. simpl. rewrite app_nil_r. reflexivity.
  - unfold tqdm in *. rewrite py_range_length, Nat2Z.id in Hlen, Hlog.
    simpl in Hlen.
    exists loss, (mkState fw (st_world fw s1) (st_plates fw s1)
                    (st_log fw s1 ++ [EvPlot "px.line" loss])).
    split; [|split].
    + unfold vae_training_cell_with, unpack2.
      rewrite (bind_ok fw _ _ s (VLoader train, VLoader test) s) by reflexivity.
      rewrite (bind_ok fw _ _ s tt s0) by reflexivity.
      unfold range_of.
      rewrite (bind_ok fw _ _ s0 (py_range (Z.of_nat n)) s0) by reflexivity.
      unfold tqdm. fold body. rewrite (bind_ok fw _ _ s0 loss s1 E1).
      reflexivity.
    + exact Hlen.
    + simpl. rewrite steps_app, Hlog. unfold s0. simpl.
      rewrite steps_app. simpl. rewrite !app_nil_r. reflexivity.
Qed.

(** As written, with [EPOCHS = None] and the loaders [None], the cell
    raises at the unpacking, before the store is cleared or a step
    taken. *)
Lemma vae_training_as_written (s : state fw) :
  vae_training_cell fw s = (Raise TypeError, s).
Proof. reflexivity. Qed.

End TrainingLoops.

(** C4, as stated, fails on the template: as written its training cell
    does not iterate; it raises [TypeError] without a single step. *)
Lemma template_training_raises :
  fst (vae_training_cell Toy.counting (Toy.start Toy.counting 0))
  = Raise TypeError
  /\ steps (st_log _ (snd (vae_training_cell Toy.counting
                              (Toy.start Toy.counting 0)))) = [].
Proof. split; reflexivity. Qed.

(** C4, amended: when [svi.step] returns and [X] has at least one row,
    the regression loop runs exactly [EPOCHS = 1000] passes, one
    [svi.step(X, y)] per pass, and returns.  In the template [EPOCHS]
    and the loaders are placeholders: once [EPOCHS] is bound to a
    number [n], the loaders are bound to data loaders, the training one
    over a data set that is not empty, and [svi.step] returns on every
    batch, the loop runs exactly [n] epochs with one [svi.step] per
    batch per epoch and returns; as written the cell raises [TypeError]
    before the loop. *)
Theorem training_loops_run_EPOCHS_epochs
    {scalar : Type} (fw : framework scalar)
    (Hstep : step_succeeds fw)
    (X y : tensor scalar) (m : nat) (rest : list nat)
    (HX : t_shape X = S m :: rest)
    (n : nat) (train test : loader scalar) (Hd : 0 < dataset_len train)
    (s : state fw) :
  (int_bindings "EPOCHS" Regression.training_cell = [Some EPOCHS]
   /\ EPOCHS = 1000%Z
   /\ exists losses s',
        training_cell fw X y s = (Ok losses, s')
        /\ List.length losses = Z.to_nat EPOCHS
        /\ st_log fw s'
           = st_log fw s
             ++ EvClearParamStore :: repeat (EvStep [X; y]) (Z.to_nat EPOCHS)
             ++ [EvPlot "px.line" losses])
  /\ (int_bindings "EPOCHS" VaeTemplate.training_cell = [None]
      /\ (exists loss s',
            vae_training_cell_with fw (VInt (Z.of_nat n))
              (VTuple [VLoader train; VLoader test]) s
            = (Ok loss, s')
            /\ List.length loss = n
            /\ steps (st_log fw s')
               = steps (st_log fw s)
                 ++ List.concat
                      (repeat (map (fun b => EvStep [fst b]) (batches train)) n))
      /\ vae_training_cell fw s = (Raise TypeError, s)).
Proof.
  split.
  - split; [reflexivity|]. split; [reflexivity|].
    exact (regression_training_runs fw Hstep X y m rest HX s).
  - split; [reflexivity|]. split.
    + exact (vae_training_runs fw Hstep n train test Hd s).
    + apply vae_training_as_written.
Qed.

Lemma counting_step_succeeds : step_succeeds Toy.counting.
Proof. intros w args. eexists _, _. reflexivity. Defined.

Lemma training_loops_run_EPOCHS_epochs_witness :
  step_succeeds Toy.counting
  /\ t_shape Toy.media = 3 :: [7]
  /\ 0 < dataset_len Toy.two_batches
  /\ (int_bindings "EPOCHS" Regression.training_cell = [Some EPOCHS]
      /\ EPOCHS = 1000%Z
      /\ exists losses s',
           training_cell Toy.counting Toy.media Toy.sales
             (Toy.start Toy.counting 0)
           = (Ok losses, s')
           /\ List.length losses = Z.to_nat EPOCHS
           /\ st_log _ s'
              = st_log _ (Toy.start Toy.counting 0)
                ++ EvClearParamStore
                   :: repeat (EvStep [Toy.media; Toy.sales]) (Z.to_nat EPOCHS)
                ++ [EvPlot "px.line" losses])
     /\ (int_bindings "EPOCHS" VaeTemplate.training_cell = [None]
         /\ (exists loss s',
               vae_training_cell_with Toy.counting (VInt (Z.of_nat 20))
                 (VTuple [VLoader Toy.two_batches; VLoader Toy.two_batches])
                 (Toy.start Toy.counting 0)
               = (Ok loss, s')
               /\ List.length loss = 20
               /\ steps (st_log _ s')
                  = steps (st_log _ (Toy.start Toy.counting 0))
                    ++ List.concat
                         (repeat (map (fun b => EvStep [fst b])
                                    (batches Toy.two_batches)) 20))
         /\ vae_training_cell Toy.counting (Toy.start Toy.counting 0)
            = (Raise TypeError, Toy.start Toy.counting 0)).
Proof.
  split; [exact counting_step_succeeds|].
  split; [reflexivity|].
  split; [simpl; lia|].
  apply (training_loops_run_EPOCHS_epochs Toy.counting counting_step_succeeds
           Toy.media Toy.sales 2 [7] eq_refl 20 Toy.two_batches Toy.two_batches).
  simpl; lia.
Defined.

(* ===================================================================== *)
(** ** Tensor shapes and the decoder                                      *)
(* ===================================================================== *)

Lemma known_size_Decoder_target : known_size Decoder_target = Some (784, 1).
Proof. reflexivity. Qed.

(** What [reshape(-1, 1, 28, 28)] answers on [n] elements when it
    answers: [n] is a multiple of [1 * 28 * 28] and the result has
    [n / 784] images. *)
Lemma infer_size_Decoder_target (n : nat) (sh : list nat) :
  infer_size Decoder_target n = Ok sh ->
  sh = [n / 784; 1; 28; 28] /\ n = n / 784 * 784.
Proof.
  unfold infer_size. rewrite known_size_Decoder_target.
  change (784 =? 0)%nat with false. cbv iota.
  destruct (n mod 784 =? 0)%nat eqn:E; [|discriminate].
  intros H. inversion H; subst. split; [reflexivity|].
  apply Nat.eqb_eq in E.
  pose proof (Nat.div_mod_eq n 784) as D. rewrite E in D. lia.
Qed.

(** C3: the template fixes the shapes of its tensors.  The encoder is
    summarised with per-image input shape [(1, 28, 28)], one channel of
    28 by 28 pixels; the decoder is summarised with input shape [(32,)],
    the 32 latent dimensions; the decoder's forward pass reshapes to
    [(-1, 1, 28, 28)], which turns any [n] images of [1 * 28 * 28]
    entries into a tensor of shape [(n, 1, 28, 28)]. *)
Theorem template_tensor_shapes (n : nat) :
  summary_shapes (notebook_source VaeTemplate.cells)
  = [ ("Encoder", Some [1; 28; 28]%Z); ("Decoder", Some [32]%Z) ]
  /\ reshape_targets [VaeTemplate.Decoder_forward] = [Some Decoder_target]
  /\ Decoder_target = [-1; 1; 28; 28]%Z
  /\ numel [1; 28; 28] = 28 * 28
  /\ infer_size Decoder_target (n * numel [1; 28; 28]) = Ok [n; 1; 28; 28].
Proof.
  split; [reflexivity|]. split; [reflexivity|]. split; [reflexivity|].
  split; [reflexivity|].
  unfold infer_size. rewrite known_size_Decoder_target.
  change (numel [1; 28; 28]) with 784.
  change (784 =? 0)%nat with false. cbv iota.
  rewrite Nat.Div0.mod_mul. change (0 =? 0)%nat with true. cbv iota.
  rewrite Nat.div_mul by discriminate. reflexivity.
Qed.

(** As written, the encoder's forward pass ignores its input and returns
    the pair [(None, None)]. *)
Lemma Encoder_forward_as_written {scalar : Type} (fw : framework scalar)
    (X : tensor scalar) (s : state fw) :
  Encoder_forward fw X s = (Ok (VNone, VNone), s).
Proof. reflexivity. Qed.

(** As written, with [loc_out = None], the decoder's forward pass raises
    on every input. *)
Lemma Decoder_forward_as_written {scalar : Type} (fw : framework scalar)
    (z : tensor scalar) (s : state fw) :
  Decoder_forward fw z s = (Raise AttributeError, s).
Proof. reflexivity. Qed.

(** C8: whenever the decoder's forward pass returns, whatever fills the
    blank [loc_out = ...], the result is a tensor of shape
    [(N, 1, 28, 28)] for some [N]: it is the tensor bound to [loc_out],
    with the same entries, reshaped, and [N] is its number of entries
    divided by [1 * 28 * 28]. *)
Theorem Decoder_forward_shape {scalar : Type} (fw : framework scalar)
    (loc_out_fill : tensor scalar -> M fw (value scalar))
    (z : tensor scalar) (s s' : state fw) (r : value scalar)
    (H : Decoder_forward_with fw loc_out_fill z s = (Ok r, s')) :
  exists t t0 N,
    r = VTensor t
    /\ t_shape t = [N; 1; 28; 28]
    /\ loc_out_fill z s = (Ok (VTensor t0), s')
    /\ t_data t = t_data t0
    /\ numel (t_shape t0) = N * (1 * 28 * 28).
Proof.
  unfold Decoder_forward_with, bind in H.
  destruct (loc_out_fill z s) as [[v|e] s1] eqn:F; [|discriminate].
  destruct v as [|k|t0|l|vs]; try discriminate.
  unfold call_reshape, reshape in H.
  destruct (infer_size Decoder_target (numel (t_shape t0))) as [sh|e] eqn:I;
    [|discriminate].
  apply infer_size_Decoder_target in I. destruct I as [Hsh Hn].
  inversion H; subst.
  exists (mkTensor [numel (t_shape t0) / 784; 1; 28; 28] (t_data t0)),
    t0, (numel (t_shape t0) / 784).
  repeat split; try reflexivity. exact Hn.
Qed.

Lemma Decoder_forward_shape_witness :
  Decoder_forward_with Toy.counting
    (fun _ => ret Toy.counting (VTensor (Toy.flat_batch 2)))
    (Toy.latent_batch 2) (Toy.start Toy.counting 0)
  = (Ok (VTensor (mkTensor [2; 1; 28; 28] (t_data (Toy.flat_batch 2)))),
     Toy.start Toy.counting 0)
  /\ exists t t0 N,
       VTensor (mkTensor [2; 1; 28; 28] (t_data (Toy.flat_batch 2))) = VTensor t
       /\ t_shape t = [N; 1; 28; 28]
       /\ ret Toy.counting (VTensor (Toy.flat_batch 2)) (Toy.start Toy.counting 0)
          = (Ok (VTensor t0), Toy.start Toy.counting 0)
       /\ t_data t = t_data t0
       /\ numel (t_shape t0) = N * (1 * 28 * 28).
Proof.
  assert (E : Decoder_forward_with Toy.counting
                (fun _ => ret Toy.counting (VTensor (Toy.flat_batch 2)))
                (Toy.latent_batch 2) (Toy.start Toy.counting 0)
              = (Ok (VTensor (mkTensor [2; 1; 28; 28] (t_data (Toy.flat_batch 2)))),
                 Toy.start Toy.counting 0)) by (vm_compute; reflexivity).
  split; [exact E|].
  exact (Decoder_forward_shape Toy.counting _ _ _ _ _ E).
Defined.

(* ===================================================================== *)
(** ** The test loss                                                      *)
(* ===================================================================== *)

Section Evaluate.

Context {scalar : Type} (fw : framework scalar).

(** The loop of [evaluate] when every loss evaluation returns: the
    accumulator gathers the losses from the left, and the log grows by
    one loss evaluation per batch. *)
Lemma evaluate_loop (Hok : evaluate_loss_succeeds fw)
    (bs : list (tensor scalar * tensor scalar)) :
  forall (acc : scalar) (s : state fw),
  exists s',
    for_fold fw bs acc
      (fun test_loss b =>
         bind fw (svi_evaluate_loss_method fw (svi fw) [fst b])
           (fun l => ret fw (f_add fw test_loss l))) s
    = (Ok (fold_left (f_add fw) (evaluation_losses fw (st_world fw s) bs) acc),
       s')
    /\ st_log fw s' = st_log fw s ++ map (fun b => EvEvaluateLoss [fst b]) bs.
Proof.
  induction bs as [|b bs IH]; intros acc s.
  - exists s. simpl. rewrite app_nil_r. split; reflexivity.
  - destruct (Hok (st_world fw s) [fst b]) as (l & w' & E).
    rewrite for_fold_cons. simpl svi_evaluate_loss_method.
    unfold bind at 1, evaluate_loss, prim, ret. rewrite E.
    destruct (IH (f_add fw acc l)
                (mkState fw w' (st_plates fw s)
                   (st_log fw s ++ [EvEvaluateLoss [fst b]])))
      as (s' & E' & L').
    exists s'. simpl evaluation_losses. rewrite E. simpl fold_left.
    split; [exact E'|].
    rewrite L'. simpl. rewrite <- app_assoc. reflexivity.
Qed.

(** However [evaluate] ends, the parameter store is as it was, provided
    the framework's loss evaluation keeps it. *)
Lemma evaluate_keeps_params (Hframe : evaluate_loss_keeps_params fw)
    (test_loader : loader scalar) (s : state fw) :
  param_store fw (st_world fw (snd (evaluate fw (svi fw) test_loader s)))
  = param_store fw (st_world fw s).
Proof.
  unfold evaluate.
  set (body := fun (test_loss : scalar) (b : tensor scalar * tensor scalar) =>
                 bind fw (svi_evaluate_loss_method fw (svi fw) [fst b])
                   (fun l => ret fw (f_add fw test_loss l))).
  set (I := fun st : state fw =>
              param_store fw (st_world fw st) = param_store fw (st_world fw s)).
  assert (Hbody : forall acc x st, I st -> I (snd (body acc x st))).
  { intros acc x st HI. unfold I, body in *. simpl svi_evaluate_loss_method.
    unfold bind, evaluate_loss, prim, ret.
    pose proof (Hframe (st_world fw st) [fst x]) as F.
    destruct (svi_evaluate_loss fw (st_world fw st) [fst x]) as [[l|e] w'];
      simpl in *; rewrite F; exact HI. }
  pose proof (for_fold_keeps fw I body (batches test_loader) Hbody
                (f_of_Z fw 0) s eq_refl) as K.
  unfold bind at 1.
  destruct (for_fold fw (batches test_loader) (f_of_Z fw 0) body s)
    as [[tl|e] s1]; unfold I in K; simpl in K; [|exact K].
  unfold bind, truediv. destruct (dataset_len test_loader); exact K.
Qed.

(** However [evaluate] ends, it takes no optimiser step: the steps in the
    log are those that were there. *)
Lemma evaluate_takes_no_step (test_loader : loader scalar) (s : state fw) :
  steps (st_log fw (snd (evaluate fw (svi fw) test_loader s)))
  = steps (st_log fw s).
Proof.
  unfold evaluate.
  set (body := fun (test_loss : scalar) (b : tensor scalar * tensor scalar) =>
                 bind fw (svi_evaluate_loss_method fw (svi fw) [fst b])
                   (fun l => ret fw (f_add fw test_loss l))).
  set (I := fun st : state fw => steps (st_log fw st) = steps (st_log fw s)).
  assert (Hbody : forall acc x st, I st -> I (snd (body acc x st))).
  { intros acc x st HI. unfold I, body in *. simpl svi_evaluate_loss_method.
    unfold bind, evaluate_loss, prim, ret.
    destruct (svi_evaluate_loss fw (st_world fw st) [fst x]) as [[l|e] w'];
      simpl; rewrite steps_app, HI; simpl; apply app_nil_r. }
  pose proof (for_fold_keeps fw I body (batches test_loader) Hbody
                (f_of_Z fw 0) s eq_refl) as K.
  unfold bind at 1.
  destruct (for_fold fw (batches test_loader) (f_of_Z fw 0) body s)
    as [[tl|e] s1]; unfold I in K; simpl in K; [|exact K].
  unfold bind, truediv. destruct (dataset_len test_loader); exact K.
Qed.

End Evaluate.

(** C9: [evaluate] calls [svi.evaluate_loss] once on every test batch, in
    order, and nothing else; it never calls [svi.step]; it returns the
    losses accumulated from [0.] divided by the size of the test data
    set; and, the framework's loss evaluation taking no step in parameter
    space, the parameter store after [evaluate] is the one before. *)
Theorem evaluate_only_evaluates {scalar : Type} (fw : framework scalar)
    (Hframe : evaluate_loss_keeps_params fw)
    (Hok : evaluate_loss_succeeds fw)
    (test_loader : loader scalar) (Hn : 0 < dataset_len test_loader)
    (s : state fw) :
  exists s',
    evaluate fw (svi fw) test_loader s
    = (Ok (f_div fw
             (fold_left (f_add fw)
                (evaluation_losses fw (st_world fw s) (batches test_loader))
                (f_of_Z fw 0))
             (f_of_Z fw (Z.of_nat (dataset_len test_loader)))),
       s')
    /\ st_log fw s'
       = st_log fw s
         ++ map (fun b => EvEvaluateLoss [fst b]) (batches test_loader)
    /\ List.length (evaluation_losses fw (st_world fw s) (batches test_loader))
       = List.length (batches test_loader)
    /\ steps (st_log fw s') = steps (st_log fw s)
    /\ param_store fw (st_world fw s') = param_store fw (st_world fw s).
Proof.
  destruct (evaluate_loop fw Hok (batches test_loader) (f_of_Z fw 0) s)
    as (s1 & E1 & L1).
  pose proof (evaluate_keeps_params fw Hframe test_loader s) as KP.
  pose proof (evaluate_takes_no_step fw test_loader s) as KS.
  assert (E : evaluate fw (svi fw) test_loader s
              = (Ok (f_div fw
                       (fold_left (f_add fw)
                          (evaluation_losses fw (st_world fw s)
                             (batches test_loader))
                          (f_of_Z fw 0))
                       (f_of_Z fw (Z.of_nat (dataset_len test_loader)))),
                 s1)).
  { unfold evaluate. rewrite (bind_ok fw _ _ s _ s1 E1).
    unfold truediv. destruct (dataset_len test_loader); [lia|]. reflexivity. }
  rewrite E in KP, KS. simpl in KP, KS.
  exists s1. split; [exact E|]. split; [exact L1|]. split; [|split; assumption].
  clear - Hok. generalize (st_world fw s).
  induction (batches test_loader) as [|b bs IH]; intros w; [reflexivity|].
  simpl. destruct (Hok w [fst b]) as (l & w' & E). rewrite E. simpl.
  rewrite IH. reflexivity.
Qed.

Lemma counting_evaluate_loss_keeps_params :
  evaluate_loss_keeps_params Toy.counting.
Proof. intros w args. reflexivity. Defined.

Lemma counting_evaluate_loss_succeeds : evaluate_loss_succeeds Toy.counting.
Proof. intros w args. eexists _, _. reflexivity. Defined.

Lemma evaluate_only_evaluates_witness :
  evaluate_loss_keeps_params Toy.counting
  /\ evaluate_loss_succeeds Toy.counting
  /\ 0 < dataset_len Toy.two_batches
  /\ exists s',
       evaluate Toy.counting (svi Toy.counting) Toy.two_batches
         (Toy.start Toy.counting 5)
       = (Ok (f_div Toy.counting
                (fold_left (f_add Toy.counting)
                   (evaluation_losses Toy.counting
                      (st_world _ (Toy.start Toy.counting 5))
                      (batches Toy.two_batches))
                   (f_of_Z Toy.counting 0))
                (f_of_Z Toy.counting (Z.of_nat (dataset_len Toy.two_batches)))),
          s')
       /\ st_log _ s'
          = st_log _ (Toy.start Toy.counting 5)
            ++ map (fun b => EvEvaluateLoss [fst b]) (batches Toy.two_batches)
       /\ List.length (evaluation_losses Toy.counting
                         (st_world _ (Toy.start Toy.counting 5))
                         (batches Toy.two_batches))
          = List.length (batches Toy.two_batches)
       /\ steps (st_log _ s') = steps (st_log _ (Toy.start Toy.counting 5))
       /\ param_store Toy.counting (st_world _ s')
          = param_store Toy.counting (st_world _ (Toy.start Toy.counting 5)).
Proof.
  split; [exact counting_evaluate_loss_keeps_params|].
  split; [exact counting_evaluate_loss_succeeds|].
  split; [simpl; lia|].
  apply (evaluate_only_evaluates Toy.counting
           counting_evaluate_loss_keeps_params counting_evaluate_loss_succeeds
           Toy.two_batches).
  simpl; lia.
Defined.

(* ===================================================================== *)
(** ** The regression model                                               *)
(* ===================================================================== *)

Section RevenueModel.

Context {scalar : Type} (fw : framework scalar).







End RevenueModel.





Lemma counting_draw_succeeds : draw_succeeds Toy.counting.
Proof. intros w site d. eexists _, _. reflexivity. Defined.


(* ===================================================================== *)
(** ** Failures                                                           *)
(* ===================================================================== *)

Section Failures.

Context {scalar : Type} (fw : framework scalar).

(** An exception that [evaluate] ends with is the division by an empty
    data set or was raised by [svi.evaluate_loss]. *)
Lemma evaluate_failure (test_loader : loader scalar) (s : state fw) (e : exn) :
  fst (evaluate fw (svi fw) test_loader s) = Raise e ->
  e = ZeroDivisionError
  \/ exists w a, fst (svi_evaluate_loss fw w a) = Raise e.
Proof.
  unfold evaluate, bind at 1.
  destruct (for_fold fw (batches test_loader) (f_of_Z fw 0) _ s)
    as [[tl|e1] s1] eqn:F.
  - unfold bind, truediv, ret. destruct (dataset_len test_loader); simpl.
    + intros H. inversion H. left. reflexivity.
    + discriminate.
  - simpl. intros H. inversion H; subst. right.
    refine (for_fold_raises fw
              (fun e0 => exists w a, fst (svi_evaluate_loss fw w a) = Raise e0)
              _ _ _ _ _ _ _ F).
    intros acc x st e0 st'. simpl svi_evaluate_loss_method.
    unfold bind, evaluate_loss, prim, ret.
    destruct (svi_evaluate_loss fw (st_world fw st) [fst x]) as [[l|e1] w'] eqn:E;
      [discriminate|].
    intros R. inversion R; subst.
    exists (st_world fw st), [fst x]. rewrite E. reflexivity.
Qed.

(** An exception that the regression training cell ends with is Python's
    own, from [len(X)] or the division by it, or was raised by
    [svi.step]. *)
Lemma training_failure (X y : tensor scalar) (s : state fw) (e : exn) :
  fst (training_cell fw X y s) = Raise e ->
  e = ZeroDivisionError \/ e = TypeError
  \/ exists w a, fst (svi_step fw w a) = Raise e.
Proof.
  unfold training_cell, bind at 1, clear_param_store, prim. unfold bind at 1.
  match goal with
  | |- context [for_fold fw ?xs ?acc ?body ?st] =>
      destruct (for_fold fw xs acc body st) as [[ls|e1] s1] eqn:F
  end.
  - unfold bind, px_line, emit, ret. simpl. discriminate.
  - simpl. intros H. inversion H; subst.
    refine (for_fold_raises fw
              (fun e0 => e0 = ZeroDivisionError \/ e0 = TypeError
                         \/ exists w a, fst (svi_step fw w a) = Raise e0)
              _ _ _ _ _ _ _ F).
    intros acc x st e0 st'.
    unfold bind, step, prim, len, truediv, ret.
    destruct (svi_step fw (st_world fw st) [X; y]) as [[l|e1] w'] eqn:E.
    + destruct (t_shape X) as [|n sh].
      * intros R. inversion R. right. left. reflexivity.
      * destruct n; [|discriminate].
        intros R. inversion R. left. reflexivity.
    + intros R. inversion R; subst. right. right.
      exists (st_world fw st), [X; y]. rewrite E. reflexivity.
Qed.

End Failures.

(** C6: neither notebook handles errors of its own: there is no [try],
    no [raise] and no exception class in their code.  Accordingly a
    failure of the functions and loops they define is not an error value
    of theirs: an exception that [evaluate] or the regression training
    cell ends with is the one that [svi.evaluate_loss] or [svi.step]
    raised, unchanged, or Python's own for [len] of a scalar tensor and
    for the division by an empty data set. *)
Theorem no_error_handling
    {scalar : Type} (fw : framework scalar)
    (test_loader : loader scalar) (X y : tensor scalar)
    (s : state fw) (e : exn)
    (H : fst (evaluate fw (svi fw) test_loader s) = Raise e
         \/ fst (training_cell fw X y s) = Raise e) :
  error_handling (notebook_source Regression.cells) = []
  /\ error_handling (notebook_source VaeTemplate.cells) = []
  /\ (e = ZeroDivisionError \/ e = TypeError
      \/ (exists w a, fst (svi_evaluate_loss fw w a) = Raise e)
      \/ (exists w a, fst (svi_step fw w a) = Raise e)).
Proof.
  split; [reflexivity|]. split; [reflexivity|].
  destruct H as [H|H].
  - destruct (evaluate_failure fw _ _ _ H) as [Z|F]; [left; exact Z|].
    right. right. left. exact F.
  - destruct (training_failure fw _ _ _ _ H) as [Z|[T|F]].
    + left; exact Z.
    + right; left; exact T.
    + right. right. right. exact F.
Qed.

Lemma no_error_handling_witness :
  (fst (evaluate Toy.failing (svi Toy.failing) Toy.two_batches
          (Toy.start Toy.failing 0))
   = Raise (FrameworkError "nan loss")
   \/ fst (training_cell Toy.failing Toy.media Toy.sales
             (Toy.start Toy.failing 0))
      = Raise (FrameworkError "nan loss"))
  /\ (error_handling (notebook_source Regression.cells) = []
      /\ error_handling (notebook_source VaeTemplate.cells) = []
      /\ (FrameworkError "nan loss" = ZeroDivisionError
          \/ FrameworkError "nan loss" = TypeError
          \/ (exists w a,
                fst (svi_evaluate_loss Toy.failing w a)
                = Raise (FrameworkError "nan loss"))
          \/ (exists w a,
                fst (svi_step Toy.failing w a)
                = Raise (FrameworkError "nan loss")))).
Proof.
  assert (E : fst (evaluate Toy.failing (svi Toy.failing) Toy.two_batches
                     (Toy.start Toy.failing 0))
              = Raise (FrameworkError "nan loss")) by reflexivity.
  split; [left; exact E|].
  exact (no_error_handling Toy.failing Toy.two_batches Toy.media Toy.sales
           (Toy.start Toy.failing 0) (FrameworkError "nan loss")
           (or_introl E)).
Defined.

(* ===================================================================== *)
(** ** The figure of the inference cell                                   *)
(* ===================================================================== *)

Import Figures.

Section FigureProofs.

Context {scalar : Type}.

Lemma firstn_exact {A} (a b : list A) : firstn (List.length a) (a ++ b) = a.
Proof. induction a as [|x a IH]; simpl; [destruct b|]; congruence. Qed.

Lemma skipn_exact {A} (a b : list A) : skipn (List.length a) (a ++ b) = b.
Proof. induction a as [|x a IH]; simpl; congruence. Qed.

Lemma length_concat_uniform {A} (k : nat) (pieces : list (list A)) :
  Forall (fun p => List.length p = k) pieces ->
  List.length (List.concat pieces) = List.length pieces * k.
Proof.
  induction 1 as [|p ps Hp _ IH]; [reflexivity|].
  simpl. rewrite length_app, IH, Hp. reflexivity.
Qed.

(** Cutting a concatenation of pieces of equal length into blocks of
    that length gives the pieces back. *)
Lemma blocks_concat (k : nat) (shape : list nat) (pieces : list (list scalar)) :
  Forall (fun p => List.length p = k) pieces ->
  blocks (List.length pieces) k shape (List.concat pieces)
  = map (mkTensor shape) pieces.
Proof.
  induction 1 as [|p ps Hp _ IH]; [reflexivity|].
  simpl. rewrite <- Hp, firstn_exact, skipn_exact, Hp, IH. reflexivity.
Qed.

Lemma every_14th_length (data : list scalar) (n j : nat) :
  List.length data = n * 14 -> j < 14 ->
  List.length (every_14th data n j) = n.
Proof.
  intros Hd Hj. unfold every_14th.
  assert (G : forall ks, (forall k, In k ks -> k < n) ->
              List.length
                (flat_map (fun k => PyAst.opt_list (nth_error data (k * 14 + j))) ks)
              = List.length ks).
  { induction ks as [|k ks IH]; intros Hk; [reflexivity|].
    simpl. rewrite length_app, IH by (intros; apply Hk; right; assumption).
    destruct (nth_error data (k * 14 + j)) eqn:E; [reflexivity|].
    apply nth_error_None in E. specialize (Hk k (or_introl eq_refl)). nia. }
  rewrite G, length_seq; [reflexivity|].
  intros k Hk. apply in_seq in Hk. lia.
Qed.

Lemma transpose_14 (data : list scalar) (n : nat) :
  transpose n 14 data = List.concat (map (every_14th data n) (seq 0 14)).
Proof. unfold transpose. rewrite flat_map_concat_map. reflexivity. Qed.

Lemma rows_of_transpose (data : list scalar) (n : nat) :
  List.length data = n * 14 ->
  blocks 2 (7 * n) [7; n] (transpose n 14 data)
  = [ mkTensor [7; n] (List.concat (map (every_14th data n) (seq 0 7)));
      mkTensor [7; n] (List.concat (map (every_14th data n) (seq 7 7))) ].
Proof.
  intros Hd. rewrite transpose_14.
  change (seq 0 14) with (seq 0 7 ++ seq 7 7).
  rewrite map_app, concat_app.
  assert (HF : forall a, a + 7 <= 14 ->
            List.length (List.concat (map (every_14th data n) (seq a 7))) = 7 * n).
  { intros a Ha. rewrite (length_concat_uniform n).
    - rewrite length_map, length_seq. reflexivity.
    - apply Forall_forall. intros p Hp. apply in_map_iff in Hp.
      destruct Hp as (j & <- & Hj). apply in_seq in Hj.
      apply every_14th_length; [exact Hd | lia]. }
  pose proof (blocks_concat (7 * n) [7; n]
                [List.concat (map (every_14th data n) (seq 0 7));
                 List.concat (map (every_14th data n) (seq 7 7))]) as E.
  cbn [List.length List.concat map] in E. rewrite app_nil_r in E.
  apply E. repeat constructor; apply HF; lia.
Qed.

Lemma columns_of_row (data : list scalar) (n a : nat) :
  List.length data = n * 14 -> a + 7 <= 14 ->
  iterate_array (mkTensor [7; n] (List.concat (map (every_14th data n) (seq a 7))))
  = Done (map (mkTensor [n]) (map (every_14th data n) (seq a 7))).
Proof.
  intros Hd Ha. unfold iterate_array. cbn [t_shape t_data numel fold_right].
  rewrite Nat.mul_1_r. f_equal.
  apply (blocks_concat n [n] (map (every_14th data n) (seq a 7))).
  apply Forall_forall. intros p Hp. apply in_map_iff in Hp.
  destruct Hp as (j & <- & Hj). apply in_seq in Hj.
  apply every_14th_length; [exact Hd | lia].
Qed.

End FigureProofs.

(** X1: when the sampled weights hold [n] matrices of 2 by 7
    coefficients and the data frames have 2 and 7 columns, the inference
    cell shows a 2 by 7 grid with exactly one histogram per cell, row by
    row: the histogram in row [r + 1], column [c + 1] shows the [n]
    samples of the coefficient of product [r] and channel [c] and is
    named after that product and that channel. *)
Theorem inference_figure_grid {scalar : Type}
    (samples : list (string * tensor scalar)) (weight : tensor scalar)
    (n : nat) (sales_columns media_columns : list string)
    (Hget : dict_get samples "linear_layer.weight" = Done weight)
    (Hnumel : numel (t_shape weight) = n * 14)
    (Hdata : List.length (t_data weight) = n * 14)
    (Hsales : List.length sales_columns = 2)
    (Hmedia : List.length media_columns = 7) :
  inference_figure samples sales_columns media_columns
  = Done (mkFigure 2 7
            (flat_map
               (fun r => map (coefficient_trace (t_data weight) n
                                sales_columns media_columns r) (seq 0 7))
               (seq 0 2))).
Proof.
  unfold inference_figure. rewrite Hget. cbn [and_then].
  assert (R : array_reshape weight [-1; 2; 7]%Z
              = Done (mkTensor [n; 2; 7] (t_data weight))).
  { unfold array_reshape, reshape, infer_size. rewrite Hnumel.
    change (known_size [-1; 2; 7]%Z) with (Some (14, 1)).
    change (14 =? 0)%nat with false. cbv iota.
    rewrite Nat.Div0.mod_mul. change (0 =? 0)%nat with true. cbv iota.
    rewrite Nat.div_mul by discriminate. reflexivity. }
  rewrite R. cbn [and_then].
  unfold moveaxis_first_to_last. cbn [t_shape t_data and_then app].
  change (numel [2; 7]) with 14.
  unfold iterate_array at 1. cbn [t_shape t_data and_then].
  replace (numel [7; n]) with (7 * n) by (cbn [numel fold_right]; lia).
  rewrite (rows_of_transpose _ _ Hdata).
  destruct sales_columns as [|p1 [|p2 [|? ?]]]; try discriminate Hsales.
  destruct media_columns as [|m1 [|m2 [|m3 [|m4 [|m5 [|m6 [|m7 [|? ?]]]]]]]];
    try discriminate Hmedia.
  cbn [enumerate each fst snd and_then].
  rewrite (columns_of_row _ _ 0 Hdata), (columns_of_row _ _ 7 Hdata) by lia.
  reflexivity.
Qed.

Lemma inference_figure_grid_witness :
  dict_get Samples.samples "linear_layer.weight" = Done Samples.weights
  /\ numel (t_shape Samples.weights) = 2 * 14
  /\ List.length (t_data Samples.weights) = 2 * 14
  /\ List.length Samples.products = 2
  /\ List.length Samples.channels = 7
  /\ inference_figure Samples.samples Samples.products Samples.channels
     = Done (mkFigure 2 7
               (flat_map
                  (fun r => map (coefficient_trace (t_data Samples.weights) 2
                                   Samples.products Samples.channels r)
                              (seq 0 7))
                  (seq 0 2))).
Proof.
  repeat (split; [reflexivity|]).
  exact (inference_figure_grid Samples.samples Samples.weights 2
           Samples.products Samples.channels eq_refl eq_refl eq_refl
           eq_refl eq_refl).
Defined.

(** X2: when the number of sampled weights is no multiple of 2 * 7, the
    inference cell stops at [reshape(-1, 2, 7)] with the framework's
    [RuntimeError]; no figure is made. *)
Theorem inference_figure_ragged {scalar : Type}
    (samples : list (string * tensor scalar)) (weight : tensor scalar)
    (sales_columns media_columns : list string)
    (Hget : dict_get samples "linear_layer.weight" = Done weight)
    (Hmod : numel (t_shape weight) mod 14 <> 0) :
  inference_figure samples sales_columns media_columns
  = Failed (Exn RuntimeError).
Proof.
  unfold inference_figure. rewrite Hget. cbn [and_then].
  unfold array_reshape, reshape, infer_size.
  change (known_size [-1; 2; 7]%Z) with (Some (14, 1)).
  change (14 =? 0)%nat with false. cbv iota.
  apply Nat.eqb_neq in Hmod. rewrite Hmod. reflexivity.
Qed.

Lemma inference_figure_ragged_witness :
  dict_get [("linear_layer.weight", Samples.ragged)] "linear_layer.weight"
  = Done Samples.ragged
  /\ numel (t_shape Samples.ragged) mod 14 <> 0
  /\ inference_figure [("linear_layer.weight", Samples.ragged)]
       Samples.products Samples.channels
     = Failed (Exn RuntimeError).
Proof.
  split; [reflexivity|]. split; [discriminate|].
  apply (inference_figure_ragged [("linear_layer.weight", Samples.ragged)]
           Samples.ragged Samples.products Samples.channels eq_refl).
  discriminate.
Defined.

(* ===================================================================== *)
(** ** Edges of the loops                                                 *)
(* ===================================================================== *)

Section LoopEdges.

Context {scalar : Type} (fw : framework scalar).

(** The loop of [evaluate], however it ends: it has called
    [svi.evaluate_loss] on the batches up to and including the first one
    that raised, and on no other. *)
Lemma evaluate_loop_log (bs : list (tensor scalar * tensor scalar)) :
  forall (acc : scalar) (s : state fw),
    st_log fw
      (snd (for_fold fw bs acc
              (fun test_loss b =>
                 bind fw (svi_evaluate_loss_method fw (svi fw) [fst b])
                   (fun l => ret fw (f_add fw test_loss l))) s))
    = st_log fw s
      ++ map (fun b => EvEvaluateLoss [fst b])
           (firstn (S (List.length (evaluation_losses fw (st_world fw s) bs))) bs)
    /\ (List.length (evaluation_losses fw (st_world fw s) bs) < List.length bs ->
        exists e,
          fst (for_fold fw bs acc
                 (fun test_loss b =>
                    bind fw (svi_evaluate_loss_method fw (svi fw) [fst b])
                      (fun l => ret fw (f_add fw test_loss l))) s)
          = Raise e).
Proof.
  induction bs as [|b bs IH]; intros acc s.
  - simpl. rewrite app_nil_r. split; [reflexivity | intros H; inversion H].
  - rewrite for_fold_cons. simpl evaluation_losses.
    destruct (bind fw (svi_evaluate_loss_method fw (svi fw) [fst b])
                (fun l => ret fw (f_add fw acc l)) s)
      as [[acc1|e] s1] eqn:B;
      simpl svi_evaluate_loss_method in B;
      unfold bind, evaluate_loss, prim, ret in B;
      destruct (svi_evaluate_loss fw (st_world fw s) [fst b]) as [[l|e1] w'];
      inversion B; subst.
    + destruct (IH (f_add fw acc l)
                  (mkState fw w' (st_plates fw s)
                     (st_log fw s ++ [EvEvaluateLoss [fst b]])))
        as [IH1 IH2].
      cbn [st_world st_log] in IH1, IH2. split.
      * rewrite IH1. simpl. rewrite <- app_assoc. reflexivity.
      * intros H. apply IH2. simpl in H. lia.
    + simpl. split; [reflexivity|]. intros _. exists e. reflexivity.
Qed.

(** The regression loop, however it ends: it has taken one step per
    pass begun, at most one per item; it returns only after all of them,
    with one loss per pass. *)
Lemma regression_loop_bounded (X y : tensor scalar) (epochs : list Z) :
  forall (acc : list scalar) (s : state fw),
  exists k,
    k <= List.length epochs
    /\ st_log fw
         (snd (for_fold fw epochs acc
                 (fun losses (_ : Z) =>
                    bind fw (step fw [X; y])
                      (fun loss =>
                         bind fw (len fw X)
                           (fun n => bind fw (truediv fw loss n)
                                       (fun q => ret fw (losses ++ [q])))))
                 s))
       = st_log fw s ++ repeat (EvStep [X; y]) k
    /\ match fst (for_fold fw epochs acc
                    (fun losses (_ : Z) =>
                       bind fw (step fw [X; y])
                         (fun loss =>
                            bind fw (len fw X)
                              (fun n => bind fw (truediv fw loss n)
                                          (fun q => ret fw (losses ++ [q])))))
                    s) with
       | Ok losses =>
           k = List.length epochs
           /\ List.length losses = List.length acc + List.length epochs
       | Raise _ => 1 <= k
       end.
Proof.
  induction epochs as [|x epochs IH]; intros acc s.
  - exists 0. simpl. rewrite app_nil_r. repeat split; lia.
  - rewrite for_fold_cons.
    destruct (bind fw (step fw [X; y])
                (fun loss =>
                   bind fw (len fw X)
                     (fun n => bind fw (truediv fw loss n)
                                 (fun q => ret fw (acc ++ [q])))) s)
      as [[acc1|e] s1] eqn:B.
    + assert (L : st_log fw s1 = st_log fw s ++ [EvStep [X; y]]
                  /\ List.length acc1 = S (List.length acc)).
      { revert B. unfold bind, step, prim, len, truediv, ret.
        destruct (svi_step fw (st_world fw s) [X; y]) as [[l|e] w'];
          [|discriminate].
        destruct (t_shape X) as [|n sh]; [discriminate|].
        destruct n; [discriminate|].
        intros B. inversion B; subst. simpl. rewrite length_app. simpl.
        split; [reflexivity | lia]. }
      destruct L as [L1 L2].
      destruct (IH acc1 s1) as (k & Hk & Hlog & Hres).
      exists (S k). split; [simpl; lia|]. split.
      * rewrite Hlog, L1, <- app_assoc. reflexivity.
      * destruct (fst (for_fold fw epochs acc1 _ s1)); simpl in *; lia.
    + exists 1. simpl. split; [lia|]. split; [|lia].
      revert B. unfold bind, step, prim, len, truediv, ret.
      destruct (svi_step fw (st_world fw s) [X; y]) as [[l|e1] w'].
      * destruct (t_shape X) as [|n sh].
        -- intros B. inversion B; subst. reflexivity.
        -- destruct n; [|discriminate].
           intros B. inversion B; subst. reflexivity.
      * intros B. inversion B; subst. reflexivity.
Qed.

End LoopEdges.

(** X3: [evaluate] stops at the first batch whose loss evaluation
    raises: when [svi.evaluate_loss] returns on the first [k] batches
    only, [evaluate] raises, having called [svi.evaluate_loss] on the
    first [k + 1] batches, in order, and on none of the later ones. *)
Theorem evaluate_stops_at_first_failure {scalar : Type} (fw : framework scalar)
    (test_loader : loader scalar) (s : state fw)
    (H : List.length (evaluation_losses fw (st_world fw s) (batches test_loader))
         < List.length (batches test_loader)) :
  (exists e, fst (evaluate fw (svi fw) test_loader s) = Raise e)
  /\ st_log fw (snd (evaluate fw (svi fw) test_loader s))
     = st_log fw s
       ++ map (fun b => EvEvaluateLoss [fst b])
            (firstn
               (S (List.length
                     (evaluation_losses fw (st_world fw s) (batches test_loader))))
               (batches test_loader)).
Proof.
  destruct (evaluate_loop_log fw (batches test_loader) (f_of_Z fw 0) s)
    as [L R].
  destruct (R H) as (e & E).
  destruct (for_fold fw (batches test_loader) (f_of_Z fw 0)
              (fun test_loss b =>
                 bind fw (svi_evaluate_loss_method fw (svi fw) [fst b])
                   (fun l => ret fw (f_add fw test_loss l))) s)
    as [[tl|e1] s1] eqn:F; cbn [fst snd] in E, L; [discriminate|].
  unfold evaluate. rewrite (bind_raise fw _ _ s e1 s1 F). cbn [fst snd].
  split; [exists e1; reflexivity | exact L].
Qed.

Lemma evaluate_stops_at_first_failure_witness :
  List.length (evaluation_losses Toy.failing
                 (st_world _ (Toy.start Toy.failing 0))
                 (batches Toy.two_batches))
  < List.length (batches Toy.two_batches)
  /\ (exists e,
        fst (evaluate Toy.failing (svi Toy.failing) Toy.two_batches
               (Toy.start Toy.failing 0)) = Raise e)
  /\ st_log _ (snd (evaluate Toy.failing (svi Toy.failing) Toy.two_batches
                      (Toy.start Toy.failing 0)))
     = st_log _ (Toy.start Toy.failing 0)
       ++ map (fun b => EvEvaluateLoss [fst b])
            (firstn
               (S (List.length
                     (evaluation_losses Toy.failing
                        (st_world _ (Toy.start Toy.failing 0))
                        (batches Toy.two_batches))))
               (batches Toy.two_batches)).
Proof.
  assert (H : List.length (evaluation_losses Toy.failing
                             (st_world _ (Toy.start Toy.failing 0))
                             (batches Toy.two_batches))
              < List.length (batches Toy.two_batches)) by (simpl; lia).
  split; [exact H|].
  exact (evaluate_stops_at_first_failure Toy.failing Toy.two_batches
           (Toy.start Toy.failing 0) H).
Defined.

(** X4: on a test loader whose data set is empty, [evaluate] still
    evaluates every batch the loader yields and then raises
    [ZeroDivisionError] at the division by the size of the data set. *)
Theorem evaluate_empty_data_set {scalar : Type} (fw : framework scalar)
    (Hok : evaluate_loss_succeeds fw)
    (test_loader : loader scalar) (Hn : dataset_len test_loader = 0)
    (s : state fw) :
  fst (evaluate fw (svi fw) test_loader s) = Raise ZeroDivisionError
  /\ st_log fw (snd (evaluate fw (svi fw) test_loader s))
     = st_log fw s
       ++ map (fun b => EvEvaluateLoss [fst b]) (batches test_loader).
Proof.
  destruct (evaluate_loop fw Hok (batches test_loader) (f_of_Z fw 0) s)
    as (s1 & E1 & L1).
  unfold evaluate. rewrite (bind_ok fw _ _ s _ s1 E1), Hn.
  split; [reflexivity | exact L1].
Qed.

Lemma evaluate_empty_data_set_witness :
  evaluate_loss_succeeds Toy.counting
  /\ dataset_len Samples.empty_set = 0
  /\ fst (evaluate Toy.counting (svi Toy.counting) Samples.empty_set
            (Toy.start Toy.counting 0))
     = Raise ZeroDivisionError
  /\ st_log _ (snd (evaluate Toy.counting (svi Toy.counting) Samples.empty_set
                      (Toy.start Toy.counting 0)))
     = st_log _ (Toy.start Toy.counting 0)
       ++ map (fun b => EvEvaluateLoss [fst b]) (batches Samples.empty_set).
Proof.
  split; [exact counting_evaluate_loss_succeeds|].
  split; [reflexivity|].
  exact (evaluate_empty_data_set Toy.counting counting_evaluate_loss_succeeds
           Samples.empty_set eq_refl (Toy.start Toy.counting 0)).
Defined.

(** X6: whatever the framework does, the regression training cell takes
    at most [EPOCHS] optimiser steps, all on [(X, y)] and after clearing
    the parameter store; the loss curve is drawn exactly when the cell
    returns, and then all [EPOCHS] steps were taken and as many losses
    are drawn; when the cell raises, at least one step was attempted and
    nothing is drawn. *)
Theorem training_takes_at_most_EPOCHS_steps {scalar : Type}
    (fw : framework scalar) (X y : tensor scalar) (s : state fw) :
  exists k,
    k <= Z.to_nat EPOCHS
    /\ match fst (training_cell fw X y s) with
       | Ok losses =>
           k = Z.to_nat EPOCHS
           /\ List.length losses = Z.to_nat EPOCHS
           /\ st_log fw (snd (training_cell fw X y s))
              = st_log fw s
                ++ EvClearParamStore :: repeat (EvStep [X; y]) k
                ++ [EvPlot "px.line" losses]
       | Raise _ =>
           1 <= k
           /\ st_log fw (snd (training_cell fw X y s))
              = st_log fw s ++ EvClearParamStore :: repeat (EvStep [X; y]) k
       end.
Proof.
  set (s0 := mkState fw (clear fw (st_world fw s)) (st_plates fw s)
               (st_log fw s ++ [EvClearParamStore])).
  destruct (regression_loop_bounded fw X y (tqdm (py_range EPOCHS)) [] s0)
    as (k & Hk & Hlog & Hres).
  unfold tqdm in *. rewrite py_range_length in Hk, Hres.
  exists k. split; [exact Hk|].
  destruct (for_fold fw (py_range EPOCHS) []
              (fun losses (_ : Z) =>
                 bind fw (step fw [X; y])
                   (fun loss =>
                      bind fw (len fw X)
                        (fun n => bind fw (truediv fw loss n)
                                    (fun q => ret fw (losses ++ [q]))))) s0)
    as [[losses|e] s1] eqn:F; cbn [fst snd] in Hlog, Hres.
  - assert (T : training_cell fw X y s
                = (Ok losses,
                   mkState fw (st_world fw s1) (st_plates fw s1)
                     (st_log fw s1 ++ [EvPlot "px.line" losses]))).
    { unfold training_cell.
      rewrite (bind_ok fw _ _ s tt s0) by reflexivity.
      unfold tqdm. rewrite (bind_ok fw _ _ s0 losses s1 F). reflexivity. }
    rewrite T. cbn [fst snd st_log]. destruct Hres as [Hk1 Hl].
    split; [exact Hk1|]. split; [exact Hl|].
    rewrite Hlog. unfold s0. cbn [st_log]. rewrite <- !app_assoc. reflexivity.
  - assert (T : training_cell fw X y s = (Raise e, s1)).
    { unfold training_cell.
      rewrite (bind_ok fw _ _ s tt s0) by reflexivity.
      unfold tqdm. rewrite (bind_raise fw _ _ s0 e s1 F). reflexivity. }
    rewrite T. cbn [fst snd]. split; [exact Hres|].
    rewrite Hlog. unfold s0. cbn [st_log]. rewrite <- app_assoc. reflexivity.
Qed.

(* ===================================================================== *)
(** ** The model is written for two products                              *)
(* ===================================================================== *)

Import Shapes.



(* ===================================================================== *)
(** ** The methods of the autoencoder                                     *)
(* ===================================================================== *)

Import VaeModel.

Section VaeMethods.

Context {scalar : Type} (fw : framework scalar).

Lemma lift_result_run {A} (r : result A) (s : state fw) :
  lift_result fw r s = (r, s).
Proof. destruct r; reflexivity. Qed.

Lemma lift_run {A} (f : world fw -> result A * world fw) (s : state fw) :
  lift fw f s
  = (fst (f (st_world fw s)),
     mkState fw (snd (f (st_world fw s))) (st_plates fw s) (st_log fw s)).
Proof. unfold lift. destruct (f (st_world fw s)); reflexivity. Qed.

(** What a returning run of [VAE.model] has recorded. *)
Lemma VAE_model_returns (b : blanks fw) (X : tensor scalar)
    (s s' : state fw) (r : tensor scalar) :
  VAE_model_with fw b X s = (Ok r, s') ->
  exists plate prior lik w z,
    st_log fw s'
    = st_log fw s
      ++ [ EvSample "latent" prior None (plate :: st_plates fw s);
           EvSample "obs" lik (Some X) (plate :: st_plates fw s) ]
    /\ st_plates fw s' = st_plates fw s
    /\ model_plate fw b X = Some plate
    /\ fst (decode fw b w z) = Ok r.
Proof.
  unfold VAE_model_with, with_context. unfold bind at 1. rewrite lift_run.
  destruct (register_decoder fw b (st_world fw s)) as [[[]|e] w0];
    cbn [fst snd]; [|discriminate].
  destruct (model_plate fw b X) as [[name size]|]; [|discriminate].
  unfold with_plate. destruct size as [|size']; [discriminate|].
  cbn [st_world st_plates st_log].
  unfold bind at 1. rewrite lift_result_run.
  destruct (z_loc_of fw b X) as [z_loc|e]; [|discriminate].
  unfold bind at 1. rewrite lift_result_run.
  destruct (z_scale_of fw b X) as [z_scale|e]; [|discriminate].
  unfold bind at 1. rewrite lift_result_run.
  destruct (latent_prior fw b z_loc z_scale) as [prior|e]; [|discriminate].
  unfold bind at 1, pyro_sample at 1. cbn [st_world st_plates st_log].
  destruct (batch_shape prior) as [bp|]; [|discriminate].
  destruct (fits_plates bp ((name, S size') :: st_plates fw s));
    [|discriminate].
  destruct (draw fw w0 "latent" prior) as [[z|e] w1]; [|discriminate].
  unfold bind at 1. rewrite lift_run. cbn [st_world st_plates st_log].
  destruct (decode fw b w1 z) as [[loc_out|e] w2] eqn:D; cbn [fst snd];
    [|discriminate].
  unfold bind at 1. rewrite lift_result_run.
  destruct (likelihood fw b loc_out) as [lik|e]; [|discriminate].
  unfold bind, pyro_sample, ret. cbn [st_world st_plates st_log].
  destruct (batch_shape lik) as [bl|]; [|discriminate].
  destruct (fits_plates bl ((name, S size') :: st_plates fw s));
    [|discriminate].
  intros H. inversion H; subst. cbn [st_log st_plates].
  exists (name, S size'), prior, lik, w1, z.
  rewrite <- app_assoc. rewrite D. repeat split; reflexivity.
Qed.

(** What a returning run of [VAE.guide] has recorded. *)
Lemma VAE_guide_returns (b : blanks fw) (X : tensor scalar)
    (s s' : state fw) (u : unit) :
  VAE_guide_with fw b X s = (Ok u, s') ->
  exists plate posterior,
    st_log fw s'
    = st_log fw s ++ [ EvSample "latent" posterior None (plate :: st_plates fw s) ]
    /\ st_plates fw s' = st_plates fw s
    /\ guide_plate fw b X = Some plate.
Proof.
  unfold VAE_guide_with, with_context. unfold bind at 1. rewrite lift_run.
  destruct (register_encoder fw b (st_world fw s)) as [[[]|e] w0];
    cbn [fst snd]; [|discriminate].
  destruct (guide_plate fw b X) as [[name size]|]; [|discriminate].
  unfold with_plate. destruct size as [|size']; [discriminate|].
  cbn [st_world st_plates st_log].
  unfold bind at 1. rewrite lift_run. cbn [st_world st_plates st_log].
  destruct (encode fw b w0 X) as [[zz|e] w1]; cbn [fst snd]; [|discriminate].
  unfold bind at 1. rewrite lift_result_run.
  destruct (latent_posterior fw b (fst zz) (snd zz)) as [posterior|e];
    [|discriminate].
  unfold bind, pyro_sample, ret. cbn [st_world st_plates st_log].
  destruct (batch_shape posterior) as [bp|]; [|discriminate].
  destruct (fits_plates bp ((name, S size') :: st_plates fw s));
    [|discriminate].
  destruct (draw fw w1 "latent" posterior) as [[z|e] w2]; [|discriminate].
  intros H. inversion H; subst. cbn [st_log st_plates].
  exists (name, S size'), posterior. repeat split; reflexivity.
Qed.

End VaeMethods.

(** X9: however the blanks of [VAE.model] and [VAE.guide] are filled
    with a plate, distributions and network calls, when both return the
    model has recorded exactly the sites "latent" and "obs", in this
    order and inside its plate, with "latent" unobserved and "obs"
    conditioned on the images [X]; the guide has recorded exactly the
    site "latent", unobserved: the guide covers the unobserved sites of
    the model, and nothing else.  Both leave the stack of plates as they
    found it, and the model returns what the decoder answered. *)
Theorem VAE_model_and_guide_sites {scalar : Type} (fw : framework scalar)
    (b : blanks fw) (X : tensor scalar)
    (s s' sg sg' : state fw) (r : tensor scalar)
    (Hm : VAE_model_with fw b X s = (Ok r, s'))
    (Hg : VAE_guide_with fw b X sg = (Ok tt, sg')) :
  exists em eg,
    st_log fw s' = st_log fw s ++ em
    /\ st_log fw sg' = st_log fw sg ++ eg
    /\ sites em = ["latent"; "obs"]
    /\ unobserved_sites em = ["latent"]
    /\ observations em = [("obs", X)]
    /\ sites eg = ["latent"]
    /\ unobserved_sites eg = sites eg
    /\ unobserved_sites em = sites eg
    /\ st_plates fw s' = st_plates fw s
    /\ st_plates fw sg' = st_plates fw sg
    /\ exists w z, fst (decode fw b w z) = Ok r.
Proof.
  destruct (VAE_model_returns fw b X s s' r Hm)
    as (pm & prior & lik & w & z & Lm & Pm & _ & D).
  destruct (VAE_guide_returns fw b X sg sg' tt Hg)
    as (pg & posterior & Lg & Pg & _).
  eexists _, _. split; [exact Lm|]. split; [exact Lg|].
  repeat (split; [reflexivity|]).
  split; [exact Pm|]. split; [exact Pg|].
  exists w, z. exact D.
Qed.

Lemma VAE_model_and_guide_sites_witness :
  exists s' sg',
    VAE_model_with Toy.counting (Samples.filled Toy.counting)
      (Toy.image_batch 2) (Toy.start Toy.counting 0)
    = (Ok (mkTensor [1; 1; 28; 28] []), s')
    /\ VAE_guide_with Toy.counting (Samples.filled Toy.counting)
         (Toy.image_batch 2) (Toy.start Toy.counting 0)
       = (Ok tt, sg')
    /\ exists em eg,
         st_log _ s' = st_log _ (Toy.start Toy.counting 0) ++ em
         /\ st_log _ sg' = st_log _ (Toy.start Toy.counting 0) ++ eg
         /\ sites em = ["latent"; "obs"]
         /\ unobserved_sites em = ["latent"]
         /\ observations em = [("obs", Toy.image_batch 2)]
         /\ sites eg = ["latent"]
         /\ unobserved_sites eg = sites eg
         /\ unobserved_sites em = sites eg
         /\ st_plates _ s' = st_plates _ (Toy.start Toy.counting 0)
         /\ st_plates _ sg' = st_plates _ (Toy.start Toy.counting 0)
         /\ exists w z,
              fst (decode Toy.counting (Samples.filled Toy.counting) w z)
              = Ok (mkTensor [1; 1; 28; 28] []).
Proof.
  eexists _, _.
  assert (Hm : VAE_model_with Toy.counting (Samples.filled Toy.counting)
                 (Toy.image_batch 2) (Toy.start Toy.counting 0)
               = (Ok (mkTensor [1; 1; 28; 28] []),
                  snd (VAE_model_with Toy.counting (Samples.filled Toy.counting)
                         (Toy.image_batch 2) (Toy.start Toy.counting 0))))
    by reflexivity.
  assert (Hg : VAE_guide_with Toy.counting (Samples.filled Toy.counting)
                 (Toy.image_batch 2) (Toy.start Toy.counting 0)
               = (Ok tt,
                  snd (VAE_guide_with Toy.counting (Samples.filled Toy.counting)
                         (Toy.image_batch 2) (Toy.start Toy.counting 0))))
    by reflexivity.
  split; [exact Hm|]. split; [exact Hg|].
  exact (VAE_model_and_guide_sites Toy.counting (Samples.filled Toy.counting)
           (Toy.image_batch 2) _ _ _ _ _ Hm Hg).
Defined.

(** As written, with [self.encoder = None], [reconstruct_img] raises at
    the call of the encoder and leaves everything as it was. *)
Lemma reconstruct_img_as_written {scalar : Type} (fw : framework scalar)
    normal_sample (X : tensor scalar) (s : state fw) :
  reconstruct_img fw None None normal_sample X s = (Raise TypeError, s).
Proof. reflexivity. Qed.

(** X10: with [Decoder] as the decoder of the autoencoder, whatever
    fills the blank of [Decoder.forward], whatever the encoder is and
    whatever the framework draws, an image that [reconstruct_img]
    returns is a tensor of shape [(N, 1, 28, 28)]. *)
Theorem reconstruct_img_shape {scalar : Type} (fw : framework scalar)
    (encoder : option (tensor scalar -> M fw (value scalar)))
    (loc_out_fill : tensor scalar -> M fw (value scalar))
    normal_sample (X : tensor scalar) (s s' : state fw) (r : value scalar)
    (H : reconstruct_img fw encoder
           (Some (Decoder_forward_with fw loc_out_fill)) normal_sample X s
         = (Ok r, s')) :
  exists t N, r = VTensor t /\ t_shape t = [N; 1; 28; 28].
Proof.
  unfold reconstruct_img, call_attribute in H.
  destruct encoder as [f|]; [|discriminate].
  unfold bind at 1 in H.
  destruct (f X s) as [[encoded|e] s1]; [|discriminate].
  unfold bind at 1, unpack2 in H.
  destruct (iter_value encoded) as [[|a [|c [|? ?]]]|e]; try discriminate.
  unfold ret at 1 in H. cbn [fst snd] in H.
  unfold bind at 1 in H. rewrite lift_run in H. cbn [fst snd] in H.
  destruct (normal_sample (st_world fw s1) a c) as [[z|e] w2];
    cbn [fst snd] in H; [|discriminate].
  unfold bind at 1 in H.
  unfold Decoder_forward_with, bind at 1 in H.
  destruct (loc_out_fill z _) as [[v|e] s3]; [|discriminate].
  unfold call_reshape, reshape in H.
  destruct v as [|k|t0|l|vs]; try discriminate.
  destruct (infer_size Decoder_target (numel (t_shape t0))) as [sh|e] eqn:I;
    [|discriminate].
  apply infer_size_Decoder_target in I. destruct I as [Hsh _].
  unfold ret in H. inversion H; subst.
  eexists _, _. split; reflexivity.
Qed.

Lemma reconstruct_img_shape_witness :
  reconstruct_img Toy.counting (Some (Samples.encoder Toy.counting))
    (Some (Decoder_forward_with Toy.counting
             (Samples.decoder_body Toy.counting)))
    (Samples.normal_sample Toy.counting) (Toy.image_batch 2)
    (Toy.start Toy.counting 0)
  = (Ok (VTensor (mkTensor [2; 1; 28; 28] [])), Toy.start Toy.counting 0)
  /\ exists (t : tensor Z) N,
       VTensor (mkTensor [2; 1; 28; 28] []) = VTensor t
       /\ t_shape t = [N; 1; 28; 28].
Proof.
  assert (H : reconstruct_img Toy.counting (Some (Samples.encoder Toy.counting))
                (Some (Decoder_forward_with Toy.counting
                         (Samples.decoder_body Toy.counting)))
                (Samples.normal_sample Toy.counting) (Toy.image_batch 2)
                (Toy.start Toy.counting 0)
              = (Ok (VTensor (mkTensor [2; 1; 28; 28] [])),
                 Toy.start Toy.counting 0)) by (vm_compute; reflexivity).
  split; [exact H|].
  exact (reconstruct_img_shape Toy.counting _ _ _ _ _ _ _ H).
Defined.

(* ===================================================================== *)
(** ** The generator                                                      *)
(* ===================================================================== *)

Import Generators.

Section GeneratorProofs.

Context {scalar : Type}.

Lemma nexts_finished (k : nat) :
  nexts k (@Finished scalar) = (repeat StopIteration k, Finished).
Proof.
  induction k as [|k IH]; [reflexivity|].
  simpl. rewrite IH. reflexivity.
Qed.

(** A suspended generator yields the items still to come, one per call,
    and then only stops. *)
Lemma nexts_suspended (k : nat) :
  forall xs : list (value scalar),
    fst (nexts k (Suspended xs))
    = map Yielded (firstn k xs) ++ repeat StopIteration (k - List.length xs).
Proof.
  induction k as [|k IH]; intros xs; [reflexivity|].
  destruct xs as [|x xs].
  - simpl. rewrite nexts_finished. reflexivity.
  - simpl. specialize (IH xs).
    destruct (nexts k (Suspended xs)) as [rs g]. simpl in *.
    rewrite IH. reflexivity.
Qed.

Lemma nexts_created (k : nat) (v : value scalar) (xs : list (value scalar)) :
  iter_value v = Ok xs ->
  fst (nexts k (gen v))
  = map Yielded (firstn k xs) ++ repeat StopIteration (k - List.length xs).
Proof.
  intros H. destruct k as [|k]; [reflexivity|].
  unfold gen. simpl. rewrite H. destruct xs as [|x xs].
  - rewrite nexts_finished. reflexivity.
  - pose proof (nexts_suspended k xs) as S.
    destruct (nexts k (Suspended xs)) as [rs g]. simpl in *.
    rewrite S. reflexivity.
Qed.

Lemma nexts_step (k : nat) (g : generator scalar) :
  snd (nexts (S k) g) = snd (nexts k (snd (next g))).
Proof.
  simpl. destruct (next g) as [r g']. simpl.
  destruct (nexts k g') as [rs g'']. reflexivity.
Qed.

Lemma nexts_exhausted (k : nat) :
  forall xs : list (value scalar),
    List.length xs < k -> snd (nexts k (Suspended xs)) = Finished.
Proof.
  induction k as [|k IH]; intros xs Hk; [inversion Hk|].
  rewrite nexts_step. destruct xs as [|x xs]; simpl next; cbn [snd].
  - rewrite nexts_finished. reflexivity.
  - apply IH. simpl in Hk. lia.
Qed.

Lemma blocks_length (d k : nat) (shape : list nat) (data : list scalar) :
  List.length (blocks d k shape data) = d.
Proof.
  revert data. induction d as [|d IH]; intros data; [reflexivity|].
  simpl. rewrite IH. reflexivity.
Qed.

Lemma blocks_shape (d k : nat) (shape : list nat) (data : list scalar) :
  Forall (fun t => t_shape t = shape) (blocks d k shape data).
Proof.
  revert data. induction d as [|d IH]; intros data; constructor.
  - reflexivity.
  - apply IH.
Qed.

End GeneratorProofs.

(** X11: [gen(imgs)] yields the items of [imgs] once each and in order,
    one per call of [next]; every call after the last item gives
    [StopIteration], and the generator is finished from the first such
    call on: a second pass over it yields nothing. *)
Theorem gen_yields_each_item_once {scalar : Type}
    (v : value scalar) (xs : list (value scalar)) (k j : nat)
    (H : iter_value v = Ok xs) :
  fst (nexts k (gen v))
  = map Yielded (firstn k xs) ++ repeat StopIteration (k - List.length xs)
  /\ snd (nexts (S (List.length xs) + j) (gen v)) = Finished
  /\ nexts k (snd (nexts (S (List.length xs) + j) (gen v)))
     = (repeat StopIteration k, Finished).
Proof.
  split; [exact (nexts_created k v xs H)|].
  assert (F : snd (nexts (S (List.length xs) + j) (gen v)) = Finished).
  { cbn [Nat.add]. rewrite nexts_step. unfold gen. simpl next. rewrite H.
    destruct xs as [|x xs]; cbn [snd].
    - rewrite nexts_finished. reflexivity.
    - apply nexts_exhausted. simpl. lia. }
  split; [exact F|]. rewrite F. apply nexts_finished.
Qed.

Lemma gen_yields_each_item_once_witness :
  iter_value (VTuple [VInt 1; VInt 2; VInt 3])
  = Ok [VInt 1; VInt 2; @VInt Z 3]
  /\ fst (nexts 5 (gen (VTuple [VInt 1; VInt 2; @VInt Z 3])))
     = map Yielded (firstn 5 [VInt 1; VInt 2; @VInt Z 3])
       ++ repeat StopIteration (5 - List.length [VInt 1; VInt 2; @VInt Z 3])
  /\ snd (nexts (S (List.length [VInt 1; VInt 2; @VInt Z 3]) + 0)
            (gen (VTuple [VInt 1; VInt 2; @VInt Z 3])))
     = Finished
  /\ nexts 5 (snd (nexts (S (List.length [VInt 1; VInt 2; @VInt Z 3]) + 0)
                     (gen (VTuple [VInt 1; VInt 2; @VInt Z 3]))))
     = (repeat StopIteration 5, Finished).
Proof.
  split; [reflexivity|].
  exact (gen_yields_each_item_once (VTuple [VInt 1; VInt 2; @VInt Z 3])
           [VInt 1; VInt 2; VInt 3] 5 0 eq_refl).
Defined.

(** X12: [gen] fails late: when [imgs] is not iterable (as the [None]
    the template binds to [sample_loc]), creating the generator raises
    nothing; the first [next] raises the [TypeError], and every later
    [next] gives [StopIteration]. *)
Theorem gen_fails_at_first_next {scalar : Type}
    (v : value scalar) (e : exn) (k : nat)
    (H : iter_value v = Raise e) :
  nexts (S k) (gen v) = (Raised e :: repeat StopIteration k, Finished).
Proof.
  unfold gen. cbn [nexts next]. rewrite H, nexts_finished. reflexivity.
Qed.

Lemma gen_fails_at_first_next_witness :
  iter_value (@VNone Z) = Raise TypeError
  /\ nexts (S 2) (gen (@VNone Z))
     = (Raised TypeError :: repeat StopIteration 2, Finished).
Proof.
  split; [reflexivity|].
  exact (gen_fails_at_first_next (@VNone Z) TypeError 2 eq_refl).
Defined.

(** X13: over a tensor of shape [(N, 28, 28)], as the template asks
    [sample_loc] to be, [gen] yields exactly [N] images, each a tensor
    of shape [(28, 28)], and then stops. *)
Theorem gen_yields_images {scalar : Type}
    (t : tensor scalar) (N : nat) (H : t_shape t = [N; 28; 28]) :
  exists imgs,
    fst (nexts (S N) (gen (VTensor t)))
    = map (fun img => Yielded (VTensor img)) imgs ++ [StopIteration]
    /\ List.length imgs = N
    /\ Forall (fun img => t_shape img = [28; 28]) imgs.
Proof.
  exists (blocks N (numel [28; 28]) [28; 28] (t_data t)).
  split; [|split].
  - rewrite (nexts_created (S N) (VTensor t)
               (map VTensor (blocks N (numel [28; 28]) [28; 28] (t_data t)))).
    + rewrite length_map, blocks_length.
      rewrite firstn_all2 by (rewrite length_map, blocks_length; lia).
      rewrite map_map. replace (S N - N) with 1 by lia. reflexivity.
    + unfold iter_value. rewrite H. reflexivity.
  - apply blocks_length.
  - apply blocks_shape.
Qed.

Lemma gen_yields_images_witness :
  t_shape Samples.images = [3; 28; 28]
  /\ exists imgs,
       fst (nexts (S 3) (gen (VTensor Samples.images)))
       = map (fun img => Yielded (VTensor img)) imgs ++ [StopIteration]
       /\ List.length imgs = 3
       /\ Forall (fun img => t_shape img = [28; 28]) imgs.
Proof.
  split; [reflexivity|].
  exact (gen_yields_images Samples.images 3 eq_refl).
Defined.

(* ===================================================================== *)
(** ** What the template's training loop prints                           *)
(* ===================================================================== *)

Import Printing.

Section PrintProofs.

Context {scalar : Type} (fw : framework scalar).

Lemma printed_app (l1 l2 : list (event scalar)) :
  printed (l1 ++ l2) = printed l1 ++ printed l2.
Proof. unfold printed. apply flat_map_app. Qed.

Lemma printed_steps (bs : list (tensor scalar * tensor scalar)) :
  printed (map (fun b => @EvStep scalar [fst b]) bs) = [].
Proof. induction bs as [|b bs IH]; [reflexivity | exact IH]. Qed.

(** One epoch of the template's loop prints its loss exactly when the
    number of the epoch is divisible by 10. *)
Lemma vae_epoch_prints (Hstep : step_succeeds fw)
    (train : loader scalar) (k : nat) (Hd : dataset_len train = S k)
    (loss : list scalar) (epoch : Z) (s : state fw) :
  exists total s',
    bind fw (iterate fw (VLoader train))
      (fun train_batches =>
         bind fw (for_fold fw train_batches (f_of_Z fw 0)
                    (fun epoch_loss b =>
                       bind fw (step fw [fst b])
                         (fun l => ret fw (f_add fw epoch_loss l))))
           (fun epoch_loss =>
              bind fw (len_dataset fw (VLoader train))
                (fun normalizer_train =>
                   bind fw (truediv fw epoch_loss normalizer_train)
                     (fun total_epoch_loss_train =>
                        bind fw (if (epoch mod 10 =? 0)%Z
                                 then print fw total_epoch_loss_train
                                 else ret fw tt)
                          (fun _ => ret fw (loss ++ [total_epoch_loss_train])))))) s
    = (Ok (loss ++ [total]), s')
    /\ printed (st_log fw s')
       = printed (st_log fw s)
         ++ (if (epoch mod 10 =? 0)%Z then [total] else []).
Proof.
  destruct (batches_loop fw Hstep (batches train) (f_of_Z fw 0) s)
    as (el & s1 & E1 & L1).
  exists (f_div fw el (f_of_Z fw (Z.of_nat (S k)))).
  unfold iterate. rewrite (bind_ok fw _ _ s (batches train) s) by reflexivity.
  rewrite (bind_ok fw _ _ s el s1 E1).
  unfold len_dataset.
  rewrite (bind_ok fw _ _ s1 (dataset_len train) s1) by reflexivity.
  rewrite Hd.
  rewrite (bind_ok fw _ _ s1 (f_div fw el (f_of_Z fw (Z.of_nat (S k)))) s1)
    by reflexivity.
  destruct (epoch mod 10 =? 0)%Z.
  - eexists. split; [reflexivity|]. simpl.
    rewrite printed_app, L1, printed_app, printed_steps. simpl.
    rewrite app_nil_r. reflexivity.
  - eexists. split; [reflexivity|].
    rewrite L1, printed_app, printed_steps, !app_nil_r. reflexivity.
Qed.

Lemma vae_loop_prints (Hstep : step_succeeds fw)
    (train : loader scalar) (k : nat) (Hd : dataset_len train = S k)
    (epochs : list Z) :
  forall (acc : list scalar) (s : state fw),
  exists new s',
    for_fold fw epochs acc
      (fun (loss : list scalar) (epoch : Z) =>
         bind fw (iterate fw (VLoader train))
           (fun train_batches =>
              bind fw (for_fold fw train_batches (f_of_Z fw 0)
                         (fun epoch_loss b =>
                            bind fw (step fw [fst b])
                              (fun l => ret fw (f_add fw epoch_loss l))))
                (fun epoch_loss =>
                   bind fw (len_dataset fw (VLoader train))
                     (fun normalizer_train =>
                        bind fw (truediv fw epoch_loss normalizer_train)
                          (fun total_epoch_loss_train =>
                             bind fw (if (epoch mod 10 =? 0)%Z
                                      then print fw total_epoch_loss_train
                                      else ret fw tt)
                               (fun _ =>
                                  ret fw (loss ++ [total_epoch_loss_train])))))))
      s
    = (Ok (acc ++ new), s')
    /\ List.length new = List.length epochs
    /\ printed (st_log fw s')
       = printed (st_log fw s) ++ every_tenth epochs new.
Proof.
  induction epochs as [|e epochs IH]; intros acc s.
  - exists [], s. simpl. rewrite !app_nil_r. repeat split; reflexivity.
  - destruct (vae_epoch_prints Hstep train k Hd acc e s)
      as (total & s1 & E1 & P1).
    destruct (IH (acc ++ [total]) s1) as (new & s2 & E2 & Hl & P2).
    exists (total :: new), s2. rewrite for_fold_cons, E1, E2.
    split; [rewrite <- app_assoc; reflexivity|].
    split; [simpl; lia|].
    rewrite P2, P1, <- app_assoc. unfold every_tenth. cbn [combine filter fst].
    destruct (e mod 10 =? 0)%Z; reflexivity.
Qed.

End PrintProofs.

(** X14: with [EPOCHS] bound to [n] and the loaders bound, the
    template's training cell prints exactly the losses of the epochs 0,
    10, 20, ..., each right after its epoch and in order, and nothing
    else; the losses it returns are one per epoch. *)
Theorem vae_training_prints_every_tenth_loss {scalar : Type}
    (fw : framework scalar) (Hstep : step_succeeds fw)
    (n : nat) (train test : loader scalar) (Hd : 0 < dataset_len train)
    (s : state fw) :
  exists loss s',
    vae_training_cell_with fw (VInt (Z.of_nat n))
      (VTuple [VLoader train; VLoader test]) s
    = (Ok loss, s')
    /\ List.length loss = n
    /\ printed (st_log fw s')
       = printed (st_log fw s) ++ every_tenth (py_range (Z.of_nat n)) loss.
Proof.
  destruct (dataset_len train) as [|k] eqn:Hk; [lia|].
  set (s0 := mkState fw (clear fw (st_world fw s)) (st_plates fw s)
               (st_log fw s ++ [EvClearParamStore])).
  destruct (vae_loop_prints fw Hstep train k Hk (py_range (Z.of_nat n)) [] s0)
    as (loss & s1 & E1 & Hl & P1).
  rewrite py_range_length, Nat2Z.id in Hl.
  exists loss, (mkState fw (st_world fw s1) (st_plates fw s1)
                  (st_log fw s1 ++ [EvPlot "px.line" loss])).
  split; [|split].
  - unfold vae_training_cell_with, unpack2.
    rewrite (bind_ok fw _ _ s (VLoader train, VLoader test) s) by reflexivity.
    rewrite (bind_ok fw _ _ s tt s0) by reflexivity.
    unfold range_of.
    rewrite (bind_ok fw _ _ s0 (py_range (Z.of_nat n)) s0) by reflexivity.
    unfold tqdm. cbn [fst]. rewrite (bind_ok fw _ _ s0 loss s1 E1).
    reflexivity.
  - exact Hl.
  - cbn [st_log]. rewrite printed_app, P1. unfold s0. cbn [st_log].
    rewrite printed_app. simpl. rewrite !app_nil_r. reflexivity.
Qed.

Lemma vae_training_prints_every_tenth_loss_witness :
  step_succeeds Toy.counting
  /\ 0 < dataset_len Toy.two_batches
  /\ exists loss s',
       vae_training_cell_with Toy.counting (VInt (Z.of_nat 25))
         (VTuple [VLoader Toy.two_batches; VLoader Toy.two_batches])
         (Toy.start Toy.counting 0)
       = (Ok loss, s')
       /\ List.length loss = 25
       /\ printed (st_log _ s')
          = printed (st_log _ (Toy.start Toy.counting 0))
            ++ every_tenth (py_range (Z.of_nat 25)) loss.
Proof.
  split; [exact counting_step_succeeds|].
  split; [simpl; lia|].
  apply (vae_training_prints_every_tenth_loss Toy.counting
           counting_step_succeeds 25 Toy.two_batches Toy.two_batches).
  simpl; lia.
Defined.

(* ===================================================================== *)
(** ** Names                                                              *)
(* ===================================================================== *)

Import Scopes.

(** X15: run top to bottom in a fresh kernel, neither notebook reads a
    name that is not bound: every name read at cell level is a built-in
    or bound by an earlier import, assignment, loop or definition, and
    every name read in a function body is a parameter, a local bound
    earlier in the body, or a global bound before the function is
    defined.  It is the import cells that bind the framework names:
    without them the reads of these names are unbound. *)
Theorem names_are_bound_before_use :
  unbound_names Regression.cells = []
  /\ unbound_names VaeTemplate.cells = []
  /\ nodup string_dec (unbound_names (without_cell 5 Regression.cells))
     = [ "pd"; "List"; "PyroModule"; "nn"; "PyroSample"; "torch"; "dist";
         "poutine"; "tqdm"; "px"; "pyro"; "np"; "make_subplots"; "go" ]
  /\ nodup string_dec (unbound_names (without_cell 3 VaeTemplate.cells))
     = [ "transforms"; "MNIST"; "torch"; "summary"; "nn"; "dist"; "pyro";
         "tqdm"; "chain"; "np"; "TSNE"; "px"; "Image" ].
Proof. repeat split; reflexivity. Qed.

(* ===================================================================== *)
(** ** Labels and points of the t-SNE plot                                *)
(* ===================================================================== *)

Import Tsne.

Section TsneProofs.

Context {scalar : Type} (fw : framework scalar).

(** The first pass: one array of latent rows per batch. *)
Lemma encode_pass (f : tensor scalar -> M fw (value scalar)) (d : nat)
    (Henc : encodes_rows fw f d) (bs : list (tensor scalar * tensor scalar)) :
  forall (acc : list (tensor scalar)) (s : state fw),
  exists arrays s',
    for_fold fw bs acc
      (fun latent_images b =>
         bind fw (call_attribute fw (Some f) (fst b)) (fun encoded =>
         bind fw (first_item fw encoded) (fun z_loc =>
         bind fw (to_numpy fw z_loc) (fun a =>
         ret fw (latent_images ++ [a]))))) s
    = (Ok (acc ++ arrays), s')
    /\ map (@t_shape scalar) arrays = map (fun b => [rows (fst b); d]) bs.
Proof.
  induction bs as [|b bs IH]; intros acc s.
  - exists [], s. simpl. rewrite app_nil_r. split; reflexivity.
  - destruct (Henc (fst b) s) as (z_loc & z_scale & s1 & E & Hz).
    destruct (IH (acc ++ [z_loc]) s1) as (arrays & s2 & E2 & Hs).
    assert (B : bind fw (call_attribute fw (Some f) (fst b)) (fun encoded =>
                bind fw (first_item fw encoded) (fun z_loc =>
                bind fw (to_numpy fw z_loc) (fun a =>
                ret fw (acc ++ [a])))) s
                = (Ok (acc ++ [z_loc]), s1)).
    { unfold call_attribute. rewrite (bind_ok fw _ _ s _ s1 E). reflexivity. }
    exists (z_loc :: arrays), s2. rewrite for_fold_cons, B, E2, <- app_assoc.
    split; [reflexivity|].
    simpl. rewrite Hz, Hs. reflexivity.
Qed.

(** The second pass: the label tensors of the batches, in order. *)
Lemma label_pass (bs : list (tensor scalar * tensor scalar)) :
  forall (acc : list (tensor scalar)) (s : state fw),
    for_fold fw bs acc
      (fun labels b =>
         bind fw (to_numpy fw (VTensor (snd b))) (fun a =>
         ret fw (labels ++ [a]))) s
    = (Ok (acc ++ map snd bs), s).
Proof.
  induction bs as [|b bs IH]; intros acc s.
  - simpl. rewrite app_nil_r. reflexivity.
  - rewrite for_fold_cons.
    change (bind fw (to_numpy fw (VTensor (snd b)))
              (fun a => ret fw (acc ++ [a])) s)
      with (Ok (acc ++ [snd b]), s).
    cbv beta iota. rewrite IH, <- app_assoc. reflexivity.
Qed.

Lemma chain_labels (arrays : list (tensor scalar)) (s : state fw) :
  Forall (fun a => t_shape a = [rows a]) arrays ->
  exists items,
    chain fw arrays s = (Ok items, s)
    /\ List.length items = list_sum (map rows arrays).
Proof.
  induction 1 as [|a arrays Ha _ IH].
  - exists []. split; reflexivity.
  - destruct IH as (items & E & L).
    exists (blocks (rows a) (numel []) [] (t_data a) ++ items).
    cbn [chain]. rewrite Ha. rewrite (bind_ok fw _ _ s items s E).
    split; [reflexivity|].
    rewrite length_app, blocks_length, L. reflexivity.
Qed.

Lemma concatenate_rows (d : nat) (arrays : list (tensor scalar)) (s : state fw) :
  arrays <> [] ->
  Forall (fun a => t_shape a = [rows a; d]) arrays ->
  exists t,
    concatenate fw arrays s = (Ok t, s)
    /\ t_shape t = [list_sum (map rows arrays); d].
Proof.
  intros Hne Hall. destruct arrays as [|a rest]; [congruence|].
  inversion Hall as [|? ? Ha Hrest]; subst.
  unfold concatenate. rewrite Ha.
  assert (C : forallb
                (fun b => match t_shape b with
                          | [] => false
                          | _ :: shape_b =>
                              if list_eq_dec Nat.eq_dec shape_b [d]
                              then true else false
                          end) rest = true).
  { apply forallb_forall. intros b Hb.
    rewrite Forall_forall in Hrest. rewrite (Hrest b Hb).
    destruct (list_eq_dec Nat.eq_dec [d] [d]); congruence. }
  rewrite C. eexists. split; reflexivity.
Qed.

End TsneProofs.

(** X16: when the encoder answers one row of [d] latent features per
    image and the test loader yields at least one batch, each with one
    label per image, the t-SNE cell hands to [TSNE] an array with one
    row of [d] features per test image and to the plot as many labels
    as rows: every point has its label. *)
Theorem tsne_labels_match_points {scalar : Type} (fw : framework scalar)
    (f : tensor scalar -> M fw (value scalar)) (d : nat)
    (Henc : encodes_rows fw f d)
    (test_loader : loader scalar)
    (Hne : batches test_loader <> [])
    (Hlab : Forall labelled (batches test_loader))
    (s : state fw) :
  exists latent_images labels s',
    tsne_inputs fw (Some f) (VLoader test_loader) s
    = (Ok (latent_images, labels), s')
    /\ t_shape latent_images
       = [list_sum (map (fun b => rows (fst b)) (batches test_loader)); d]
    /\ List.length labels
       = list_sum (map (fun b => rows (fst b)) (batches test_loader)).
Proof.
  destruct (encode_pass fw f d Henc (batches test_loader) [] s)
    as (arrays & s1 & E1 & Hs).
  cbn [app] in E1.
  assert (Hrows : map rows arrays
                  = map (fun b => rows (fst b)) (batches test_loader)).
  { unfold rows at 1.
    rewrite <- (map_map (@t_shape scalar) (hd 0)), Hs, map_map. reflexivity. }
  assert (Hshape : Forall (fun a => t_shape a = [rows a; d]) arrays).
  { clear - Hs. revert arrays Hs.
    induction (batches test_loader) as [|b bs IH]; intros arrays Hs;
      destruct arrays as [|a arrays]; try discriminate; constructor.
    - simpl in Hs. inversion Hs as [[Ha Hr]]. unfold rows at 1. rewrite Ha.
      reflexivity.
    - apply IH. simpl in Hs. inversion Hs. reflexivity. }
  assert (Hne' : arrays <> []).
  { intros ->. destruct (batches test_loader); [congruence | discriminate]. }
  destruct (concatenate_rows fw d arrays s1 Hne' Hshape) as (t & Ec & Ht).
  assert (Hl : Forall (fun a => t_shape a = [rows a])
                 (map snd (batches test_loader))).
  { apply Forall_forall. intros a Ha. apply in_map_iff in Ha.
    destruct Ha as (b & <- & Hb). rewrite Forall_forall in Hlab.
    pose proof (Hlab b Hb) as L. unfold labelled in L.
    unfold rows at 1. rewrite L. reflexivity. }
  destruct (chain_labels fw (map snd (batches test_loader)) s1 Hl)
    as (items & Eh & Hlen).
  exists t, items, s1. split; [|split].
  - unfold tsne_inputs, iterate.
    rewrite (bind_ok fw _ _ s (batches test_loader) s) by reflexivity.
    rewrite (bind_ok fw _ _ s arrays s1 E1).
    rewrite (bind_ok fw _ _ s1 (batches test_loader) s1) by reflexivity.
    rewrite (bind_ok fw _ _ s1 (map snd (batches test_loader)) s1)
      by apply (label_pass fw (batches test_loader) [] s1).
    rewrite (bind_ok fw _ _ s1 items s1 Eh).
    rewrite (bind_ok fw _ _ s1 t s1 Ec). reflexivity.
  - rewrite Ht, Hrows. reflexivity.
  - rewrite Hlen, map_map. f_equal. apply map_ext_in. intros b Hb.
    rewrite Forall_forall in Hlab. pose proof (Hlab b Hb) as L.
    unfold labelled in L. unfold rows at 1. rewrite L. reflexivity.
Qed.

Lemma latent_encoder_encodes_rows :
  encodes_rows Toy.counting (Samples.latent_encoder Toy.counting) 32.
Proof. intros img s. eexists _, _, _. split; reflexivity. Defined.

Lemma tsne_labels_match_points_witness :
  encodes_rows Toy.counting (Samples.latent_encoder Toy.counting) 32
  /\ batches Toy.two_batches <> []
  /\ Forall labelled (batches Toy.two_batches)
  /\ exists latent_images labels s',
       tsne_inputs Toy.counting (Some (Samples.latent_encoder Toy.counting))
         (VLoader Toy.two_batches) (Toy.start Toy.counting 0)
       = (Ok (latent_images, labels), s')
       /\ t_shape latent_images
          = [list_sum (map (fun b => rows (fst b)) (batches Toy.two_batches)); 32]
       /\ List.length labels
          = list_sum (map (fun b => rows (fst b)) (batches Toy.two_batches)).
Proof.
  assert (Hne : batches Toy.two_batches <> []) by discriminate.
  assert (Hlab : Forall labelled (batches Toy.two_batches))
    by (repeat constructor).
  split; [exact latent_encoder_encodes_rows|].
  split; [exact Hne|]. split; [exact Hlab|].
  exact (tsne_labels_match_points Toy.counting _ 32
           latent_encoder_encodes_rows Toy.two_batches Hne Hlab
           (Toy.start Toy.counting 0)).
Defined.

(* ===================================================================== *)
(** ** Arguments and hard-coded sizes                                     *)
(* ===================================================================== *)

Import Wiring.

(** X17: [setup_data_loaders] builds the training and the test data in
    the same way but for two arguments.  The two [MNIST] calls differ
    only in [train] ([True], then [False]); the two [DataLoader] calls
    differ only in [dataset] ([train_set], then [test_set]) and in
    [shuffle]: the training loader shuffles, the test loader does not,
    so that its batches come in the same order at every pass.  Both
    loaders take the [batch_size] argument, 128 by default, and the
    function returns the pair training loader, test loader. *)
Theorem setup_data_loaders_wiring :
  differences "train_set" "test_set" (body_of VaeTemplate.setup_data_loaders)
  = Some (Some ["MNIST"], Some ["MNIST"], ["train"])
  /\ map (fun x => keyword_of x "train" (body_of VaeTemplate.setup_data_loaders))
       ["train_set"; "test_set"]
     = [Some (EConstant (CBool true)); Some (EConstant (CBool false))]
  /\ differences "train_loader" "test_loader"
       (body_of VaeTemplate.setup_data_loaders)
     = Some (Some ["torch"; "utils"; "data"; "DataLoader"],
             Some ["torch"; "utils"; "data"; "DataLoader"],
             ["dataset"; "shuffle"])
  /\ map (fun x => keyword_of x "dataset" (body_of VaeTemplate.setup_data_loaders))
       ["train_loader"; "test_loader"]
     = [Some (EName "train_set"); Some (EName "test_set")]
  /\ map (fun x => keyword_of x "shuffle" (body_of VaeTemplate.setup_data_loaders))
       ["train_loader"; "test_loader"]
     = [Some (EConstant (CBool true)); Some (EConstant (CBool false))]
  /\ map (fun x => keyword_of x "batch_size" (body_of VaeTemplate.setup_data_loaders))
       ["train_loader"; "test_loader"]
     = [Some (EName "batch_size"); Some (EName "batch_size")]
  /\ default_int "batch_size" VaeTemplate.setup_data_loaders = [Some 128%Z]
  /\ returned (body_of VaeTemplate.setup_data_loaders)
     = [ETuple [EName "train_loader"; EName "test_loader"]].
Proof. repeat split; reflexivity. Qed.

(** X18: the sizes written out in the regression notebook are those of
    the defaults of [RevenueModel]: 2 products and 7 media channels.
    The default bias bounds have 2 entries, the noise prior of [forward]
    has 2 scales and is expanded to [(1, 2)], the inference cell
    reshapes the sampled weights to [(-1, 2, 7)] and draws a grid of 2
    rows and 7 columns; the linear layer takes [media_channels] features
    in and gives [sales_products] out, and the prior of its weight has
    the shape [(sales_products, media_channels)]. *)
Theorem hard_coded_sizes_are_the_defaults :
  (default_int "sales_products" Regression.RevenueModel_init,
   default_int "media_channels" Regression.RevenueModel_init)
  = ([Some 2%Z], [Some 7%Z])
  /\ (default_length "bias_lower_bound" Regression.RevenueModel_init,
      default_length "bias_upper_bound" Regression.RevenueModel_init)
     = ([Some 2%Z], [Some 2%Z])
  /\ tensor_literal_lengths [Regression.RevenueModel_forward] = [Some 2%Z]
  /\ expand_shapes [Regression.RevenueModel_forward] = [Some [1; 2]%Z]
  /\ reshape_targets Regression.inference_cell = [Some [-1; 2; 7]%Z]
  /\ subplot_grids Regression.inference_cell = [(Some 2%Z, Some 7%Z)]
  /\ map keywords_of
       (filter (fun e => match e with
                         | ECall (ESubscript _ _) _ _ => true
                         | _ => false
                         end)
          (exprs_of [Regression.RevenueModel_init]))
     = [[("in_features", EName "media_channels");
         ("out_features", EName "sales_products")]]
  /\ arguments_of ["torch"; "ones"] [Regression.RevenueModel_init]
     = [([EName "sales_products"; EName "media_channels"], []);
        ([EName "sales_products"; EName "media_channels"], [])].
Proof. repeat split; reflexivity. Qed.

(* ===================================================================== *)
(** ** The losses the training loops record                               *)
(* ===================================================================== *)

Import Losses.

Section LossProofs.

Context {scalar : Type} (fw : framework scalar).

Lemma regression_loop_losses (Hstep : step_succeeds fw)
    (X y : tensor scalar) (m : nat) (rest : list nat)
    (HX : t_shape X = S m :: rest) (epochs : list Z) :
  forall (acc : list scalar) (s : state fw),
  exists s',
    for_fold fw epochs acc
      (fun losses (_ : Z) =>
         bind fw (step fw [X; y])
           (fun loss =>
              bind fw (len fw X)
                (fun n => bind fw (truediv fw loss n)
                            (fun q => ret fw (losses ++ [q]))))) s
    = (Ok (acc
           ++ map (fun l => f_div fw l (f_of_Z fw (Z.of_nat (S m))))
                (fst (step_losses fw (st_world fw s) [X; y]
                        (List.length epochs)))),
       s').
Proof.
  induction epochs as [|e epochs IH]; intros acc s.
  - exists s. simpl. rewrite app_nil_r. reflexivity.
  - destruct (Hstep (st_world fw s) [X; y]) as (l & w' & E).
    set (s1 := mkState fw w' (st_plates fw s) (st_log fw s ++ [EvStep [X; y]])).
    assert (B : bind fw (step fw [X; y])
                  (fun loss =>
                     bind fw (len fw X)
                       (fun n => bind fw (truediv fw loss n)
                                   (fun q => ret fw (acc ++ [q])))) s
                = (Ok (acc ++ [f_div fw l (f_of_Z fw (Z.of_nat (S m)))]), s1)).
    { unfold bind, step, prim, len, truediv, ret. rewrite E, HX. reflexivity. }
    destruct (IH (acc ++ [f_div fw l (f_of_Z fw (Z.of_nat (S m)))]) s1)
      as (s' & E').
    exists s'. rewrite for_fold_cons, B, E'.
    cbn [List.length step_losses]. rewrite E.
    unfold s1. cbn [st_world].
    destruct (step_losses fw w' [X; y] (List.length epochs)) as [ls w''].
    cbn [fst map]. rewrite <- app_assoc. reflexivity.
Qed.

Lemma batches_loop_sum (Hstep : step_succeeds fw)
    (bs : list (tensor scalar * tensor scalar)) :
  forall (acc : scalar) (s : state fw),
  exists log,
    for_fold fw bs acc
      (fun epoch_loss b =>
         bind fw (step fw [fst b])
           (fun l => ret fw (f_add fw epoch_loss l))) s
    = (Ok (fst (epoch_sum fw (st_world fw s) bs acc)),
       mkState fw (snd (epoch_sum fw (st_world fw s) bs acc))
         (st_plates fw s) log).
Proof.
  induction bs as [|b bs IH]; intros acc s.
  - exists (st_log fw s). destruct s. reflexivity.
  - destruct (Hstep (st_world fw s) [fst b]) as (l & w' & E).
    destruct (IH (f_add fw acc l)
                (mkState fw w' (st_plates fw s)
                   (st_log fw s ++ [EvStep [fst b]])))
      as (log & E').
    exists log. rewrite for_fold_cons.
    assert (B : bind fw (step fw [fst b])
                  (fun l0 => ret fw (f_add fw acc l0)) s
                = (Ok (f_add fw acc l),
                   mkState fw w' (st_plates fw s)
                     (st_log fw s ++ [EvStep [fst b]]))).
    { unfold bind, step, prim, ret. rewrite E. reflexivity. }
    rewrite B, E'. cbn [epoch_sum st_world st_plates]. rewrite E. reflexivity.
Qed.

Lemma vae_loop_losses (Hstep : step_succeeds fw)
    (train : loader scalar) (k : nat) (Hd : dataset_len train = S k)
    (epochs : list Z) :
  forall (acc : list scalar) (s : state fw),
  exists s',
    for_fold fw epochs acc
      (fun (loss : list scalar) (epoch : Z) =>
         bind fw (iterate fw (VLoader train))
           (fun train_batches =>
              bind fw (for_fold fw train_batches (f_of_Z fw 0)
                         (fun epoch_loss b =>
                            bind fw (step fw [fst b])
                              (fun l => ret fw (f_add fw epoch_loss l))))
                (fun epoch_loss =>
                   bind fw (len_dataset fw (VLoader train))
                     (fun normalizer_train =>
                        bind fw (truediv fw epoch_loss normalizer_train)
                          (fun total_epoch_loss_train =>
                             bind fw (if (epoch mod 10 =? 0)%Z
                                      then print fw total_epoch_loss_train
                                      else ret fw tt)
                               (fun _ =>
                                  ret fw (loss ++ [total_epoch_loss_train])))))))
      s
    = (Ok (acc ++ epoch_losses fw (st_world fw s) train (List.length epochs)),
       s').
Proof.
  induction epochs as [|e epochs IH]; intros acc s.
  - exists s. simpl. rewrite app_nil_r. reflexivity.
  - destruct (batches_loop_sum Hstep (batches train) (f_of_Z fw 0) s)
      as (log & E1).
    set (total := fst (epoch_sum fw (st_world fw s) (batches train) (f_of_Z fw 0)))
      in *.
    set (w1 := snd (epoch_sum fw (st_world fw s) (batches train) (f_of_Z fw 0)))
      in *.
    set (q := f_div fw total (f_of_Z fw (Z.of_nat (S k)))).
    assert (B : exists s1,
               bind fw (iterate fw (VLoader train))
                 (fun train_batches =>
                    bind fw (for_fold fw train_batches (f_of_Z fw 0)
                               (fun epoch_loss b =>
                                  bind fw (step fw [fst b])
                                    (fun l => ret fw (f_add fw epoch_loss l))))
                      (fun epoch_loss =>
                         bind fw (len_dataset fw (VLoader train))
                           (fun normalizer_train =>
                              bind fw (truediv fw epoch_loss normalizer_train)
                                (fun total_epoch_loss_train =>
                                   bind fw (if (e mod 10 =? 0)%Z
                                            then print fw total_epoch_loss_train
                                            else ret fw tt)
                                     (fun _ =>
                                        ret fw (acc ++ [total_epoch_loss_train]))))))
                 s
               = (Ok (acc ++ [q]), s1)
               /\ st_world fw s1 = w1).
    { unfold iterate.
      rewrite (bind_ok fw _ _ s (batches train) s) by reflexivity.
      rewrite (bind_ok fw _ _ s total _ E1).
      unfold len_dataset.
      rewrite (bind_ok fw _ _ _ (dataset_len train) _) by reflexivity.
      rewrite Hd.
      rewrite (bind_ok fw _ _ _ q _) by reflexivity.
      destruct (e mod 10 =? 0)%Z; eexists; split; reflexivity. }
    destruct B as (s1 & B & W1).
    destruct (IH (acc ++ [q]) s1) as (s' & E').
    exists s'. rewrite for_fold_cons, B, E', W1.
    cbn [List.length epoch_losses].
    fold total w1.
    destruct (epoch_sum fw (st_world fw s) (batches train) (f_of_Z fw 0))
      as [t0 w0] eqn:ES.
    unfold total, w1, q. cbn [fst snd]. rewrite Hd, <- app_assoc. reflexivity.
Qed.

End LossProofs.

(** X19: the losses the regression training cell returns are the losses
    of the [EPOCHS] successive calls [svi.step(X, y)], in order, each
    divided by the number of rows of [X]. *)
Theorem training_records_loss_per_row {scalar : Type} (fw : framework scalar)
    (Hstep : step_succeeds fw)
    (X y : tensor scalar) (m : nat) (rest : list nat)
    (HX : t_shape X = S m :: rest) (s : state fw) :
  fst (training_cell fw X y s)
  = Ok (map (fun l => f_div fw l (f_of_Z fw (Z.of_nat (S m))))
          (fst (step_losses fw (clear fw (st_world fw s)) [X; y]
                  (Z.to_nat EPOCHS)))).
Proof.
  set (s0 := mkState fw (clear fw (st_world fw s)) (st_plates fw s)
               (st_log fw s ++ [EvClearParamStore])).
  destruct (regression_loop_losses fw Hstep X y m rest HX
              (tqdm (py_range EPOCHS)) [] s0) as (s1 & E1).
  unfold tqdm in E1. rewrite py_range_length in E1. cbn [app] in E1.
  unfold training_cell.
  rewrite (bind_ok fw _ _ s tt s0) by reflexivity.
  unfold tqdm. rewrite (bind_ok fw _ _ s0 _ s1 E1). reflexivity.
Qed.

Lemma training_records_loss_per_row_witness :
  step_succeeds Toy.counting
  /\ t_shape Toy.media = 3 :: [7]
  /\ fst (training_cell Toy.counting Toy.media Toy.sales
            (Toy.start Toy.counting 0))
     = Ok (map (fun l => f_div Toy.counting l
                           (f_of_Z Toy.counting (Z.of_nat 3)))
             (fst (step_losses Toy.counting
                     (clear Toy.counting
                        (st_world _ (Toy.start Toy.counting 0)))
                     [Toy.media; Toy.sales] (Z.to_nat EPOCHS)))).
Proof.
  split; [exact counting_step_succeeds|].
  split; [reflexivity|].
  exact (training_records_loss_per_row Toy.counting counting_step_succeeds
           Toy.media Toy.sales 2 [7] eq_refl (Toy.start Toy.counting 0)).
Defined.

(** X20: with [EPOCHS] bound to [n] and the loaders bound, the losses
    the template's training cell returns are, epoch by epoch, the sum
    from 0 of the losses [svi.step] returned on the batches of the
    training loader, divided by the size of the training data set: by
    the number of images, not by the number of batches.  The test
    loader plays no part. *)
Theorem vae_training_records_loss_per_image {scalar : Type}
    (fw : framework scalar) (Hstep : step_succeeds fw)
    (n : nat) (train test : loader scalar) (Hd : 0 < dataset_len train)
    (s : state fw) :
  fst (vae_training_cell_with fw (VInt (Z.of_nat n))
         (VTuple [VLoader train; VLoader test]) s)
  = Ok (epoch_losses fw (clear fw (st_world fw s)) train n).
Proof.
  destruct (dataset_len train) as [|k] eqn:Hk; [lia|].
  set (s0 := mkState fw (clear fw (st_world fw s)) (st_plates fw s)
               (st_log fw s ++ [EvClearParamStore])).
  destruct (vae_loop_losses fw Hstep train k Hk (py_range (Z.of_nat n)) [] s0)
    as (s1 & E1).
  rewrite py_range_length, Nat2Z.id in E1. cbn [app] in E1.
  unfold vae_training_cell_with, unpack2.
  rewrite (bind_ok fw _ _ s (VLoader train, VLoader test) s) by reflexivity.
  rewrite (bind_ok fw _ _ s tt s0) by reflexivity.
  unfold range_of.
  rewrite (bind_ok fw _ _ s0 (py_range (Z.of_nat n)) s0) by reflexivity.
  unfold tqdm. cbn [fst]. rewrite (bind_ok fw _ _ s0 _ s1 E1).
  reflexivity.
Qed.

Lemma vae_training_records_loss_per_image_witness :
  step_succeeds Toy.counting
  /\ 0 < dataset_len Toy.two_batches
  /\ fst (vae_training_cell_with Toy.counting (VInt (Z.of_nat 4))
            (VTuple [VLoader Toy.two_batches; VLoader Samples.empty_set])
            (Toy.start Toy.counting 0))
     = Ok (epoch_losses Toy.counting
             (clear Toy.counting (st_world _ (Toy.start Toy.counting 0)))
             Toy.two_batches 4).
Proof.
  split; [exact counting_step_succeeds|].
  split; [simpl; lia|].
  apply (vae_training_records_loss_per_image Toy.counting
           counting_step_succeeds 4 Toy.two_batches Samples.empty_set).
  simpl; lia.
Defined.
